(** * Multi-agent research pipeline: search orchestration and envelopes

    A shallow embedding of the search orchestrator
    ([agents/research_agent.py]), the two provider clients
    ([tools/tavily_search.py], [tools/serp_search.py]), the email agent
    ([agents/email_agent.py]) and the n8n entry point
    ([n8n_integration.py]), over the data model of [agents/models.py].

    Python exceptions are values of [exn]; code that can raise, reads the
    clock or awaits a collaborator lives in the monad [M], a state monad
    over [World] whose state survives a raise.  Only subclasses of
    [Exception] are modelled: cancellation and interpreter exits are not. *)

From Stdlib Require Import String Ascii List ZArith QArith Bool Lia.
From Stdlib Require Import DecimalString.
Import ListNotations.

Open Scope string_scope.
Open Scope Z_scope.

(** ** Strings as Python formats them *)

Module Str.

Definition nl : string := String (ascii_of_nat 10) EmptyString.
Definition dq : string := String (ascii_of_nat 34) EmptyString.

(** [str(n)] / [f"{n}"] for an integer. *)
Definition of_Z (z : Z) : string := NilZero.string_of_int (Z.to_int z).
Definition of_nat (n : nat) : string := of_Z (Z.of_nat n).

(** [sep.join(l)]. *)
Fixpoint join (sep : string) (l : list string) : string :=
  match l with
  | [] => ""
  | [x] => x
  | x :: rest => x ++ sep ++ join sep rest
  end.

(** [s[:n]]. *)
Definition take (n : nat) (s : string) : string := substring 0 n s.

(** [needle in s]. *)
Fixpoint contains (needle s : string) : bool :=
  prefix needle s ||
  match s with
  | EmptyString => false
  | String _ s' => contains needle s'
  end.

(** [s.split(sep)] for a non-empty [sep]: [skip] counts the characters of a
    separator that has just been matched and is still to be dropped, [cur]
    is the piece being collected. *)
Fixpoint split_aux (sep : string) (skip : nat) (cur s : string) : list string :=
  match s with
  | EmptyString => [cur]
  | String c s' =>
      match skip with
      | S k => split_aux sep k cur s'
      | O =>
          if prefix sep s
          then cur :: split_aux sep (String.length sep - 1) "" s'
          else split_aux sep 0 (cur ++ String c EmptyString) s'
      end
  end.

Definition split (sep s : string) : list string := split_aux sep 0 "" s.

(** [s.split(sep)[-1]]. *)
Definition split_last (sep s : string) : string := last (split sep s) "".

End Str.

(** ** agents/models.py *)

Inductive SearchProvider := TAVILY | SERP.

(** [p.value] *)
Definition SearchProvider_value (p : SearchProvider) : string :=
  match p with TAVILY => "tavily" | SERP => "serp" end.

Module TavilySearchResult.
Record t := mk {
    title : string;
    url : string;
    content : string;
    score : Q;                          (* ge=0.0, le=1.0 *)
    published_date : option string;
    raw_content : option string;
    provider : SearchProvider }.
End TavilySearchResult.

Module SerpSearchResult.
Record t := mk {
    title : string;
    url : string;
    snippet : string;
    position : Z;                       (* ge=1 *)
    displayed_link : option string;
    cached_page_link : option string;
    provider : SearchProvider }.
End SerpSearchResult.

(** [Union[TavilySearchResult, SerpSearchResult]] *)
Inductive SearchResult :=
| OfTavily (r : TavilySearchResult.t)
| OfSerp (r : SerpSearchResult.t).

Definition result_title (r : SearchResult) : string :=
  match r with
  | OfTavily t => TavilySearchResult.title t
  | OfSerp s => SerpSearchResult.title s
  end.

Definition result_url (r : SearchResult) : string :=
  match r with
  | OfTavily t => TavilySearchResult.url t
  | OfSerp s => SerpSearchResult.url s
  end.

Definition result_provider (r : SearchResult) : SearchProvider :=
  match r with
  | OfTavily t => TavilySearchResult.provider t
  | OfSerp s => SerpSearchResult.provider s
  end.

(** Times are clock readings and differences of clock readings, in ticks. *)
Record SearchResults := mkSearchResults {
  query : string;
  results : list SearchResult;
  total_results : Z;
  search_time : Z;
  providers_used : list SearchProvider;
  ai_summary : option string;
  timestamp : Z }.

Definition set_search_time (r : SearchResults) (t : Z) : SearchResults :=
  {| query := query r; results := results r; total_results := total_results r;
     search_time := t; providers_used := providers_used r;
     ai_summary := ai_summary r; timestamp := timestamp r |}.

Record EmailDraft := mkEmailDraft {
  to : list string;
  subject : string;
  body : string;
  cc : option (list string);
  bcc : option (list string);
  attachments : option (list string);
  draft_id : option string;
  created_at : Z }.

Definition set_draft_id (d : EmailDraft) (i : option string) : EmailDraft :=
  {| to := to d; subject := subject d; body := body d; cc := cc d;
     bcc := bcc d; attachments := attachments d; draft_id := i;
     created_at := created_at d |}.

Record ResearchEmailRequest := mkResearchEmailRequest {
  research_query : string;
  email_context : string;
  recipient_email : string;
  subject_hint : option string;
  tone : string;
  include_sources : bool }.

(** The dict [run_research_agent] builds and passes as [data]. *)
Record ResearchData := mkResearchData {
  rd_summary : string;
  rd_search_results : SearchResults;
  rd_sources : list string;
  rd_query : string }.

(** [Union[SearchResults, EmailDraft, str]] *)
Inductive ResponseData :=
| DataSearch (r : SearchResults)
| DataEmail (d : EmailDraft)
| DataText (s : string).

(** What [AgentResponse] stores when [data] is given the dict.  Of the
    members of the union only [SearchResults] validates from a dict: it
    takes "query" from it, ignores the keys that are no field of it
    ("summary", "search_results", "sources") and fills its other fields
    with their defaults; [created] is the clock reading [timestamp]
    defaults to. *)
Definition stored (d : ResearchData) (created : Z) : ResponseData :=
  DataSearch {| query := rd_query d; results := []; total_results := 0;
                search_time := 0; providers_used := []; ai_summary := None;
                timestamp := created |}.

Record AgentResponse := mkAgentResponse {
  success : bool;
  data : option ResponseData;
  message : string;
  error : option string;
  execution_time : Z;
  tokens_used : option Z }.

(** The exception classes of [models.py], the two [httpx] classes the
    clients tell apart, and [Exception] for every other class.  [TavilyAPIError] and [SerpAPIError] are subclasses of
    [SearchError] whose provider tag is fixed by the class. *)
Inductive exn :=
| SearchError (msg : string) (provider : option SearchProvider) (status_code : option Z)
| TavilyAPIError (msg : string) (status_code : option Z)
| SerpAPIError (msg : string) (status_code : option Z)
| GmailAPIError (msg : string) (status_code : option Z)
| TimeoutException (msg : string)      (* httpx.TimeoutException *)
| RequestError (msg : string)          (* httpx.RequestError, timeouts apart *)
| Exception (msg : string).

(** [str(e)] *)
Definition str (e : exn) : string :=
  match e with
  | SearchError m _ _ | TavilyAPIError m _ | SerpAPIError m _
  | GmailAPIError m _ | TimeoutException m | RequestError m | Exception m => m
  end.

(** [isinstance(e, SearchError)] *)
Definition is_SearchError (e : exn) : bool :=
  match e with
  | SearchError _ _ _ | TavilyAPIError _ _ | SerpAPIError _ _ => true
  | _ => false
  end.

(** [isinstance(e, GmailAPIError)] *)
Definition is_GmailAPIError (e : exn) : bool :=
  match e with
  | GmailAPIError _ _ => true
  | _ => false
  end.

(** [e.provider] for a [SearchError]. *)
Definition exn_provider (e : exn) : option SearchProvider :=
  match e with
  | SearchError _ p _ => p
  | TavilyAPIError _ _ => Some TAVILY
  | SerpAPIError _ _ => Some SERP
  | _ => None
  end.

(** ** Effects: the clock, the client invocations, and raising *)

Inductive result (A : Type) :=
| Raise (e : exn)
| Return (a : A).
Arguments Raise {A} e.
Arguments Return {A} a.

(** [now] is what [time.time()] reads; [calls] lists the provider clients
    whose [search] has been awaited by the orchestrator, oldest first. *)
Record World := mkWorld {
  now : Z;
  calls : list SearchProvider }.

Definition M (A : Type) : Type := World -> result A * World.

Definition ret {A} (a : A) : M A := fun w => (Return a, w).

Definition bind {A B} (m : M A) (k : A -> M B) : M B :=
  fun w =>
    match m w with
    | (Return a, w') => k a w'
    | (Raise e, w') => (Raise e, w')
    end.

Definition raise {A} (e : exn) : M A := fun w => (Raise e, w).

(** [try: body  except Exception as e: handler e]; a handler that lists
    several classes matches on [e]. *)
Definition try_except {A} (body : M A) (handler : exn -> M A) : M A :=
  fun w =>
    match body w with
    | (Return a, w') => (Return a, w')
    | (Raise e, w') => handler e w'
    end.

(** [time.time()] *)
Definition time_time : M Z := fun w => (Return (now w), w).

(** A [result] computed without effects, used in place. *)
Definition lift {A} (r : result A) : M A := fun w => (r, w).

Declare Scope M_scope.
Delimit Scope M_scope with M.
Notation "x <- c ;; k" := (bind c (fun x => k))
  (at level 100, c at next level, right associativity) : M_scope.
Notation "c ;;; k" := (bind c (fun _ => k))
  (at level 100, right associativity) : M_scope.
Open Scope M_scope.

Fixpoint mapM {A B} (f : A -> M B) (l : list A) : M (list B) :=
  match l with
  | [] => ret []
  | x :: rest => y <- f x ;; ys <- mapM f rest ;; ret (y :: ys)
  end.

(** [for i, x in enumerate(l, start)]: build one value per element. *)
Fixpoint mapM_enum {A B} (f : Z -> A -> M B) (start : Z) (l : list A) : M (list B) :=
  match l with
  | [] => ret []
  | x :: rest => y <- f start x ;; ys <- mapM_enum f (start + 1) rest ;; ret (y :: ys)
  end.

(** What awaiting a collaborator (a provider client, a language model, the
    mail service) comes to: the time it took and what it returned or
    raised.  A collaborator is a function of the clock reading at the
    call; it has no access to [calls]. *)
Record Outcome (A : Type) := mkOutcome {
  elapsed : Z;
  value : result A }.
Arguments mkOutcome {A} elapsed value.
Arguments elapsed {A} o.
Arguments value {A} o.

Definition Awaitable (A : Type) : Type := Z -> Outcome A.

(** [await f(...)] *)
Definition await {A} (f : Awaitable A) : M A :=
  fun w =>
    let o := f (now w) in
    (value o, {| now := now w + elapsed o; calls := calls w |}).

(** [await tool.search(...)] on the client of provider [p]. *)
Definition await_search {A} (p : SearchProvider) (f : Awaitable A) : M A :=
  fun w =>
    let o := f (now w) in
    (value o, {| now := now w + elapsed o; calls := calls w ++ [p] |}).

(** A coroutine body of this file, seen from its caller. *)
Definition as_awaitable {A} (m : M A) : Awaitable A :=
  fun t0 =>
    let '(r, w) := m {| now := t0; calls := [] |} in
    {| elapsed := now w - t0; value := r |}.

(** ** Parsed JSON and the Python operations the clients apply to it *)

#[warnings="-register-all"]
Inductive json :=
| JNull
| JBool (b : bool)
| JInt (z : Z)
| JFloat (q : Q)
| JStr (s : string)
| JList (l : list json)
| JDict (kvs : list (string * json)).

(** [d[k]] on the association list of a parsed object (keys are unique
    after parsing). *)
Fixpoint dict_lookup (k : string) (kvs : list (string * json)) : option json :=
  match kvs with
  | [] => None
  | (k', v) :: rest => if String.eqb k k' then Some v else dict_lookup k rest
  end.

(** The exceptions the interpreter and pydantic raise on ill-shaped data. *)
Inductive Fault :=
| NoAttributeGet (v : json)            (* v.get(...) where v is no dict *)
| NotIterable (v : json)               (* for _ in v *)
| NotContainer (v : json)              (* k in v *)
| BadSubscript (v : json) (k : string) (* v[k] *)
| Invalid (model : string) (v : json). (* pydantic ValidationError *)

(** What Python and pydantic fix and the sources do not: how a parsed value
    prints, the text of interpreter-raised exceptions, and which parsed
    values pydantic accepts for a [str], [float] or [int] field. *)
Class Python := {
  str_json : json -> string;
  str_fault : Fault -> string;
  validate_str : json -> option string;
  validate_float : json -> option Q;
  validate_int : json -> option Z }.

Section Json.
Context `{Python}.

Definition fault {A} (f : Fault) : M A := raise (Exception (str_fault f)).

(** [k in v] *)
Definition py_contains (k : string) (v : json) : M bool :=
  match v with
  | JDict kvs => ret (match dict_lookup k kvs with Some _ => true | None => false end)
  | JList l => ret (existsb (fun x => match x with JStr s => String.eqb s k | _ => false end) l)
  | JStr s => ret (Str.contains k s)
  | _ => fault (NotContainer v)
  end.

(** [v[k]] for a string [k] *)
Definition py_getitem (v : json) (k : string) : M json :=
  match v with
  | JDict kvs =>
      match dict_lookup k kvs with
      | Some x => ret x
      | None => fault (BadSubscript v k)
      end
  | _ => fault (BadSubscript v k)
  end.

(** [v.get(k)]; the caller supplies the default for [None]. *)
Definition py_get (v : json) (k : string) : M (option json) :=
  match v with
  | JDict kvs => ret (dict_lookup k kvs)
  | _ => fault (NoAttributeGet v)
  end.

(** The elements [for x in v] visits. *)
Definition py_iter (v : json) : M (list json) :=
  match v with
  | JList l => ret l
  | JDict kvs => ret (map (fun kv => JStr (fst kv)) kvs)
  | JStr s => ret (map (fun c => JStr (String c EmptyString)) (list_ascii_of_string s))
  | _ => fault (NotIterable v)
  end.

(** pydantic on a field of type [str] given [x] or, when the key was
    absent, the Python default [dflt]. *)
Definition field_str (dflt : string) (x : option json) : option string :=
  match x with
  | None => Some dflt
  | Some v => validate_str v
  end.

(** A field of type [Optional[str]] given [v.get(k)]. *)
Definition field_opt_str (x : option json) : option (option string) :=
  match x with
  | None | Some JNull => Some None
  | Some v => option_map Some (validate_str v)
  end.

End Json.

(** ** The network, as the clients see it through [httpx] *)

Record HttpResponse := mkHttpResponse {
  status_code : Z;
  text : string;
  json_body : result json }.            (* response.json() *)

Record TavilyPayload := mkTavilyPayload {
  tp_api_key : string;
  tp_query : string;
  tp_search_depth : string;
  tp_include_answer : bool;
  tp_include_raw_content : bool;
  tp_max_results : Z;
  tp_include_domains : list string;
  tp_exclude_domains : list string }.

Record SerpParams := mkSerpParams {
  sp_api_key : string;
  sp_engine : string;
  sp_q : string;
  sp_num : Z;
  sp_google_domain : string;
  sp_gl : string;
  sp_hl : string;
  sp_safe : string;
  sp_tbs : option string }.

(** [client.post(url, json=payload, timeout=t)] and
    [client.get(url, params=params, timeout=t)]. *)
Record Network := mkNetwork {
  post : string -> TavilyPayload -> Z -> Awaitable HttpResponse;
  get : string -> SerpParams -> Z -> Awaitable HttpResponse }.

(** [x or []] *)
Definition or_empty {A} (x : option (list A)) : list A :=
  match x with Some l => l | None => [] end.

(** ** tools/tavily_search.py *)

Module TavilySearchTool.

Record t := mk {
  api_key : string;
  timeout : Z;
  base_url : string }.

Definition init (api_key : string) (timeout : Z) : t :=
  mk api_key timeout "https://api.tavily.com".

(** The request payload; the result cap is clamped to Tavily's 50. *)
Definition payload_of (self : t) (query : string) (max_results : Z)
    (search_depth : string) (include_answer : bool)
    (include_domains exclude_domains : option (list string)) : TavilyPayload :=
  {| tp_api_key := api_key self;
     tp_query := query;
     tp_search_depth := search_depth;
     tp_include_answer := include_answer;
     tp_include_raw_content := true;
     tp_max_results := Z.min max_results 50;
     tp_include_domains := or_empty include_domains;
     tp_exclude_domains := or_empty exclude_domains |}.

Section WithNetwork.
Context `{Python} (net : Network).

(** The relevance score: a [float] field with [ge=0.0, le=1.0]. *)
Definition field_score (x : option json) : option Q :=
  match x with
  | None => Some 0%Q
  | Some v =>
      match validate_float v with
      | Some q => if Qle_bool 0 q && Qle_bool q 1 then Some q else None
      | None => None
      end
  end.

(** One pass of the loop over [data.get("results", [])]. *)
Definition make_result (result : json) : M SearchResult :=
  title <- py_get result "title" ;;
  url <- py_get result "url" ;;
  content <- py_get result "content" ;;
  score <- py_get result "score" ;;
  published_date <- py_get result "published_date" ;;
  raw_content <- py_get result "raw_content" ;;
  match field_str "" title, field_str "" url, field_str "" content,
        field_score score, field_opt_str published_date,
        field_opt_str raw_content with
  | Some ti, Some u, Some c, Some s, Some pd, Some rc =>
      ret (OfTavily (TavilySearchResult.mk ti u c s pd rc TAVILY))
  | _, _, _, _, _, _ => fault (Invalid "TavilySearchResult" result)
  end.

Definition search (self : t) (query : string) (max_results : Z)
    (search_depth : string) (include_answer : bool)
    (include_domains exclude_domains : option (list string)) : M SearchResults :=
  start_time <- time_time ;;
  try_except
    (let payload :=
       payload_of self query max_results search_depth include_answer
         include_domains exclude_domains in
     response <- await (post net (base_url self ++ "/search") payload (timeout self)) ;;
     (if negb (status_code response =? 200) then
        let error_msg := "Tavily API returned " ++ Str.of_Z (status_code response) in
        error_msg' <-
          try_except
            (error_data <- lift (json_body response) ;;
             has_error <- py_contains "error" error_data ;;
             if has_error
             then e <- py_getitem error_data "error" ;;
                  ret (error_msg ++ ": " ++ str_json e)
             else ret error_msg)
            (fun _ => ret (error_msg ++ ": " ++ Str.take 200 (text response))) ;;
        raise (TavilyAPIError error_msg' (Some (status_code response)))
      else ret tt) ;;;
     data <- lift (json_body response) ;;
     raw <- py_get data "results" ;;
     items <- py_iter (match raw with Some v => v | None => JList [] end) ;;
     results <- mapM make_result items ;;
     finished <- time_time ;;
     let execution_time := finished - start_time in
     summary <-
       (if include_answer
        then answer <- py_get data "answer" ;;
             match field_opt_str answer with
             | Some a => ret a
             | None => fault (Invalid "SearchResults" data)
             end
        else ret None) ;;
     created <- time_time ;;
     ret {| query := query;
            results := results;
            total_results := Z.of_nat (length results);
            search_time := execution_time;
            providers_used := [TAVILY];
            ai_summary := summary;
            timestamp := created |})
    (fun e =>
       match e with
       | TimeoutException _ =>
           raise (TavilyAPIError
                    ("Tavily search timeout after " ++ Str.of_Z (timeout self) ++ "s") None)
       | RequestError _ =>
           raise (TavilyAPIError ("Tavily request failed: " ++ str e) None)
       | _ =>
           raise (TavilyAPIError ("Unexpected Tavily search error: " ++ str e) None)
       end).

End WithNetwork.
End TavilySearchTool.

(** ** tools/serp_search.py *)

Module SerpSearchTool.

Record t := mk {
  api_key : string;
  timeout : Z;
  base_url : string }.

Definition init (api_key : string) (timeout : Z) : t :=
  mk api_key timeout "https://serpapi.com/search".

Definition time_filters : list (string * string) :=
  [("hour", "qdr:h"); ("day", "qdr:d"); ("week", "qdr:w");
   ("month", "qdr:m"); ("year", "qdr:y")].

Fixpoint assoc (k : string) (l : list (string * string)) : option string :=
  match l with
  | [] => None
  | (k', v) :: rest => if String.eqb k k' then Some v else assoc k rest
  end.

(** [params["tbs"]], set only [if time_period and time_period in time_filters]. *)
Definition tbs_of (time_period : option string) : option string :=
  match time_period with
  | None | Some EmptyString => None
  | Some p => assoc p time_filters
  end.

(** The request parameters; the result cap is clamped to Google's 100. *)
Definition params_of (self : t) (query : string) (max_results : Z)
    (country language safe_search : string) (time_period : option string)
    : SerpParams :=
  {| sp_api_key := api_key self;
     sp_engine := "google";
     sp_q := query;
     sp_num := Z.min max_results 100;
     sp_google_domain := "google.com";
     sp_gl := country;
     sp_hl := language;
     sp_safe := safe_search;
     sp_tbs := tbs_of time_period |}.

(** [_generate_summary(self, results)] *)
Definition _generate_summary (results : list SearchResult) : string :=
  match results with
  | [] => "No search results found."
  | _ =>
      let top_results := firstn 3 results in
      let sources := map result_url top_results in
      Str.join " "
        [ "Found " ++ Str.of_nat (length results) ++ " search results.";
          "Top sources: " ++ Str.join ", " (firstn 3 sources) ]
  end.

Section WithNetwork.
Context `{Python} (net : Network).

(** The position: an [int] field with [ge=1]; [dflt] is [i + 1]. *)
Definition field_position (dflt : Z) (x : option json) : option Z :=
  match x with
  | None => if 1 <=? dflt then Some dflt else None
  | Some v =>
      match validate_int v with
      | Some z => if 1 <=? z then Some z else None
      | None => None
      end
  end.

(** One pass of the loop over [enumerate(organic_results)]. *)
Definition make_result (i : Z) (result : json) : M SearchResult :=
  title <- py_get result "title" ;;
  link <- py_get result "link" ;;
  snippet <- py_get result "snippet" ;;
  position <- py_get result "position" ;;
  displayed_link <- py_get result "displayed_link" ;;
  cached_page_link <- py_get result "cached_page_link" ;;
  match field_str "" title, field_str "" link, field_str "" snippet,
        field_position (i + 1) position, field_opt_str displayed_link,
        field_opt_str cached_page_link with
  | Some ti, Some u, Some sn, Some p, Some dl, Some cl =>
      ret (OfSerp (SerpSearchResult.mk ti u sn p dl cl SERP))
  | _, _, _, _, _, _ => fault (Invalid "SerpSearchResult" result)
  end.

Definition search (self : t) (query : string) (max_results : Z)
    (country language safe_search : string) (time_period : option string)
    : M SearchResults :=
  start_time <- time_time ;;
  try_except
    (let params :=
       params_of self query max_results country language safe_search time_period in
     response <- await (get net (base_url self) params (timeout self)) ;;
     (if negb (status_code response =? 200) then
        let error_msg := "SerpAPI returned " ++ Str.of_Z (status_code response) in
        error_msg' <-
          try_except
            (error_data <- lift (json_body response) ;;
             has_error <- py_contains "error" error_data ;;
             if has_error
             then e <- py_getitem error_data "error" ;;
                  ret (error_msg ++ ": " ++ str_json e)
             else ret error_msg)
            (fun _ => ret (error_msg ++ ": " ++ Str.take 200 (text response))) ;;
        raise (SerpAPIError error_msg' (Some (status_code response)))
      else ret tt) ;;;
     data <- lift (json_body response) ;;
     has_error <- py_contains "error" data ;;
     (if has_error
      then e <- py_getitem data "error" ;;
           raise (SerpAPIError ("SerpAPI error: " ++ str_json e) None)
      else ret tt) ;;;
     raw <- py_get data "organic_results" ;;
     let organic_results := match raw with Some v => v | None => JList [] end in
     items <- py_iter organic_results ;;
     results <- mapM_enum make_result 0 items ;;
     finished <- time_time ;;
     let execution_time := finished - start_time in
     created <- time_time ;;
     ret {| query := query;
            results := results;
            total_results := Z.of_nat (length results);
            search_time := execution_time;
            providers_used := [SERP];
            ai_summary := match results with
                          | [] => None
                          | _ => Some (_generate_summary results)
                          end;
            timestamp := created |})
    (fun e =>
       match e with
       | TimeoutException _ =>
           raise (SerpAPIError
                    ("SerpAPI search timeout after " ++ Str.of_Z (timeout self) ++ "s") None)
       | RequestError _ =>
           raise (SerpAPIError ("SerpAPI request failed: " ++ str e) None)
       | _ =>
           raise (SerpAPIError ("Unexpected SerpAPI search error: " ++ str e) None)
       end).

End WithNetwork.
End SerpSearchTool.

(** ** config/settings.py *)

(** The settings the search and email code read; the language-model and
    logging settings are read elsewhere. *)
Module Settings.
Record t := mk {
    tavily_api_key : option string;
    serp_api_key : option string;
    gmail_credentials_path : string;
    search_strategy : string;
    max_search_results : Z;
    search_timeout : Z }.

  (** [settings.search_strategy = s]: assignment is not validated. *)
Definition set_search_strategy (s : t) (v : string) : t :=
    {| tavily_api_key := tavily_api_key s; serp_api_key := serp_api_key s;
       gmail_credentials_path := gmail_credentials_path s;
       search_strategy := v; max_search_results := max_search_results s;
       search_timeout := search_timeout s |}.
End Settings.

(** Truth value of an [Optional[str]]. *)
Definition truthy (s : option string) : bool :=
  match s with
  | Some (String _ _) => true
  | _ => false
  end.

(** ** agents/research_agent.py *)

(** What the orchestrator needs of a provider client: an awaitable
    [search].  The first is called as
    [search(query, max_results, search_depth=..., include_answer=...)], the
    second as [search(query, max_results)]. *)
Record TavilyClient := mkTavilyClient {
  tavily_search : string -> Z -> string -> bool -> Awaitable SearchResults }.

Record SerpClient := mkSerpClient {
  serp_search : string -> Z -> Awaitable SearchResults }.

Module ResearchAgentDeps.
Record t := mk {
    settings : Settings.t;
    tavily_api_key : option string;
    serp_api_key : option string;
    gmail_credentials_path : string;
    tavily_tool : option TavilyClient;
    serp_tool : option SerpClient }.

Definition set_settings (d : t) (s : Settings.t) : t :=
    {| settings := s; tavily_api_key := tavily_api_key d;
       serp_api_key := serp_api_key d;
       gmail_credentials_path := gmail_credentials_path d;
       tavily_tool := tavily_tool d; serp_tool := serp_tool d |}.

Section Init.
Context `{Python} (net : Network).

  (** The [TavilySearchTool] and [SerpSearchTool] instances as clients, with
      the defaults of the parameters the orchestrator does not pass. *)
Definition tavily_client (tool : TavilySearchTool.t) : TavilyClient :=
    {| tavily_search q n depth answer :=
         as_awaitable (TavilySearchTool.search net tool q n depth answer None None) |}.

Definition serp_client (tool : SerpSearchTool.t) : SerpClient :=
    {| serp_search q n :=
         as_awaitable (SerpSearchTool.search net tool q n "us" "en" "off" None) |}.

  (** [ResearchAgentDeps()], with [env] what [Settings()] loads. *)
Definition init (env : Settings.t) : t :=
    {| settings := env;
       tavily_api_key := Settings.tavily_api_key env;
       serp_api_key := Settings.serp_api_key env;
       gmail_credentials_path := Settings.gmail_credentials_path env;
       tavily_tool :=
         match Settings.tavily_api_key env with
         | Some (String _ _ as k) =>
             Some (tavily_client (TavilySearchTool.init k (Settings.search_timeout env)))
         | _ => None
         end;
       serp_tool :=
         match Settings.serp_api_key env with
         | Some (String _ _ as k) =>
             Some (serp_client (SerpSearchTool.init k (Settings.search_timeout env)))
         | _ => None
         end |}.
End Init.
End ResearchAgentDeps.

Import ResearchAgentDeps(settings, tavily_tool, serp_tool).

Definition is_some {A} (x : option A) : bool :=
  match x with Some _ => true | None => false end.

(** The names [available_providers] collects. *)
Definition available_providers (ctx : ResearchAgentDeps.t) : list string :=
  (if is_some (tavily_tool ctx) then ["Tavily"] else [])
  ++ (if is_some (serp_tool ctx) then ["SerpAPI"] else []).

(** The [else] branch of the strategy test: Tavily first, SerpAPI when no
    results have been obtained, and a [SearchError] when there are still
    none.  [search_results] is the empty envelope built on entry. *)
Definition intelligent_branch (ctx : ResearchAgentDeps.t) (query : string)
    (max_results : Z) (search_results : SearchResults) : M SearchResults :=
  search_results <-
    match tavily_tool ctx with
    | Some tool =>
        try_except
          (await_search TAVILY (tavily_search tool query max_results "advanced" true))
          (fun _ => ret search_results)
    | None => ret search_results
    end ;;
  search_results <-
    match results search_results, serp_tool ctx with
    | [], Some tool =>
        try_except
          (await_search SERP (serp_search tool query max_results))
          (fun _ =>
             raise (SearchError "All search providers failed: Tavily and SerpAPI errors"
                                None None))
    | _, _ => ret search_results
    end ;;
  match results search_results with
  | [] =>
      match available_providers ctx with
      | [] => raise (SearchError "No search providers configured" None None)
      | names =>
          raise (SearchError ("All configured providers failed: " ++ Str.join ", " names)
                             None None)
      end
  | _ => ret search_results
  end.

Definition intelligent_search (ctx : ResearchAgentDeps.t) (query : string)
    (max_results : Z) : M SearchResults :=
  let strategy := Settings.search_strategy (settings ctx) in
  created <- time_time ;;
  let search_results :=
    {| query := query; results := []; total_results := 0; search_time := 0;
       providers_used := []; ai_summary := None; timestamp := created |} in
  start_time <- time_time ;;
  try_except
    (search_results <-
       (if String.eqb strategy "tavily_only" then
          match tavily_tool ctx with
          | None => raise (SearchError "Tavily API key not configured" None None)
          | Some tool =>
              await_search TAVILY (tavily_search tool query max_results "advanced" true)
          end
        else if String.eqb strategy "serp_only" then
          match serp_tool ctx with
          | None => raise (SearchError "SerpAPI key not configured" None None)
          | Some tool => await_search SERP (serp_search tool query max_results)
          end
        else intelligent_branch ctx query max_results search_results) ;;
     finished <- time_time ;;
     ret (set_search_time search_results (finished - start_time)))
    (fun e =>
       if is_SearchError e then raise e
       else raise (SearchError ("Unexpected search error: " ++ str e) None None)).

(** ** n8n_integration.py *)

Record N8nItem := mkN8nItem {
  n8n_title : string;
  n8n_url : string;
  n8n_provider : string;
  n8n_content : string;
  n8n_score : Q;
  n8n_position : Z;
  n8n_published_date : option string }.

(** The two dictionaries [n8n_intelligent_search] returns. *)
Inductive N8nResponse :=
| N8nSuccess (query : string) (total_results : Z) (search_time : Z)
    (providers_used : list string) (ai_summary : option string)
    (results : list N8nItem) (timestamp : Z)
| N8nFailure (error : string) (query : string).

(** [a or b] on strings. *)
Definition str_or (a b : string) : string :=
  match a with EmptyString => b | _ => a end.

Definition n8n_item (result : SearchResult) : N8nItem :=
  match result with
  | OfTavily r =>
      {| n8n_title := TavilySearchResult.title r;
         n8n_url := TavilySearchResult.url r;
         n8n_provider := SearchProvider_value (TavilySearchResult.provider r);
         n8n_content := str_or (TavilySearchResult.content r) "";
         n8n_score := TavilySearchResult.score r;
         n8n_position := 0;
         n8n_published_date := TavilySearchResult.published_date r |}
  | OfSerp r =>
      {| n8n_title := SerpSearchResult.title r;
         n8n_url := SerpSearchResult.url r;
         n8n_provider := SearchProvider_value (SerpSearchResult.provider r);
         n8n_content := str_or "" (SerpSearchResult.snippet r);
         n8n_score := 0%Q;
         n8n_position := SerpSearchResult.position r;
         n8n_published_date := None |}
  end.

Section N8n.
(** The first two statements of the [try] block: the import of
    [agents.research_agent], which builds the agents and their models, and
    [ResearchAgentDeps()], which loads the settings; either can raise. *)
Variable construct : result ResearchAgentDeps.t.

Definition n8n_intelligent_search (query : string) (max_results : Z)
    (search_strategy : string) : M N8nResponse :=
  try_except
    (deps <- lift construct ;;
     let deps := ResearchAgentDeps.set_settings deps
                   (Settings.set_search_strategy (settings deps) search_strategy) in
     results_ <- intelligent_search deps query max_results ;;
     let search_results := map n8n_item (results results_) in
     ret (N8nSuccess query (Z.of_nat (length search_results))
            (search_time results_)
            (map SearchProvider_value (providers_used results_))
            (ai_summary results_) search_results (timestamp results_)))
    (fun e => ret (N8nFailure (str e) query)).

End N8n.

(** ** The language-model agents ([pydantic_ai.Agent.run]) *)

Record Usage := mkUsage { total_tokens : option Z }.

Record RunResult (A : Type) := mkRunResult {
  run_data : A;                          (* result.data *)
  usage : option Usage }.
Arguments mkRunResult {A} run_data usage.
Arguments run_data {A} r.
Arguments usage {A} r.

(** [result.usage.total_tokens if result.usage else None] *)
Definition tokens_of {A} (r : RunResult A) : option Z :=
  match usage r with
  | Some u => total_tokens u
  | None => None
  end.

(** ** agents/research_agent.py: [run_research_agent] *)

(** One pass of the loop over [enumerate(search_results.results, 1)]: the
    text appended to [results_text]. *)
Definition result_text (i : Z) (result : SearchResult) : string :=
  match result with
  | OfTavily r =>
      Str.nl ++ Str.of_Z i ++ ". **" ++ TavilySearchResult.title r ++ "**" ++ Str.nl
      ++ "   Source: " ++ TavilySearchResult.url r ++ Str.nl
      ++ "   Content: " ++ TavilySearchResult.content r ++ Str.nl
      ++ (if truthy (TavilySearchResult.published_date r)
          then "   Published: "
               ++ match TavilySearchResult.published_date r with
                  | Some d => d
                  | None => ""
                  end ++ Str.nl
          else "")
  | OfSerp r =>
      Str.nl ++ Str.of_Z i ++ ". **" ++ SerpSearchResult.title r ++ "**" ++ Str.nl
      ++ "   Source: " ++ SerpSearchResult.url r ++ Str.nl
      ++ "   Snippet: " ++ SerpSearchResult.snippet r ++ Str.nl
  end.

Fixpoint results_text_from (i : Z) (l : list SearchResult) : string :=
  match l with
  | [] => ""
  | r :: rest => result_text i r ++ results_text_from (i + 1) rest
  end.

Definition research_prompt (query ai_summary results_text : string) : string :=
  let pad := "        " in
  Str.join Str.nl
    [ "";
      pad ++ "Analyze and synthesize the following search results for the query: "
          ++ Str.dq ++ query ++ Str.dq;
      "";
      pad ++ match ai_summary with
             | EmptyString => ""
             | _ => "AI Summary from Tavily: " ++ ai_summary
             end;
      "";
      pad ++ "Search Results:";
      pad ++ results_text;
      "";
      pad ++ "Please provide a comprehensive research summary that:";
      pad ++ "1. Synthesizes key findings across all sources";
      pad ++ "2. Identifies main themes and trends";
      pad ++ "3. Highlights the most credible and recent information";
      pad ++ "4. Notes any conflicting information or gaps";
      pad ++ "5. Provides actionable insights where appropriate";
      pad ++ "6. Maintains proper attribution to sources";
      "";
      pad ++ "Focus on accuracy, clarity, and usefulness for the reader.";
      pad ].

Section Research.
(** [ResearchAgentDeps()], which raises when the settings cannot be loaded,
    and [research_agent.run(prompt, deps=deps)]. *)
Variable default_deps : result ResearchAgentDeps.t.
Variable research_agent_run :
  string -> ResearchAgentDeps.t -> Awaitable (RunResult string).

Definition run_research_agent (query : string) (max_results : Z)
    (create_summary : bool) (deps : option ResearchAgentDeps.t) : M AgentResponse :=
  start_time <- time_time ;;
  try_except
    (deps <- match deps with
             | Some d => ret d
             | None => lift default_deps
             end ;;
     search_results <- intelligent_search deps query max_results ;;
     match results search_results with
     | [] =>
         t <- time_time ;;
         ret {| success := false; data := None;
                message := "No search results found";
                error := Some "Search returned no results";
                execution_time := t - start_time; tokens_used := None |}
     | _ =>
         let results_text := results_text_from 1 (results search_results) in
         let sources := map result_url (results search_results) in
         let ai_summary := match ai_summary search_results with
                           | Some s => s
                           | None => ""
                           end in
         let prompt := research_prompt query ai_summary results_text in
         summary <-
           (if create_summary
            then result <- await (research_agent_run prompt deps) ;;
                 ret (run_data result, tokens_of result)
            else ret (results_text, None)) ;;
         t <- time_time ;;
         let execution_time := t - start_time in
         let response_data :=
           {| rd_summary := fst summary; rd_search_results := search_results;
              rd_sources := sources; rd_query := query |} in
         created <- time_time ;;
         ret {| success := true; data := Some (stored response_data created);
                message := "Research completed successfully with "
                           ++ Str.of_nat (length (results search_results))
                           ++ " sources";
                error := None;
                execution_time := execution_time;
                tokens_used := snd summary |}
     end)
    (fun e =>
       t <- time_time ;;
       let execution_time := t - start_time in
       if is_SearchError e then
         ret {| success := false; data := None;
                message := "Research failed due to search error";
                error := Some ("Search failed: " ++ str e);
                execution_time := execution_time; tokens_used := None |}
       else
         ret {| success := false; data := None;
                message := "Research failed due to unexpected error";
                error := Some ("Research agent failed: " ++ str e);
                execution_time := execution_time; tokens_used := None |}).

End Research.

(** ** agents/email_agent.py *)

(** What the email agent needs of the mail service: an awaitable
    [create_draft] that returns the identifier of the draft. *)
Record GmailClient := mkGmailClient {
  create_draft : EmailDraft -> Awaitable string }.

Module EmailAgentDeps.
Record t := mk {
    settings : Settings.t;
    gmail_credentials_path : string;
    gmail_tool : GmailClient }.
End EmailAgentDeps.

(** [create_gmail_draft(ctx, email_draft)] *)
Definition create_gmail_draft (deps : EmailAgentDeps.t) (email_draft : EmailDraft)
    : M string :=
  try_except
    (draft_id <- await (create_draft (EmailAgentDeps.gmail_tool deps) email_draft) ;;
     ret ("Gmail draft created with ID: " ++ draft_id))
    (fun e =>
       if is_GmailAPIError e then raise e
       else raise (GmailAPIError ("Unexpected error: " ++ str e) None)).

(** The list items [format_research_content] writes for [sources[:5]]. *)
Fixpoint source_items (i : Z) (sources : list string) : string :=
  match sources with
  | [] => ""
  | source :: rest =>
      "<li><a href=" ++ Str.dq ++ source ++ Str.dq ++ ">Source " ++ Str.of_Z i
      ++ "</a></li>" ++ Str.nl ++ source_items (i + 1) rest
  end.

Definition format_research_content (research_content : string)
    (sources : list string) (include_sources : bool) : string :=
  let html_content := "<div>" ++ research_content ++ "</div>" in
  match include_sources, sources with
  | true, _ :: _ =>
      html_content ++ Str.nl ++ Str.nl ++ "<h3>Sources:</h3>" ++ Str.nl ++ "<ul>" ++ Str.nl
      ++ source_items 1 (firstn 5 sources) ++ "</ul>"
  | _, _ => html_content
  end.

Definition agent_prompt (request : ResearchEmailRequest) (formatted_content : string)
    : string :=
  let pad := "        " in
  Str.join Str.nl
    [ "";
      pad ++ "Create a professional email for " ++ recipient_email request
          ++ " based on the following research:";
      "";
      pad ++ "**Research Query:** " ++ research_query request;
      pad ++ "**Context:** " ++ email_context request;
      pad ++ "**Tone:** " ++ tone request;
      pad ++ "**Subject Hint:** "
          ++ match subject_hint request with
             | Some (String _ _ as h) => h
             | _ => "Generate appropriate subject"
             end;
      "";
      pad ++ "**Research Content:**";
      pad ++ formatted_content;
      "";
      pad ++ "Please create an email that:";
      pad ++ "1. Has an appropriate subject line";
      pad ++ "2. Addresses the recipient professionally";
      pad ++ "3. Incorporates the research findings naturally";
      pad ++ "4. Maintains the requested tone";
      pad ++ "5. Includes proper source attribution if sources are provided";
      pad ++ "6. Ends with an appropriate closing";
      "";
      pad ++ "Return the email as an EmailDraft object with proper to, subject, and body fields.";
      pad ].

Section Email.
(** [email_agent.run(prompt, deps=deps)], and [EmailAgentDeps()], which
    raises when the mail service cannot be set up.  [RunContext(deps=...)]
    only packs [deps] for [create_gmail_draft]. *)
Variable email_agent_run :
  string -> EmailAgentDeps.t -> Awaitable (RunResult (option EmailDraft)).
Variable default_deps : result EmailAgentDeps.t.

Definition run_email_agent (request : ResearchEmailRequest)
    (research_content : string) (sources : option (list string))
    (deps : option EmailAgentDeps.t) : M AgentResponse :=
  start_time <- time_time ;;
  try_except
    (deps <- match deps with
             | Some d => ret d
             | None => lift default_deps
             end ;;
     let sources := or_empty sources in
     let formatted_content :=
       format_research_content research_content sources (include_sources request) in
     result <- await (email_agent_run (agent_prompt request formatted_content) deps) ;;
     draft <-
       match run_data result with
       | Some email_draft =>
           try_except
             (draft_id <- create_gmail_draft deps email_draft ;;
              ret (Some (set_draft_id email_draft
                           (Some (Str.split_last ": " draft_id)))))
             (fun _ => ret (Some email_draft))
       | None => ret None
       end ;;
     t <- time_time ;;
     let execution_time := t - start_time in
     ret {| success := true;
            data := option_map DataEmail draft;
            message := "Email draft created successfully";
            error := None;
            execution_time := execution_time;
            tokens_used := tokens_of result |})
    (fun e =>
       t <- time_time ;;
       ret {| success := false; data := None;
              message := "Failed to create email draft";
              error := Some ("Email agent failed: " ++ str e);
              execution_time := t - start_time; tokens_used := None |}).

End Email.

(** ** Sample runs: stub clients, a network and a host to run them on *)

Definition w0 : World := {| now := 0; calls := [] |}.

(** Stub clients, as the test suite builds them: [search] returns or raises
    the same thing whatever it is called with, after [elapsed] ticks. *)
Definition tavily_stub (o : Outcome SearchResults) : TavilyClient :=
  {| tavily_search _ _ _ _ _ := o |}.

Definition serp_stub (o : Outcome SearchResults) : SerpClient :=
  {| serp_search _ _ _ := o |}.

Definition settings_with (strategy : string) : Settings.t :=
  {| Settings.tavily_api_key := Some "tvly-key";
     Settings.serp_api_key := Some "serp-key";
     Settings.gmail_credentials_path := "./credentials/credentials.json";
     Settings.search_strategy := strategy;
     Settings.max_search_results := 10;
     Settings.search_timeout := 30 |}.

Definition deps_with (strategy : string) (a : option TavilyClient)
    (b : option SerpClient) : ResearchAgentDeps.t :=
  {| ResearchAgentDeps.settings := settings_with strategy;
     ResearchAgentDeps.tavily_api_key := if is_some a then Some "tvly-key" else None;
     ResearchAgentDeps.serp_api_key := if is_some b then Some "serp-key" else None;
     ResearchAgentDeps.gmail_credentials_path := "./credentials/credentials.json";
     ResearchAgentDeps.tavily_tool := a;
     ResearchAgentDeps.serp_tool := b |}.

Definition serp_hit : SearchResult :=
  OfSerp (SerpSearchResult.mk "Google AI Safety Research" "https://ai.google/safety"
            "Google's approach to AI safety" 1 None None SERP).

Definition tavily_hit : SearchResult :=
  OfTavily (TavilySearchResult.mk "AI Safety Research 2024"
              "https://example.com/ai-safety-2024" "Comprehensive overview"
              (95 # 100) (Some "2024-01-15") None TAVILY).

Definition envelope_of (p : SearchProvider) (items : list SearchResult)
    : SearchResults :=
  {| query := "x"; results := items; total_results := Z.of_nat (length items);
     search_time := 2; providers_used := [p]; ai_summary := None; timestamp := 0 |}.

Definition raising (e : exn) : Outcome SearchResults :=
  {| elapsed := 3; value := Raise e |}.

Definition returning (r : SearchResults) : Outcome SearchResults :=
  {| elapsed := 2; value := Return r |}.

(** ** The orchestrator: strategies and fallback *)

(** What a provider call has to come to for the orchestrator to look
    further: it raised, or its result list is empty. *)
Definition yields_nothing (r : result SearchResults) : Prop :=
  match r with
  | Raise _ => True
  | Return sr => results sr = []
  end.

(** [ctx] with its strategy replaced. *)
Definition with_strategy (ctx : ResearchAgentDeps.t) (s : string) : ResearchAgentDeps.t :=
  ResearchAgentDeps.set_settings ctx (Settings.set_search_strategy (settings ctx) s).

Definition is_intelligent (ctx : ResearchAgentDeps.t) : Prop :=
  Settings.search_strategy (settings ctx) <> "tavily_only"
  /\ Settings.search_strategy (settings ctx) <> "serp_only".


(** A host for the sample runs.  It prints strings, integers, booleans and
    [None] as Python does and the other values, which no sample prints, by
    a placeholder; it accepts a string for [str], a number for [float] and
    an integer for [int]. *)
Definition sample_python : Python :=
  {| str_json v :=
       match v with
       | JStr s => s
       | JInt z => Str.of_Z z
       | JNull => "None"
       | JBool true => "True"
       | JBool false => "False"
       | _ => "<value>"
       end;
     str_fault f :=
       match f with
       | NoAttributeGet _ => "object has no attribute 'get'"
       | NotIterable _ => "object is not iterable"
       | NotContainer _ => "argument is not iterable"
       | BadSubscript _ k => "bad subscript: " ++ k
       | Invalid model _ => "validation error for " ++ model
       end;
     validate_str v := match v with JStr s => Some s | _ => None end;
     validate_float v :=
       match v with
       | JFloat q => Some q
       | JInt z => Some (inject_Z z)
       | _ => None
       end;
     validate_int v := match v with JInt z => Some z | _ => None end |}.

Definition http_ok (body : json) : HttpResponse :=
  {| status_code := 200; text := ""; json_body := Return body |}.

(** The request times out after the 30 ticks of the default timeout. *)
Definition timed_out : Outcome HttpResponse :=
  {| elapsed := 30; value := Raise (TimeoutException "timed out") |}.

Definition answered (body : json) : Outcome HttpResponse :=
  {| elapsed := 1; value := Return (http_ok body) |}.

(** A network on which the two backends answer every request alike. *)
Definition net_of (tavily serp : Outcome HttpResponse) : Network :=
  {| post _ _ _ _ := tavily; get _ _ _ _ := serp |}.

Definition env_with (strategy : string) (tavily_key serp_key : option string)
    : Settings.t :=
  {| Settings.tavily_api_key := tavily_key;
     Settings.serp_api_key := serp_key;
     Settings.gmail_credentials_path := "./credentials/credentials.json";
     Settings.search_strategy := strategy;
     Settings.max_search_results := 10;
     Settings.search_timeout := 30 |}.

Definition organic_one : json :=
  JDict [("organic_results",
          JList [JDict [("title", JStr "Google AI Safety Research");
                        ("link", JStr "https://ai.google/safety");
                        ("snippet", JStr "Google's approach to AI safety")]])].

Definition tavily_two_items : list json :=
  [ JDict [("title", JStr "AI Safety Research 2024");
           ("url", JStr "https://example.com/ai-safety-2024");
           ("content", JStr "Comprehensive overview");
           ("score", JFloat (95 # 100))];
    JDict [("title", JStr "Constitutional AI Methods");
           ("url", JStr "https://example.com/constitutional-ai");
           ("content", JStr "New approaches");
           ("score", JFloat (80 # 100))] ].

Definition tavily_two_fields : list (string * json) :=
  [("answer", JStr "Two sources agree."); ("results", JList tavily_two_items)].

Definition tavily_two : json := JDict tavily_two_fields.

Definition tavily_none : json := JDict [("results", JList [])].

(** The dependencies [ResearchAgentDeps()] builds on the sample host. *)
Definition real_deps (net : Network) (strategy : string)
    (tavily_key serp_key : option string) : ResearchAgentDeps.t :=
  ResearchAgentDeps.init (H := sample_python) net
    (env_with strategy tavily_key serp_key).

(** Tavily times out, SerpAPI returns one item (stub clients). *)
Definition ctx_timeout_then_serp : ResearchAgentDeps.t :=
  deps_with "intelligent"
    (Some (tavily_stub (raising (TavilyAPIError "Tavily search timeout after 30s" None))))
    (Some (serp_stub (returning (envelope_of SERP [serp_hit])))).

(** Only the SerpAPI key is set, and the network is down. *)
Definition ctx_serp_key_only_down : ResearchAgentDeps.t :=
  real_deps (net_of timed_out timed_out) "intelligent" None (Some "serp-key").

(** "tavily_only", and Tavily answers with no results. *)
Definition ctx_tavily_only_empty : ResearchAgentDeps.t :=
  real_deps (net_of (answered tavily_none) (answered organic_one))
    "tavily_only" (Some "tvly-key") (Some "serp-key").

Definition msg_serp_failed : string :=
  "All search providers failed: Tavily and SerpAPI errors".

(** What the Tavily client returns on [tavily_none], called at tick 0. *)
Definition tavily_empty_envelope : SearchResults :=
  {| query := "x"; results := []; total_results := 0; search_time := 1;
     providers_used := [TAVILY]; ai_summary := None; timestamp := 1 |}.

(** ** Notions the statements below use *)

(** [items] holds one item per element of [raws], the [i]-th being what
    [norm i] makes of the [i]-th raw element. *)
Definition in_order (norm : nat -> json -> result SearchResult)
    (raws : list json) (items : list SearchResult) : Prop :=
  length items = length raws
  /\ forall i raw,
       nth_error raws i = Some raw ->
       exists item, nth_error items i = Some item /\ norm i raw = Return item.

(** The envelope [r] names [p] as its one provider, and all its items
    carry [p] as their provenance. *)
Definition labelled (p : SearchProvider) (r : SearchResults) : Prop :=
  providers_used r = [p]
  /\ Forall (fun item => result_provider item = p) (results r).

(** In a run of [intelligent_search ctx q n], the client of [p] returned
    the envelope [r]. *)
Definition returned_by (ctx : ResearchAgentDeps.t) (q : string) (n : Z)
    (p : SearchProvider) (r : SearchResults) : Prop :=
  match p with
  | TAVILY =>
      exists tool t, tavily_tool ctx = Some tool
                     /\ value (tavily_search tool q n "advanced" true t) = Return r
  | SERP =>
      exists tool t, serp_tool ctx = Some tool
                     /\ value (serp_search tool q n t) = Return r
  end.

(** Tavily times out and SerpAPI answers with one item, over the network. *)
Definition ctx_real_timeout_then_serp : ResearchAgentDeps.t :=
  real_deps (net_of timed_out (answered organic_one))
    "intelligent" (Some "tvly-key") (Some "serp-key").

(** How the two clients make an item of the [i]-th raw element. *)
Definition tavily_norm `{Python} (i : nat) (raw : json) : result SearchResult :=
  fst (TavilySearchTool.make_result raw w0).

Definition serp_norm `{Python} (i : nat) (raw : json) : result SearchResult :=
  fst (SerpSearchTool.make_result (Z.of_nat i) raw w0).

Definition tavily_tool0 : TavilySearchTool.t := TavilySearchTool.init "tvly-key" 30.
Definition serp_tool0 : SerpSearchTool.t := SerpSearchTool.init "serp-key" 30.

(** What the SerpAPI client returns on [organic_one], called at tick 30. *)
Definition serp_one_envelope : SearchResults :=
  {| query := "x"; results := [serp_hit]; total_results := 1; search_time := 1;
     providers_used := [SERP];
     ai_summary :=
       Some "Found 1 search results. Top sources: https://ai.google/safety";
     timestamp := 31 |}.

(** The prompt [run_research_agent] hands to the summarizer for [envl]. *)
Definition prompt_for (query : string) (envl : SearchResults) : string :=
  research_prompt query
    (match ai_summary envl with Some s => s | None => "" end)
    (results_text_from 1 (results envl)).

(** The prompt [run_email_agent] hands to the email agent. *)
Definition email_prompt_for (request : ResearchEmailRequest)
    (research_content : string) (sources : option (list string)) : string :=
  agent_prompt request
    (format_research_content research_content (or_empty sources)
       (include_sources request)).

(** A summarizer that raises after 4 ticks. *)
Definition summarizer_down : string -> ResearchAgentDeps.t -> Awaitable (RunResult string) :=
  fun _ _ _ => {| elapsed := 4; value := Raise (Exception "model unavailable") |}.

(** Both backends answer; Tavily has two items. *)
Definition ctx_both_healthy : ResearchAgentDeps.t :=
  real_deps (net_of (answered tavily_two) (answered organic_one))
    "intelligent" (Some "tvly-key") (Some "serp-key").

Definition sample_request : ResearchEmailRequest :=
  {| research_query := "latest AI safety research developments";
     email_context := "Update for quarterly review";
     recipient_email := "colleague@company.com";
     subject_hint := Some "AI Safety Research Update";
     tone := "professional";
     include_sources := true |}.

Definition sample_draft : EmailDraft :=
  {| to := ["colleague@company.com"]; subject := "AI Safety Research Update";
     body := "<p>Findings attached.</p>"; cc := None; bcc := None;
     attachments := None; draft_id := None; created_at := 0 |}.

(** An email agent that writes [sample_draft] in 6 ticks. *)
Definition email_agent_ok
    : string -> EmailAgentDeps.t -> Awaitable (RunResult (option EmailDraft)) :=
  fun _ _ _ =>
    {| elapsed := 6;
       value := Return {| run_data := Some sample_draft;
                          usage := Some {| total_tokens := Some 800 |} |} |}.

(** A mail service whose [create_draft] raises. *)
Definition gmail_down : GmailClient :=
  {| create_draft _ _ :=
       {| elapsed := 2;
          value := Raise (GmailAPIError "Gmail API error creating draft" (Some 403)) |} |}.

(** A mail service that files the draft as r-42. *)
Definition gmail_up : GmailClient :=
  {| create_draft _ _ := {| elapsed := 2; value := Return "r-42" |} |}.

Definition email_deps (g : GmailClient) : EmailAgentDeps.t :=
  {| EmailAgentDeps.settings := settings_with "intelligent";
     EmailAgentDeps.gmail_credentials_path := "./credentials/credentials.json";
     EmailAgentDeps.gmail_tool := g |}.

(** The dependencies a run of [run_research_agent] works with: those it
    is given or, failing that, those it builds, if it can. *)
Definition deps_of (default_deps : result ResearchAgentDeps.t)
    (deps : option ResearchAgentDeps.t) : result ResearchAgentDeps.t :=
  match deps with
  | Some d => Return d
  | None => default_deps
  end.

(** The clients of [ctx] take no negative time. *)
Definition punctual (ctx : ResearchAgentDeps.t) : Prop :=
  (forall tool q n depth answer t,
      tavily_tool ctx = Some tool ->
      0 <= elapsed (tavily_search tool q n depth answer t))
  /\ (forall tool q n t,
         serp_tool ctx = Some tool -> 0 <= elapsed (serp_search tool q n t)).

(** Tavily answers with results (stub clients); SerpAPI would too. *)
Definition ctx_tavily_healthy (strategy : string) : ResearchAgentDeps.t :=
  deps_with strategy
    (Some (tavily_stub (returning (envelope_of TAVILY [tavily_hit]))))
    (Some (serp_stub (returning (envelope_of SERP [serp_hit])))).

(** The backend rejects the key: status 401 with an error body. *)
Definition unauthorized : Outcome HttpResponse :=
  {| elapsed := 1;
     value := Return {| status_code := 401; text := "nope";
                        json_body := Return (JDict [("error", JStr "bad key")]) |} |}.

(** A 200 answer whose body reports an error. *)
Definition quota_exceeded : json := JDict [("error", JStr "out of searches")].

(** An item as pydantic's field constraints leave it: a Tavily item with a
    score between 0 and 1, a SerpAPI item with a position of at least 1. *)
Definition within_constraints (item : SearchResult) : Prop :=
  match item with
  | OfTavily r =>
      Qle_bool 0 (TavilySearchResult.score r) = true
      /\ Qle_bool (TavilySearchResult.score r) 1 = true
  | OfSerp r => 1 <= SerpSearchResult.position r
  end.

(** A 200 answer with results and an error side by side. *)
Definition organic_with_error : json :=
  JDict [("error", JStr "out of searches");
         ("organic_results",
          JList [JDict [("title", JStr "Google AI Safety Research");
                        ("link", JStr "https://ai.google/safety")]])].

Definition organic_one_items : list json :=
  [JDict [("title", JStr "Google AI Safety Research");
          ("link", JStr "https://ai.google/safety");
          ("snippet", JStr "Google's approach to AI safety")]].

Definition six_sources : list string :=
  ["https://a.example"; "https://b.example"; "https://c.example";
   "https://d.example"; "https://e.example"; "https://f.example"].

(** The shape every response of the two agents has: a failure carries an
    error and neither data nor a token count, a success carries no error. *)
Definition well_formed (response : AgentResponse) : Prop :=
  if success response
  then error response = None
  else data response = None
       /\ tokens_used response = None
       /\ exists m, error response = Some m.

(** A summarizer that answers in 7 ticks. *)
Definition summarizer_ok : string -> ResearchAgentDeps.t -> Awaitable (RunResult string) :=
  fun _ _ _ =>
    {| elapsed := 7;
       value := Return {| run_data := "Two sources agree on the findings.";
                          usage := Some {| total_tokens := Some 1500 |} |} |}.

(** An email agent that raises. *)
Definition email_agent_down
    : string -> EmailAgentDeps.t -> Awaitable (RunResult (option EmailDraft)) :=
  fun _ _ _ => {| elapsed := 3; value := Raise (Exception "model unavailable") |}.

(** ** n8n_integration.py: the single-provider entry points *)

Record N8nTavilyItem := mkN8nTavilyItem {
  nt_title : string;
  nt_url : string;
  nt_content : string;
  nt_score : Q;
  nt_published_date : option string;
  nt_provider : string }.

Record N8nSerpItem := mkN8nSerpItem {
  ns_title : string;
  ns_url : string;
  ns_snippet : string;
  ns_position : Z;
  ns_provider : string }.

(** The dictionaries of [n8n_tavily_search] and of [n8n_serp_search]; the
    second has no "ai_summary" key. *)
Inductive N8nTavilyResponse :=
| N8nTavilySuccess (query : string) (total_results : Z) (search_time : Z)
    (ai_summary : option string) (results : list N8nTavilyItem)
| N8nTavilyFailure (error : string) (query : string).

Inductive N8nSerpResponse :=
| N8nSerpSuccess (query : string) (total_results : Z) (search_time : Z)
    (results : list N8nSerpItem)
| N8nSerpFailure (error : string) (query : string).

(** [result.content] and the like name fields of one of the two item
    classes; on an item of the other class the attribute is missing. *)
Definition n8n_tavily_item (result : SearchResult) : M N8nTavilyItem :=
  match result with
  | OfTavily r =>
      ret {| nt_title := TavilySearchResult.title r;
             nt_url := TavilySearchResult.url r;
             nt_content := TavilySearchResult.content r;
             nt_score := TavilySearchResult.score r;
             nt_published_date := TavilySearchResult.published_date r;
             nt_provider := "tavily" |}
  | OfSerp _ =>
      raise (Exception "'SerpSearchResult' object has no attribute 'content'")
  end.

Definition n8n_serp_item (result : SearchResult) : M N8nSerpItem :=
  match result with
  | OfSerp r =>
      ret {| ns_title := SerpSearchResult.title r;
             ns_url := SerpSearchResult.url r;
             ns_snippet := SerpSearchResult.snippet r;
             ns_position := SerpSearchResult.position r;
             ns_provider := "serp" |}
  | OfTavily _ =>
      raise (Exception "'TavilySearchResult' object has no attribute 'snippet'")
  end.

Section N8nProviders.
Context `{Python} (net : Network).
(** [os.getenv] *)
Variable getenv : string -> option string.

Definition n8n_tavily_search (query : string) (max_results : Z) : M N8nTavilyResponse :=
  try_except
    (let api_key := getenv "TAVILY_API_KEY" in
     match api_key with
     | Some (String _ _ as key) =>
         let tool := TavilySearchTool.init key 30 in
         results_ <- TavilySearchTool.search net tool query max_results
                       "advanced" true None None ;;
         search_results <- mapM n8n_tavily_item (results results_) ;;
         ret (N8nTavilySuccess query (Z.of_nat (length search_results))
                (search_time results_) (ai_summary results_) search_results)
     | _ => raise (Exception "TAVILY_API_KEY not found in environment")
     end)
    (fun e => ret (N8nTavilyFailure (str e) query)).

Definition n8n_serp_search (query : string) (max_results : Z) : M N8nSerpResponse :=
  try_except
    (let api_key := getenv "SERP_API_KEY" in
     match api_key with
     | Some (String _ _ as key) =>
         let tool := SerpSearchTool.init key 30 in
         results_ <- SerpSearchTool.search net tool query max_results
                       "us" "en" "off" None ;;
         search_results <- mapM n8n_serp_item (results results_) ;;
         ret (N8nSerpSuccess query (Z.of_nat (length search_results))
                (search_time results_) search_results)
     | _ => raise (Exception "SERP_API_KEY not found in environment")
     end)
    (fun e => ret (N8nSerpFailure (str e) query)).

End N8nProviders.

(** ** config/settings.py: [validate_api_keys] *)

(** The language-model fields of [Settings], which [Settings.t] leaves out. *)
Record LlmSettings := mkLlmSettings {
  llm_provider : string;
  openai_api_key : option string;
  openai_model : string;
  gemini_api_key : option string;
  gemini_model : string }.

(** The list [errors] at the end of [validate_api_keys]. *)
Definition validation_errors (llm : LlmSettings) (s : Settings.t) : list string :=
  (if String.eqb (llm_provider llm) "openai" && negb (truthy (openai_api_key llm))
   then ["OPENAI_API_KEY is required when using OpenAI provider"]
   else if String.eqb (llm_provider llm) "gemini" && negb (truthy (gemini_api_key llm))
   then ["GEMINI_API_KEY is required when using Gemini provider"]
   else [])
  ++ (if (String.eqb (Settings.search_strategy s) "tavily_only"
          || String.eqb (Settings.search_strategy s) "intelligent")
         && negb (truthy (Settings.tavily_api_key s))
      then ["TAVILY_API_KEY is required for tavily_only or intelligent search strategy"]
      else [])
  ++ (if (String.eqb (Settings.search_strategy s) "serp_only"
          || String.eqb (Settings.search_strategy s) "intelligent")
         && negb (truthy (Settings.serp_api_key s))
      then ["SERP_API_KEY is required for serp_only or intelligent search strategy"]
      else []).

(** [validate_api_keys(settings)]; the [ValueError] is an [Exception]. *)
Definition validate_api_keys (llm : LlmSettings) (s : Settings.t) : result unit :=
  match validation_errors llm s with
  | [] => Return tt
  | errors =>
      Raise (Exception ("Configuration errors:" ++ Str.nl
                        ++ Str.join Str.nl (map (fun error => "- " ++ error) errors)))
  end.

(** One of the three errors by which the orchestrator reports a provider
    that is not configured. *)
Definition configuration_error (e : exn) : Prop :=
  e = SearchError "Tavily API key not configured" None None
  \/ e = SearchError "SerpAPI key not configured" None None
  \/ e = SearchError "No search providers configured" None None.

Definition gemini_settings : LlmSettings :=
  {| llm_provider := "gemini"; openai_api_key := None; openai_model := "gpt-4o";
     gemini_api_key := Some "gm-key"; gemini_model := "gemini-1.5-pro" |}.

Definition environ_of (tavily serp : option string) : string -> option string :=
  fun name =>
    if String.eqb name "TAVILY_API_KEY" then tavily
    else if String.eqb name "SERP_API_KEY" then serp
    else None.

(** The class of an item: [isinstance(result, TavilySearchResult)] and
    [isinstance(result, SerpSearchResult)]. *)
Definition is_tavily_item (item : SearchResult) : Prop :=
  match item with OfTavily _ => True | OfSerp _ => False end.

Definition is_serp_item (item : SearchResult) : Prop :=
  match item with OfSerp _ => True | OfTavily _ => False end.

(** An email agent that fills in a draft identifier of its own. *)
Definition prefilled_draft : EmailDraft := set_draft_id sample_draft (Some "made-up").

Definition email_agent_prefilling
    : string -> EmailAgentDeps.t -> Awaitable (RunResult (option EmailDraft)) :=
  fun _ _ _ =>
    {| elapsed := 6;
       value := Return {| run_data := Some prefilled_draft;
                          usage := Some {| total_tokens := Some 800 |} |} |}.

(** The settings cannot be loaded. *)
Definition no_settings : result ResearchAgentDeps.t :=
  Raise (Exception "validation error for Settings").
Lemma intelligent_search_intelligent ctx q n w :
  is_intelligent ctx ->
  intelligent_search ctx q n w =
  try_except
    (search_results <-
       intelligent_branch ctx q n
         {| query := q; results := []; total_results := 0; search_time := 0;
            providers_used := []; ai_summary := None; timestamp := now w |} ;;
     finished <- time_time ;;
     ret (set_search_time search_results (finished - now w)))
    (fun e =>
       if is_SearchError e then raise e
       else raise (SearchError ("Unexpected search error: " ++ str e) None None)) w.
Proof.
  intros [Ht Hs].
  apply String.eqb_neq in Ht. apply String.eqb_neq in Hs.
  unfold intelligent_search, bind, time_time, try_except; simpl.
  rewrite Ht, Hs. reflexivity.
Qed.

(** C10: every strategy value other than the exact strings "tavily_only"
    and "serp_only" makes [intelligent_search] run exactly as under
    "intelligent", and so does the n8n entry point, which assigns the
    caller's string to the settings unvalidated. *)
Theorem C10_unrecognized_strategy_is_intelligent :
  forall (s : string),
    s <> "tavily_only" -> s <> "serp_only" ->
    (forall ctx q n w,
        intelligent_search (with_strategy ctx s) q n w
        = intelligent_search (with_strategy ctx "intelligent") q n w)
    /\ (forall construct q n w,
           n8n_intelligent_search construct q n s w
           = n8n_intelligent_search construct q n "intelligent" w).
Proof.
  intros s Ht Hs.
  assert (E : forall ctx q n w,
             intelligent_search (with_strategy ctx s) q n w
             = intelligent_search (with_strategy ctx "intelligent") q n w).
  { intros ctx q n w.
    rewrite !intelligent_search_intelligent
      by (split; simpl; (assumption || discriminate)).
    reflexivity. }
  split; [exact E|].
  intros construct q n w.
  unfold n8n_intelligent_search, try_except, bind, lift.
  destruct construct as [e|deps]; [reflexivity|].
  fold (with_strategy deps s). fold (with_strategy deps "intelligent").
  rewrite E. reflexivity.
Qed.

Lemma C10_witness :
  (forall ctx q n w,
      intelligent_search (with_strategy ctx "fastest") q n w
      = intelligent_search (with_strategy ctx "intelligent") q n w)
  /\ (forall construct q n w,
         n8n_intelligent_search construct q n "fastest" w
         = n8n_intelligent_search construct q n "intelligent" w).
Proof.
  apply (C10_unrecognized_strategy_is_intelligent "fastest"); discriminate.
Defined.

(** Unfolding the monad on a run. *)
Ltac unfold_M :=
  unfold bind, try_except, await_search, await, time_time, ret, raise, lift in *;
  simpl in *.

(** Case analysis on everything a run of the fallback branch inspects: what
    each awaited client came to and whether a result list is empty. *)
Ltac cases_of_run :=
  repeat (simpl in *;
          match goal with
          | H : results ?r = _ |- context [results ?r] => rewrite H
          | |- context [match value ?o with _ => _ end] => destruct (value o) eqn:?
          | |- context [match results ?r with _ => _ end] => destruct (results r) eqn:?
          end).

Lemma tavily_only_eqb ctx :
  Settings.search_strategy (settings ctx) = "tavily_only" ->
  String.eqb (Settings.search_strategy (settings ctx)) "tavily_only" = true.
Proof. intros ->. reflexivity. Qed.

(** C9: under "tavily_only" the SerpAPI client is never invoked: the only
    client invocation of the run is Tavily's, and there is none when the
    Tavily key is missing.  A missing key raises [SearchError]; an
    exception of the Tavily client leaves as a [SearchError] (itself, when
    it is one). *)
Theorem C9_tavily_only_never_invokes_serp :
  forall ctx q n w,
    Settings.search_strategy (settings ctx) = "tavily_only" ->
    let run := intelligent_search ctx q n w in
    calls (snd run)
    = (calls w ++ (if is_some (tavily_tool ctx) then [TAVILY] else []))%list
    /\ ~ In SERP (if is_some (tavily_tool ctx) then [TAVILY] else [])
    /\ (tavily_tool ctx = None ->
        fst run = Raise (SearchError "Tavily API key not configured" None None))
    /\ (forall tool e,
           tavily_tool ctx = Some tool ->
           value (tavily_search tool q n "advanced" true (now w)) = Raise e ->
           exists e', fst run = Raise e'
                      /\ is_SearchError e' = true
                      /\ (is_SearchError e = true -> e' = e)).
Proof.
  intros ctx q n w Hs run. subst run.
  unfold intelligent_search.
  rewrite (tavily_only_eqb ctx Hs).
  destruct (tavily_tool ctx) as [tool|] eqn:Htool; unfold_M.
  - destruct (value (tavily_search tool q n "advanced" true (now w))) as [e|r] eqn:Hv;
      simpl.
    + destruct (is_SearchError e) eqn:He; simpl;
        (repeat split;
         [ intros [C|[]]; discriminate
         | discriminate
         | intros tool' e' Ht' Hv'; inversion Ht'; subst tool';
           rewrite Hv in Hv'; inversion Hv'; subst e' ]).
      * exists e. rewrite He. auto.
      * eexists. split; [reflexivity|]. split; [reflexivity|].
        rewrite He. discriminate.
    + repeat split.
      * intros [C|[]]; discriminate.
      * discriminate.
      * intros tool' e' Ht' Hv'. inversion Ht'; subst tool'.
        rewrite Hv in Hv'. discriminate.
  - repeat split.
    + now rewrite app_nil_r.
    + intros [].
    + intros tool e C. discriminate.
Qed.

Lemma C9_witness :
  let ctx :=
    deps_with "tavily_only"
      (Some (tavily_stub (raising (TavilyAPIError "Tavily search timeout after 30s" None))))
      (Some (serp_stub (returning (envelope_of SERP [serp_hit])))) in
  let run := intelligent_search ctx "x" 5 w0 in
  calls (snd run) = (calls w0 ++ (if is_some (tavily_tool ctx) then [TAVILY] else []))%list
  /\ ~ In SERP (if is_some (tavily_tool ctx) then [TAVILY] else [])
  /\ (tavily_tool ctx = None ->
      fst run = Raise (SearchError "Tavily API key not configured" None None))
  /\ (forall tool e,
         tavily_tool ctx = Some tool ->
         value (tavily_search tool "x" 5 "advanced" true (now w0)) = Raise e ->
         exists e', fst run = Raise e'
                    /\ is_SearchError e' = true
                    /\ (is_SearchError e = true -> e' = e)).
Proof.
  intros ctx run.
  apply (C9_tavily_only_never_invokes_serp ctx "x" 5 w0).
  reflexivity.
Defined.

Lemma intelligent_eq ctx :
  Settings.search_strategy (settings ctx) = "intelligent" -> is_intelligent ctx.
Proof. intros E. unfold is_intelligent. rewrite E. split; discriminate. Qed.

(** The fallback, for any strategy that selects it: after a Tavily call
    that yields nothing, SerpAPI is invoked, and its envelope is what the
    run returns, if it returns. *)
Lemma fallback_to_serp :
  forall ctx q n w ta sb,
    is_intelligent ctx ->
    tavily_tool ctx = Some ta ->
    serp_tool ctx = Some sb ->
    let oA := tavily_search ta q n "advanced" true (now w) in
    let oB := serp_search sb q n (now w + elapsed oA) in
    yields_nothing (value oA) ->
    let run := intelligent_search ctx q n w in
    calls (snd run) = (calls w ++ [TAVILY; SERP])%list
    /\ (forall env,
           fst run = Return env ->
           exists rb, value oB = Return rb
                      /\ env = set_search_time rb (elapsed oA + elapsed oB)
                      /\ results env = results rb)
    /\ (forall rb,
           value oB = Return rb -> results rb <> [] ->
           fst run = Return (set_search_time rb (elapsed oA + elapsed oB))).
Proof.
  intros ctx q n w ta sb Hs Ha Hb oA oB Hnothing run. subst run.
  rewrite (intelligent_search_intelligent ctx q n w Hs).
  unfold intelligent_branch. rewrite Ha, Hb.
  unfold available_providers. rewrite Ha, Hb. simpl.
  unfold_M. fold oA.
  assert (Hfirst :
            results (match value oA with
                     | Return a => a
                     | Raise _ =>
                         {| query := q; results := []; total_results := 0;
                            search_time := 0; providers_used := [];
                            ai_summary := None; timestamp := now w |}
                     end) = []).
  { destruct (value oA); [reflexivity | exact Hnothing]. }
  destruct (value oA) as [eA|ra] eqn:HvA; simpl in *;
    [| rewrite Hfirst; simpl ]; fold oB;
    (destruct (value oB) as [eB|rb] eqn:HvB; simpl;
     [ rewrite <- app_assoc; simpl; repeat split;
       [ intros env C; discriminate | intros rb C; discriminate ]
     | destruct (results rb) as [|x xs] eqn:Hrb; simpl;
       rewrite <- app_assoc; simpl; repeat split;
       try (intros env C; discriminate);
       try (intros env C; inversion C; subst env; exists rb;
            repeat split; f_equal; lia);
       try (intros rb' C Hne; inversion C; subst rb'; congruence);
       try (intros rb' C Hne; inversion C; subst rb';
            do 2 f_equal; lia) ]).
Qed.

(** C1: in the "intelligent" strategy, with both providers configured,
    Tavily is attempted first; when its call raises (a timeout included) or
    returns an empty result list, SerpAPI is attempted next, and whatever
    envelope the run returns is the one SerpAPI returned, with only its
    [search_time] rewritten; the run does return it when it has results. *)
Theorem C1_intelligent_falls_back_to_serp :
  forall ctx q n w ta sb,
    Settings.search_strategy (settings ctx) = "intelligent" ->
    tavily_tool ctx = Some ta ->
    serp_tool ctx = Some sb ->
    let oA := tavily_search ta q n "advanced" true (now w) in
    let oB := serp_search sb q n (now w + elapsed oA) in
    yields_nothing (value oA) ->
    let run := intelligent_search ctx q n w in
    calls (snd run) = (calls w ++ [TAVILY; SERP])%list
    /\ (forall env,
           fst run = Return env ->
           exists rb, value oB = Return rb
                      /\ env = set_search_time rb (elapsed oA + elapsed oB)
                      /\ results env = results rb)
    /\ (forall rb,
           value oB = Return rb -> results rb <> [] ->
           fst run = Return (set_search_time rb (elapsed oA + elapsed oB))).
Proof.
  intros ctx q n w ta sb Hs Ha Hb oA oB Hnothing run.
  exact (fallback_to_serp ctx q n w ta sb (intelligent_eq ctx Hs) Ha Hb Hnothing).
Qed.

Lemma C1_witness :
  let ctx := ctx_timeout_then_serp in
  let run := intelligent_search ctx "x" 5 w0 in
  calls (snd run) = [TAVILY; SERP]
  /\ fst run = Return (set_search_time (envelope_of SERP [serp_hit]) 5).
Proof.
  intros ctx run.
  destruct (C1_intelligent_falls_back_to_serp ctx "x" 5 w0
              (tavily_stub (raising (TavilyAPIError "Tavily search timeout after 30s" None)))
              (serp_stub (returning (envelope_of SERP [serp_hit])))
              eq_refl eq_refl eq_refl I) as (Hcalls & _ & Hret).
  split.
  - exact Hcalls.
  - apply (Hret (envelope_of SERP [serp_hit])); [reflexivity | discriminate].
Defined.

(** ** The orchestrator: how it fails *)

(** Every exception that leaves [intelligent_search] is a [SearchError]. *)
Lemma intelligent_search_raises_SearchError ctx q n w e :
  fst (intelligent_search ctx q n w) = Raise e -> is_SearchError e = true.
Proof.
  unfold intelligent_search, try_except, bind, time_time. simpl.
  match goal with
  | |- fst (match ?body with _ => _ end) = _ -> _ => destruct body as [[e0|r] w']
  end; simpl.
  - destruct (is_SearchError e0) eqn:He; unfold raise; simpl; intros C;
      inversion C; subst; auto.
  - discriminate.
Qed.

(** The three messages of the fallback branch: the hard-wired one when the
    SerpAPI call raises, the configuration one, and the one that lists
    [available_providers]. *)
Lemma intelligent_failure_message ctx q n w e :
  is_intelligent ctx ->
  fst (intelligent_search ctx q n w) = Raise e ->
  (e = SearchError msg_serp_failed None None /\ serp_tool ctx <> None)
  \/ (e = SearchError "No search providers configured" None None
      /\ tavily_tool ctx = None /\ serp_tool ctx = None)
  \/ (e = SearchError ("All configured providers failed: "
                       ++ Str.join ", " (available_providers ctx)) None None
      /\ available_providers ctx <> []).
Proof.
  intros Hi. rewrite (intelligent_search_intelligent ctx q n w Hi).
  unfold intelligent_branch, available_providers, msg_serp_failed.
  destruct (tavily_tool ctx) as [ta|], (serp_tool ctx) as [sb|];
    unfold_M; cases_of_run; intros C; inversion C; subst;
    solve [ left; split; [reflexivity|discriminate]
          | right; left; auto
          | right; right; split; [reflexivity|discriminate] ].
Qed.

(** C2, the orchestrator at the failing input: only SerpAPI is configured
    and its call times out.  The error raised is the hard-wired message,
    which names Tavily although [available_providers] holds SerpAPI
    alone. *)
Theorem C2_serp_failure_names_unconfigured_tavily :
  let ctx := ctx_serp_key_only_down in
  let run := intelligent_search ctx "x" 5 w0 in
  tavily_tool ctx = None
  /\ available_providers ctx = ["SerpAPI"]
  /\ calls (snd run) = [SERP]
  /\ fst run = Raise (SearchError msg_serp_failed None None)
  /\ Str.contains "Tavily" msg_serp_failed = true.
Proof. vm_compute. repeat split. Qed.

(** C3, as the code has it: every exception leaving [intelligent_search]
    is a [SearchError]; under the fallback strategy an envelope that is
    returned has results; under "tavily_only" and "serp_only" the envelope
    the provider returns is returned as it is, [search_time] apart, also
    when its result list is empty. *)
Theorem C3_empty_results_by_strategy :
  forall ctx q n w,
    let run := intelligent_search ctx q n w in
    (forall e, fst run = Raise e -> is_SearchError e = true)
    /\ (is_intelligent ctx ->
        forall env, fst run = Return env -> results env <> [])
    /\ (Settings.search_strategy (settings ctx) = "tavily_only" ->
        forall tool r,
          tavily_tool ctx = Some tool ->
          let o := tavily_search tool q n "advanced" true (now w) in
          value o = Return r ->
          fst run = Return (set_search_time r (elapsed o)))
    /\ (Settings.search_strategy (settings ctx) = "serp_only" ->
        forall tool r,
          serp_tool ctx = Some tool ->
          let o := serp_search tool q n (now w) in
          value o = Return r ->
          fst run = Return (set_search_time r (elapsed o))).
Proof.
  intros ctx q n w run. subst run.
  split; [intros e; apply intelligent_search_raises_SearchError|].
  split; [|split].
  - intros Hi env. rewrite (intelligent_search_intelligent ctx q n w Hi).
    unfold intelligent_branch, available_providers.
    destruct (tavily_tool ctx) as [ta|], (serp_tool ctx) as [sb|];
      unfold_M; cases_of_run; intros C; inversion C; subst; simpl; congruence.
  - intros Hs tool r Ht o Hv. subst o.
    unfold intelligent_search. rewrite Hs, Ht. simpl. unfold_M.
    rewrite Hv. simpl. do 2 f_equal. lia.
  - intros Hs tool r Ht o Hv. subst o.
    unfold intelligent_search. rewrite Hs, Ht. simpl. unfold_M.
    rewrite Hv. simpl. do 2 f_equal. lia.
Qed.

(** C3 fails as stated: under "tavily_only", Tavily answering with no
    results makes [intelligent_search] return an envelope whose result
    list is empty, after the one provider call of the run. *)
Lemma C3_counterexample :
  exists env,
    intelligent_search ctx_tavily_only_empty "x" 5 w0
    = (Return env, {| now := 1; calls := [TAVILY] |})
    /\ results env = []
    /\ total_results env = 0.
Proof. eexists. vm_compute. repeat split. Qed.

Lemma C3_witness :
  fst (intelligent_search ctx_tavily_only_empty "x" 5 w0)
  = Return (set_search_time tavily_empty_envelope 1)
  /\ (forall env,
         fst (intelligent_search ctx_timeout_then_serp "x" 5 w0) = Return env ->
         results env <> []).
Proof.
  split.
  - destruct (C3_empty_results_by_strategy ctx_tavily_only_empty "x" 5 w0)
      as (_ & _ & Htavily & _).
    exact (Htavily eq_refl _ tavily_empty_envelope eq_refl eq_refl).
  - destruct (C3_empty_results_by_strategy ctx_timeout_then_serp "x" 5 w0)
      as (_ & Hint & _).
    apply Hint. split; discriminate.
Defined.

(** ** Reasoning about runs in [M] *)

Lemma bind_Return {A B} (m : M A) (k : A -> M B) w b w' :
  bind m k w = (Return b, w') ->
  exists a w1, m w = (Return a, w1) /\ k a w1 = (Return b, w').
Proof.
  unfold bind. destruct (m w) as [[e|a] w1]; intros E.
  - discriminate.
  - exists a, w1. auto.
Qed.

(** A handler that only re-raises lets nothing but the body's own value
    through. *)
Definition reraises {A} (h : exn -> M A) : Prop :=
  forall e w, exists e', h e w = (Raise e', w).

Lemma try_except_Return {A} (body : M A) (h : exn -> M A) w a w' :
  reraises h ->
  try_except body h w = (Return a, w') -> body w = (Return a, w').
Proof.
  intros Hh. unfold try_except. destruct (body w) as [[e|x] w1]; intros E.
  - destruct (Hh e w1) as [e' He']. rewrite He' in E. discriminate.
  - exact E.
Qed.

Lemma raise_not_Return {A} (e : exn) w (a : A) w' : raise e w <> (Return a, w').
Proof. unfold raise. discriminate. Qed.

Lemma ret_Return {A} (x a : A) w w' : ret x w = (Return a, w') -> x = a /\ w = w'.
Proof. unfold ret. intros E. inversion E. auto. Qed.

Lemma time_time_Return w t w' : time_time w = (Return t, w') -> t = now w /\ w' = w.
Proof. unfold time_time. intros E. inversion E. auto. Qed.

Lemma lift_Return {A} (r : result A) w a w' :
  lift r w = (Return a, w') -> r = Return a /\ w' = w.
Proof. unfold lift. intros E. inversion E. auto. Qed.

Lemma await_Return {A} (f : Awaitable A) w a w' :
  await f w = (Return a, w') ->
  value (f (now w)) = Return a
  /\ w' = {| now := now w + elapsed (f (now w)); calls := calls w |}.
Proof. unfold await. intros E. inversion E. auto. Qed.

(** An action that neither reads nor changes the world. *)
Definition pure {A} (m : M A) (r : result A) : Prop := forall w, m w = (r, w).

Lemma mapM_enum_world {A B} (f : Z -> A -> M B) (g : Z -> A -> result B) :
  (forall i x, pure (f i x) (g i x)) ->
  forall l start w, snd (mapM_enum f start l w) = w.
Proof.
  intros Hf l. induction l as [|x rest IH]; intros start w; simpl.
  - reflexivity.
  - unfold bind at 1. rewrite (Hf start x w).
    destruct (g start x) as [e|y]; [reflexivity|].
    unfold bind. specialize (IH (start + 1) w).
    destruct (mapM_enum f (start + 1) rest w) as [[e|ys] w1]; exact IH.
Qed.

(** The values come out one per element, in the order of the elements. *)
Lemma mapM_enum_Return {A B} (f : Z -> A -> M B) (g : Z -> A -> result B) :
  (forall i x, pure (f i x) (g i x)) ->
  forall l start w ys,
    fst (mapM_enum f start l w) = Return ys ->
    length ys = length l
    /\ forall i x, nth_error l i = Some x ->
                   exists y, nth_error ys i = Some y
                             /\ g (start + Z.of_nat i) x = Return y.
Proof.
  intros Hf l. induction l as [|x rest IH]; intros start w ys; simpl.
  - unfold ret. simpl. intros E. inversion E. split; [reflexivity|].
    intros i x Hi. destruct i; discriminate.
  - unfold bind at 1. rewrite (Hf start x w).
    destruct (g start x) as [e|y] eqn:Hg; [discriminate|].
    unfold bind at 1.
    destruct (mapM_enum f (start + 1) rest w) as [[e|zs] w1] eqn:Hrest;
      [discriminate|].
    unfold ret. simpl. intros E. inversion E; subst ys.
    destruct (IH (start + 1) w zs) as [Hlen Hnth]; [rewrite Hrest; reflexivity|].
    split; [simpl; f_equal; exact Hlen|].
    intros i x0 Hi. destruct i as [|i]; simpl in Hi.
    + inversion Hi; subst x0. exists y. rewrite Z.add_0_r. auto.
    + destruct (Hnth i x0 Hi) as (y0 & Hn & Hy0).
      exists y0. split; [exact Hn|].
      rewrite <- Hy0. f_equal. lia.
Qed.

(** When every element has a value, so has the list. *)
Lemma mapM_enum_total {A B} (f : Z -> A -> M B) (g : Z -> A -> result B) :
  (forall i x, pure (f i x) (g i x)) ->
  forall l start w,
    (forall i x, nth_error l i = Some x ->
                 exists y, g (start + Z.of_nat i) x = Return y) ->
    exists ys, fst (mapM_enum f start l w) = Return ys.
Proof.
  intros Hf l. induction l as [|x rest IH]; intros start w Hall; simpl.
  - eexists. reflexivity.
  - unfold bind at 1. rewrite (Hf start x w).
    destruct (Hall O x eq_refl) as [y Hy]. simpl in Hy.
    rewrite Z.add_0_r in Hy. rewrite Hy.
    destruct (IH (start + 1) w) as [ys Hys].
    { intros i x0 Hi. destruct (Hall (S i) x0 Hi) as [y0 Hy0].
      exists y0. rewrite <- Hy0. f_equal. lia. }
    unfold bind.
    destruct (mapM_enum f (start + 1) rest w) as [[e|zs] w1]; simpl in Hys.
    + discriminate.
    + eexists. reflexivity.
Qed.

(** [mapM] is [mapM_enum] on a function that ignores the index. *)
Lemma mapM_as_enum {A B} (f : A -> M B) l start :
  mapM f l = mapM_enum (fun _ => f) start l.
Proof.
  revert start. induction l as [|x rest IH]; intros start; simpl.
  - reflexivity.
  - rewrite (IH (start + 1)). reflexivity.
Qed.

(** ** The provider clients *)

Section Clients.
Context `{Python} (net : Network).

Lemma fault_not_Return {A} (f : Fault) w (a : A) w' : fault f w <> (Return a, w').
Proof. unfold fault, raise. discriminate. Qed.

Lemma py_get_Return v k w x w' :
  py_get v k w = (Return x, w') ->
  exists kvs, v = JDict kvs /\ x = dict_lookup k kvs /\ w' = w.
Proof.
  destruct v; simpl; intros E;
    try (exfalso; exact (fault_not_Return _ _ _ _ E)).
  apply ret_Return in E as [<- <-]. eauto.
Qed.

Lemma py_iter_pure v : pure (py_iter v) (fst (py_iter v w0)).
Proof. intros w. destruct v; reflexivity. Qed.

(** Building one item reads and changes nothing but the item. *)
Lemma tavily_make_result_pure raw :
  pure (TavilySearchTool.make_result raw) (fst (TavilySearchTool.make_result raw w0)).
Proof.
  intros w. unfold TavilySearchTool.make_result.
  destruct raw; try reflexivity.
  unfold py_get, fault. unfold_M.
  repeat match goal with
         | |- context [match ?x with _ => _ end] => destruct x
         end; reflexivity.
Qed.

Lemma serp_make_result_pure i raw :
  pure (SerpSearchTool.make_result i raw) (fst (SerpSearchTool.make_result i raw w0)).
Proof.
  intros w. unfold SerpSearchTool.make_result.
  destruct raw; try reflexivity.
  unfold py_get, fault. unfold_M.
  repeat match goal with
         | |- context [match ?x with _ => _ end] => destruct x
         end; reflexivity.
Qed.

Lemma tavily_handler_reraises (self : TavilySearchTool.t) :
  reraises
    (fun e : exn =>
       match e with
       | TimeoutException _ =>
           raise (A := SearchResults)
             (TavilyAPIError
                ("Tavily search timeout after "
                 ++ Str.of_Z (TavilySearchTool.timeout self) ++ "s") None)
       | RequestError _ =>
           raise (TavilyAPIError ("Tavily request failed: " ++ str e) None)
       | _ =>
           raise (TavilyAPIError ("Unexpected Tavily search error: " ++ str e) None)
       end).
Proof. intros e w. destruct e; eexists; reflexivity. Qed.

Lemma serp_handler_reraises (self : SerpSearchTool.t) :
  reraises
    (fun e : exn =>
       match e with
       | TimeoutException _ =>
           raise (A := SearchResults)
             (SerpAPIError
                ("SerpAPI search timeout after "
                 ++ Str.of_Z (SerpSearchTool.timeout self) ++ "s") None)
       | RequestError _ =>
           raise (SerpAPIError ("SerpAPI request failed: " ++ str e) None)
       | _ =>
           raise (SerpAPIError ("Unexpected SerpAPI search error: " ++ str e) None)
       end).
Proof. intros e w. destruct e; eexists; reflexivity. Qed.

(** What a returning Tavily [search] has seen and built: a 200 response
    whose body is an object, one item per element of its "results", in
    order, and the envelope fields as the constructor call sets them. *)
Lemma tavily_search_Return self q n depth answer incl excl w env w' :
  TavilySearchTool.search net self q n depth answer incl excl w = (Return env, w') ->
  let o := post net (TavilySearchTool.base_url self ++ "/search")
             (TavilySearchTool.payload_of self q n depth answer incl excl)
             (TavilySearchTool.timeout self) (now w) in
  exists resp kvs items,
    value o = Return resp
    /\ status_code resp = 200
    /\ json_body resp = Return (JDict kvs)
    /\ fst (py_iter (match dict_lookup "results" kvs with
                     | Some v => v
                     | None => JList []
                     end) w0) = Return items
    /\ length (results env) = length items
    /\ (forall i raw,
           nth_error items i = Some raw ->
           exists item, nth_error (results env) i = Some item
                        /\ fst (TavilySearchTool.make_result raw w0) = Return item)
    /\ query env = q
    /\ total_results env = Z.of_nat (length (results env))
    /\ search_time env = elapsed o
    /\ providers_used env = [TAVILY]
    /\ timestamp env = now w + elapsed o
    /\ (if answer
        then field_opt_str (dict_lookup "answer" kvs) = Some (ai_summary env)
        else ai_summary env = None)
    /\ w' = {| now := now w + elapsed o; calls := calls w |}.
Proof.
  intros E o. unfold TavilySearchTool.search in E.
  apply bind_Return in E as (start & w1 & Hs & E).
  apply time_time_Return in Hs as [-> ->].
  apply try_except_Return in E; [|apply tavily_handler_reraises].
  apply bind_Return in E as (resp & w2 & Hpost & E).
  apply await_Return in Hpost as [Hresp ->]. fold o in Hresp, E.
  apply bind_Return in E as (u & w3 & Hstatus & E).
  destruct (status_code resp =? 200) eqn:Hst; simpl in Hstatus.
  2:{ apply bind_Return in Hstatus as (m & w4 & _ & C).
      exfalso. exact (raise_not_Return _ _ _ _ C). }
  apply ret_Return in Hstatus as [_ <-].
  apply bind_Return in E as (data & w4 & Hdata & E).
  apply lift_Return in Hdata as [Hjson ->].
  apply bind_Return in E as (raw & w5 & Hget & E).
  apply py_get_Return in Hget as (kvs & -> & -> & ->).
  apply bind_Return in E as (items & w6 & Hiter & E).
  rewrite (py_iter_pure _ _) in Hiter. inversion Hiter as [[Hitems Hw6]].
  subst w6. clear Hiter.
  apply bind_Return in E as (rs & w7 & Hmap & E).
  rewrite (mapM_as_enum _ _ 0) in Hmap.
  pose proof (mapM_enum_world (fun _ => TavilySearchTool.make_result)
                (fun _ raw => fst (TavilySearchTool.make_result raw w0))
                (fun _ => tavily_make_result_pure) items 0
                {| now := now w + elapsed o; calls := calls w |}) as Hworld.
  pose proof (mapM_enum_Return (fun _ => TavilySearchTool.make_result)
                (fun _ raw => fst (TavilySearchTool.make_result raw w0))
                (fun _ => tavily_make_result_pure) items 0
                {| now := now w + elapsed o; calls := calls w |} rs) as Hret.
  rewrite Hmap in Hworld, Hret. simpl in Hworld. subst w7.
  destruct (Hret eq_refl) as [Hlen Hnth]. clear Hret.
  apply bind_Return in E as (finished & w8 & Hf & E).
  apply time_time_Return in Hf as [-> ->]. simpl in E.
  apply bind_Return in E as (summary & w9 & Hsum & E).
  apply bind_Return in E as (created & w10 & Hc & E).
  apply time_time_Return in Hc as [-> ->].
  apply ret_Return in E as [<- <-]. simpl.
  assert (Hsummary :
            (if answer
             then field_opt_str (dict_lookup "answer" kvs) = Some summary
             else summary = None)
            /\ w9 = {| now := now w + elapsed o; calls := calls w |}).
  { destruct answer.
    - apply bind_Return in Hsum as (ans & w11 & Hans & Hsum).
      apply ret_Return in Hans as [<- <-].
      destruct (field_opt_str (dict_lookup "answer" kvs)) as [a|].
      + apply ret_Return in Hsum as [<- <-]. auto.
      + exfalso. exact (fault_not_Return _ _ _ _ Hsum).
    - apply ret_Return in Hsum as [<- <-]. auto. }
  destruct Hsummary as [Hsummary ->]. simpl.
  exists resp, kvs, items.
  apply Z.eqb_eq in Hst.
  repeat (split; [solve [auto | lia]|]).
  reflexivity.
Qed.

(** The same for SerpAPI: the body has no "error" key, items come one per
    element of "organic_results" and know their index, and the summary is
    the one [_generate_summary] writes, absent when there are no items. *)
Lemma serp_search_Return self q n country language safe period w env w' :
  SerpSearchTool.search net self q n country language safe period w = (Return env, w') ->
  let o := get net (SerpSearchTool.base_url self)
             (SerpSearchTool.params_of self q n country language safe period)
             (SerpSearchTool.timeout self) (now w) in
  exists resp kvs items,
    value o = Return resp
    /\ status_code resp = 200
    /\ json_body resp = Return (JDict kvs)
    /\ dict_lookup "error" kvs = None
    /\ fst (py_iter (match dict_lookup "organic_results" kvs with
                     | Some v => v
                     | None => JList []
                     end) w0) = Return items
    /\ length (results env) = length items
    /\ (forall i raw,
           nth_error items i = Some raw ->
           exists item, nth_error (results env) i = Some item
                        /\ fst (SerpSearchTool.make_result (Z.of_nat i) raw w0)
                           = Return item)
    /\ query env = q
    /\ total_results env = Z.of_nat (length (results env))
    /\ search_time env = elapsed o
    /\ providers_used env = [SERP]
    /\ timestamp env = now w + elapsed o
    /\ ai_summary env = match results env with
                        | [] => None
                        | _ => Some (SerpSearchTool._generate_summary (results env))
                        end
    /\ w' = {| now := now w + elapsed o; calls := calls w |}.
Proof.
  intros E o. unfold SerpSearchTool.search in E.
  apply bind_Return in E as (start & w1 & Hs & E).
  apply time_time_Return in Hs as [-> ->].
  apply try_except_Return in E; [|apply serp_handler_reraises].
  apply bind_Return in E as (resp & w2 & Hget & E).
  apply await_Return in Hget as [Hresp ->]. fold o in Hresp, E.
  apply bind_Return in E as (u & w3 & Hstatus & E).
  destruct (status_code resp =? 200) eqn:Hst; simpl in Hstatus.
  2:{ apply bind_Return in Hstatus as (m & w4 & _ & C).
      exfalso. exact (raise_not_Return _ _ _ _ C). }
  apply ret_Return in Hstatus as [_ <-].
  apply bind_Return in E as (data & w4 & Hdata & E).
  apply lift_Return in Hdata as [Hjson ->].
  apply bind_Return in E as (has_error & w5 & Hin & E).
  apply bind_Return in E as (u' & w6 & Hif & E).
  apply bind_Return in E as (raw & w7 & Hraw & E).
  apply py_get_Return in Hraw as (kvs & -> & -> & ->).
  simpl in Hin. apply ret_Return in Hin as [<- <-].
  assert (Herr : dict_lookup "error" kvs = None
                 /\ w6 = {| now := now w + elapsed o; calls := calls w |}).
  { destruct (dict_lookup "error" kvs) as [v|] eqn:Hv; simpl in Hif.
    - apply bind_Return in Hif as (x & w8 & _ & C).
      exfalso. exact (raise_not_Return _ _ _ _ C).
    - apply ret_Return in Hif as [_ <-]. auto. }
  destruct Herr as [Herr ->].
  apply bind_Return in E as (items & w8 & Hiter & E).
  rewrite (py_iter_pure _ _) in Hiter. inversion Hiter as [[Hitems Hw8]].
  subst w8. clear Hiter.
  apply bind_Return in E as (rs & w9 & Hmap & E).
  pose proof (mapM_enum_world SerpSearchTool.make_result
                (fun i raw => fst (SerpSearchTool.make_result i raw w0))
                serp_make_result_pure items 0
                {| now := now w + elapsed o; calls := calls w |}) as Hworld.
  pose proof (mapM_enum_Return SerpSearchTool.make_result
                (fun i raw => fst (SerpSearchTool.make_result i raw w0))
                serp_make_result_pure items 0
                {| now := now w + elapsed o; calls := calls w |} rs) as Hret.
  rewrite Hmap in Hworld, Hret. simpl in Hworld. subst w9.
  destruct (Hret eq_refl) as [Hlen Hnth]. clear Hret.
  apply bind_Return in E as (finished & w10 & Hf & E).
  apply time_time_Return in Hf as [-> ->]. simpl in E.
  apply bind_Return in E as (created & w11 & Hc & E).
  apply time_time_Return in Hc as [-> ->].
  apply ret_Return in E as [<- <-]. simpl.
  exists resp, kvs, items.
  apply Z.eqb_eq in Hst.
  repeat (split; [solve [auto | lia]|]).
  reflexivity.
Qed.

(** Conversely the Tavily [search] returns whenever the backend answers
    200 with an object whose items and answer pydantic accepts. *)
Lemma tavily_search_total self q n depth answer incl excl w resp kvs items :
  let o := post net (TavilySearchTool.base_url self ++ "/search")
             (TavilySearchTool.payload_of self q n depth answer incl excl)
             (TavilySearchTool.timeout self) (now w) in
  value o = Return resp ->
  status_code resp = 200 ->
  json_body resp = Return (JDict kvs) ->
  fst (py_iter (match dict_lookup "results" kvs with
                | Some v => v
                | None => JList []
                end) w0) = Return items ->
  (forall i raw, nth_error items i = Some raw ->
                 exists item, fst (TavilySearchTool.make_result raw w0) = Return item) ->
  (answer = true -> exists a, field_opt_str (dict_lookup "answer" kvs) = Some a) ->
  exists env,
    TavilySearchTool.search net self q n depth answer incl excl w
    = (Return env, {| now := now w + elapsed o; calls := calls w |}).
Proof.
  intros o Hresp Hst Hjson Hitems Hall Hans.
  pose (w1 := {| now := now w + elapsed o; calls := calls w |}).
  destruct (mapM_enum_total (fun _ => TavilySearchTool.make_result)
              (fun _ raw => fst (TavilySearchTool.make_result raw w0))
              (fun _ => tavily_make_result_pure) items 0 w1) as [rs Hrs].
  { intros i raw Hi. exact (Hall i raw Hi). }
  pose proof (mapM_enum_world (fun _ => TavilySearchTool.make_result)
                (fun _ raw => fst (TavilySearchTool.make_result raw w0))
                (fun _ => tavily_make_result_pure) items 0 w1) as Hworld.
  rewrite <- (mapM_as_enum TavilySearchTool.make_result items 0) in Hrs, Hworld.
  unfold TavilySearchTool.search, try_except, bind, time_time, await, lift.
  simpl. fold o. rewrite Hresp. simpl. rewrite Hst. simpl. rewrite Hjson. simpl.
  fold w1. rewrite (py_iter_pure _ w1), Hitems.
  destruct (mapM TavilySearchTool.make_result items w1) as [[e|rs'] w2];
    simpl in Hrs, Hworld; [discriminate|].
  inversion Hrs; subst rs' w2.
  destruct answer; simpl.
  - destruct (Hans eq_refl) as [a Ha]. rewrite Ha. simpl. eexists. reflexivity.
  - eexists. reflexivity.
Qed.

Lemma serp_search_total self q n country language safe period w resp kvs items :
  let o := get net (SerpSearchTool.base_url self)
             (SerpSearchTool.params_of self q n country language safe period)
             (SerpSearchTool.timeout self) (now w) in
  value o = Return resp ->
  status_code resp = 200 ->
  json_body resp = Return (JDict kvs) ->
  dict_lookup "error" kvs = None ->
  fst (py_iter (match dict_lookup "organic_results" kvs with
                | Some v => v
                | None => JList []
                end) w0) = Return items ->
  (forall i raw, nth_error items i = Some raw ->
                 exists item,
                   fst (SerpSearchTool.make_result (Z.of_nat i) raw w0) = Return item) ->
  exists env,
    SerpSearchTool.search net self q n country language safe period w
    = (Return env, {| now := now w + elapsed o; calls := calls w |}).
Proof.
  intros o Hresp Hst Hjson Herr Hitems Hall.
  pose (w1 := {| now := now w + elapsed o; calls := calls w |}).
  destruct (mapM_enum_total SerpSearchTool.make_result
              (fun i raw => fst (SerpSearchTool.make_result i raw w0))
              serp_make_result_pure items 0 w1) as [rs Hrs].
  { intros i raw Hi. exact (Hall i raw Hi). }
  pose proof (mapM_enum_world SerpSearchTool.make_result
                (fun i raw => fst (SerpSearchTool.make_result i raw w0))
                serp_make_result_pure items 0 w1) as Hworld.
  unfold SerpSearchTool.search, try_except, bind, time_time, await, lift.
  simpl. fold o. rewrite Hresp. simpl. rewrite Hst. simpl. rewrite Hjson. simpl.
  rewrite Herr. simpl.
  fold w1. rewrite (py_iter_pure _ w1), Hitems.
  destruct (mapM_enum SerpSearchTool.make_result 0 items w1) as [[e|rs'] w2];
    simpl in Hrs, Hworld; [discriminate|].
  inversion Hrs; subst rs' w2.
  eexists. reflexivity.
Qed.

End Clients.

Section Provenance.
Context `{Python} (net : Network).

Lemma tavily_make_result_provider raw w item w' :
  TavilySearchTool.make_result raw w = (Return item, w') ->
  result_provider item = TAVILY.
Proof.
  unfold TavilySearchTool.make_result. intros E.
  repeat (apply bind_Return in E as (? & ? & _ & E)).
  repeat match type of E with
         | context [match ?x with _ => _ end] => destruct x
         end;
    try (exfalso; exact (fault_not_Return _ _ _ _ E)).
  apply ret_Return in E as [<- _]. reflexivity.
Qed.

Lemma serp_make_result_provider i raw w item w' :
  SerpSearchTool.make_result i raw w = (Return item, w') ->
  result_provider item = SERP.
Proof.
  unfold SerpSearchTool.make_result. intros E.
  repeat (apply bind_Return in E as (? & ? & _ & E)).
  repeat match type of E with
         | context [match ?x with _ => _ end] => destruct x
         end;
    try (exfalso; exact (fault_not_Return _ _ _ _ E)).
  apply ret_Return in E as [<- _]. reflexivity.
Qed.

Lemma in_order_Forall norm raws items (P : SearchResult -> Prop) :
  in_order norm raws items ->
  (forall i raw item, norm i raw = Return item -> P item) ->
  Forall P items.
Proof.
  intros [Hlen Hnth] HP. apply Forall_forall. intros item Hin.
  apply In_nth_error in Hin as [i Hi].
  assert (Hlt : (i < length raws)%nat).
  { rewrite <- Hlen. apply nth_error_Some. congruence. }
  destruct (nth_error raws i) as [raw|] eqn:Hraw.
  - destruct (Hnth i raw Hraw) as (item' & Hi' & Hn).
    rewrite Hi in Hi'. inversion Hi'; subst item'. exact (HP i raw item Hn).
  - apply nth_error_None in Hraw. lia.
Qed.

(** The Tavily client labels what it returns as Tavily's. *)
Lemma tavily_client_labelled tool q n depth answer t r :
  value (tavily_search (ResearchAgentDeps.tavily_client net tool) q n depth answer t)
  = Return r ->
  labelled TAVILY r.
Proof.
  simpl. unfold as_awaitable.
  destruct (TavilySearchTool.search net tool q n depth answer None None
              {| now := t; calls := [] |}) as [r' w'] eqn:E.
  simpl. intros ->.
  destruct (tavily_search_Return net _ _ _ _ _ _ _ _ _ _ E)
    as (resp & kvs & items & _ & _ & _ & _ & Hlen & Hnth & _ & _ & _ & Hp & _).
  split; [exact Hp|].
  apply (in_order_Forall (fun _ raw => fst (TavilySearchTool.make_result raw w0)) items).
  - split; assumption.
  - intros i raw item Hn.
    assert (E' := tavily_make_result_pure raw w0). rewrite Hn in E'.
    exact (tavily_make_result_provider _ _ _ _ E').
Qed.

Lemma serp_client_labelled tool q n t r :
  value (serp_search (ResearchAgentDeps.serp_client net tool) q n t) = Return r ->
  labelled SERP r.
Proof.
  simpl. unfold as_awaitable.
  destruct (SerpSearchTool.search net tool q n "us" "en" "off" None
              {| now := t; calls := [] |}) as [r' w'] eqn:E.
  simpl. intros ->.
  destruct (serp_search_Return net _ _ _ _ _ _ _ _ _ _ E)
    as (resp & kvs & items & _ & _ & _ & _ & _ & Hlen & Hnth & _ & _ & _ & Hp & _).
  split; [exact Hp|].
  apply (in_order_Forall
           (fun i raw => fst (SerpSearchTool.make_result (Z.of_nat i) raw w0)) items).
  - split; assumption.
  - intros i raw item Hn.
    assert (E' := serp_make_result_pure (Z.of_nat i) raw w0). rewrite Hn in E'.
    exact (serp_make_result_provider _ _ _ _ _ E').
Qed.

End Provenance.

(** ** Provenance of the returned envelope *)

Ltac from_client p attempts :=
  exists p, attempts; do 2 eexists;
  split; [ simpl; rewrite <- ?app_assoc; reflexivity
         | split; [ simpl; intuition discriminate
                  | split; [ simpl; do 2 eexists; split; eassumption
                           | reflexivity ] ] ].

(** Whatever the strategy, an envelope that [intelligent_search] returns is
    the one returned by the client invoked last, [search_time] apart; a
    client invoked before it is another provider's. *)
Lemma intelligent_search_Return ctx q n w envl :
  fst (intelligent_search ctx q n w) = Return envl ->
  exists p attempts r t,
    calls (snd (intelligent_search ctx q n w)) = (calls w ++ attempts ++ [p])%list
    /\ ~ In p attempts
    /\ returned_by ctx q n p r
    /\ envl = set_search_time r t.
Proof.
  unfold intelligent_search, intelligent_branch, available_providers.
  destruct (String.eqb (Settings.search_strategy (settings ctx)) "tavily_only");
    [| destruct (String.eqb (Settings.search_strategy (settings ctx)) "serp_only") ];
    destruct (tavily_tool ctx) as [ta|] eqn:Hta, (serp_tool ctx) as [sb|] eqn:Hsb;
    unfold_M; cases_of_run;
    repeat match goal with
           | |- context [if is_SearchError ?e then _ else _] =>
               destruct (is_SearchError e); simpl
           end;
    intros C; inversion C; subst;
    first [ from_client TAVILY (@nil SearchProvider)
          | from_client SERP (@nil SearchProvider)
          | from_client SERP [TAVILY] ].
Qed.

Lemma labelled_set_search_time p r t :
  labelled p r -> labelled p (set_search_time r t).
Proof. intros [Hp Hr]. split; assumption. Qed.

Lemma returned_by_real_labelled `{Python} net env q n p r :
  returned_by (ResearchAgentDeps.init net env) q n p r -> labelled p r.
Proof.
  destruct p; simpl; intros (tool & t & Htool & Hv).
  - destruct (Settings.tavily_api_key env) as [[|c k]|]; try discriminate.
    inversion Htool; subst tool.
    exact (tavily_client_labelled net _ _ _ _ _ _ _ Hv).
  - destruct (Settings.serp_api_key env) as [[|c k]|]; try discriminate.
    inversion Htool; subst tool.
    exact (serp_client_labelled net _ _ _ _ _ Hv).
Qed.

(** C4: with the clients [ResearchAgentDeps()] builds, an envelope that
    [intelligent_search] returns names in [providers_used] exactly the
    provider whose client was invoked last and returned its results, whose
    provenance every item carries; a provider invoked before it is not
    named.  When Tavily raises and SerpAPI returns results under
    "intelligent", [providers_used] is [[SERP]] and each client has been
    invoked once. *)
Theorem C4_providers_used_names_the_source :
  forall (py : Python) (net : Network) (env : Settings.t) q n w,
    let ctx := ResearchAgentDeps.init net env in
    let run := intelligent_search ctx q n w in
    (forall envl,
        fst run = Return envl ->
        exists p attempts,
          calls (snd run) = (calls w ++ attempts ++ [p])%list
          /\ ~ In p attempts
          /\ labelled p envl
          /\ exists r, returned_by ctx q n p r /\ results envl = results r)
    /\ (Settings.search_strategy env = "intelligent" ->
        forall ta sb e rb,
          tavily_tool ctx = Some ta ->
          serp_tool ctx = Some sb ->
          value (tavily_search ta q n "advanced" true (now w)) = Raise e ->
          value (serp_search sb q n
                   (now w + elapsed (tavily_search ta q n "advanced" true (now w))))
          = Return rb ->
          results rb <> [] ->
          exists envl,
            fst run = Return envl
            /\ providers_used envl = [SERP]
            /\ results envl = results rb
            /\ calls (snd run) = (calls w ++ [TAVILY; SERP])%list).
Proof.
  intros py net env q n w ctx run. split.
  - intros envl Hret.
    destruct (intelligent_search_Return ctx q n w envl Hret)
      as (p & attempts & r & t & Hcalls & Hnot & Hby & ->).
    exists p, attempts. repeat split; try assumption.
    + apply (returned_by_real_labelled net env q n p r Hby).
    + apply (returned_by_real_labelled net env q n p r Hby).
    + exists r. split; [exact Hby | reflexivity].
  - intros Hs ta sb e rb Hta Hsb HvA HvB Hne.
    assert (Hi : is_intelligent ctx) by (apply intelligent_eq; exact Hs).
    destruct (fallback_to_serp ctx q n w ta sb Hi Hta Hsb) as (Hcalls & _ & Hrun).
    { rewrite HvA. exact I. }
    specialize (Hrun rb HvB Hne).
    eexists. split; [exact Hrun|].
    repeat split; try exact Hcalls.
    assert (Hby : returned_by ctx q n SERP rb) by (simpl; eauto).
    apply (returned_by_real_labelled net env q n SERP rb Hby).
Qed.

Lemma C4_witness :
  let run := intelligent_search ctx_real_timeout_then_serp "x" 5 w0 in
  exists envl,
    fst run = Return envl
    /\ providers_used envl = [SERP]
    /\ calls (snd run) = [TAVILY; SERP].
Proof.
  intros run.
  destruct (C4_providers_used_names_the_source sample_python
              (net_of timed_out (answered organic_one))
              (env_with "intelligent" (Some "tvly-key") (Some "serp-key"))
              "x" 5 w0) as [_ Hfallback].
  destruct (Hfallback eq_refl _ _
              (TavilyAPIError "Tavily search timeout after 30s" None)
              serp_one_envelope eq_refl eq_refl)
    as (envl & Hret & Hp & _ & Hcalls).
  - vm_compute. reflexivity.
  - vm_compute. reflexivity.
  - vm_compute. discriminate.
  - exists envl. repeat split; assumption.
Defined.

(** ** The envelopes the clients build *)

(** C8: from a backend answer that lists N raw items, the envelope either
    client builds has [total_results] N and holds the items one per raw
    element in the order the backend listed them; and the client does build
    it whenever pydantic accepts every element (and, for Tavily, the
    answer). *)
Theorem C8_envelope_counts_and_orders_items :
  forall (py : Python) (net : Network) (raws : list json),
    (forall self q n depth answer incl excl w resp kvs,
        let o := post net (TavilySearchTool.base_url self ++ "/search")
                   (TavilySearchTool.payload_of self q n depth answer incl excl)
                   (TavilySearchTool.timeout self) (now w) in
        value o = Return resp ->
        status_code resp = 200 ->
        json_body resp = Return (JDict kvs) ->
        dict_lookup "results" kvs = Some (JList raws) ->
        (forall env w',
            TavilySearchTool.search net self q n depth answer incl excl w
            = (Return env, w') ->
            total_results env = Z.of_nat (length raws)
            /\ in_order tavily_norm raws (results env))
        /\ ((forall i raw, nth_error raws i = Some raw ->
                           exists item, tavily_norm i raw = Return item) ->
            (answer = true ->
             exists a, field_opt_str (dict_lookup "answer" kvs) = Some a) ->
            exists env w',
              TavilySearchTool.search net self q n depth answer incl excl w
              = (Return env, w')))
    /\ (forall self q n country language safe period w resp kvs,
           let o := get net (SerpSearchTool.base_url self)
                      (SerpSearchTool.params_of self q n country language safe period)
                      (SerpSearchTool.timeout self) (now w) in
           value o = Return resp ->
           status_code resp = 200 ->
           json_body resp = Return (JDict kvs) ->
           dict_lookup "error" kvs = None ->
           dict_lookup "organic_results" kvs = Some (JList raws) ->
           (forall env w',
               SerpSearchTool.search net self q n country language safe period w
               = (Return env, w') ->
               total_results env = Z.of_nat (length raws)
               /\ in_order serp_norm raws (results env))
           /\ ((forall i raw, nth_error raws i = Some raw ->
                              exists item, serp_norm i raw = Return item) ->
               exists env w',
                 SerpSearchTool.search net self q n country language safe period w
                 = (Return env, w'))).
Proof.
  intros py net raws. split.
  - intros self q n depth answer incl excl w resp kvs o Hresp Hst Hjson Hres. split.
    + intros env w' E.
      destruct (tavily_search_Return net _ _ _ _ _ _ _ _ _ _ E)
        as (resp' & kvs' & items & Hresp' & _ & Hjson' & Hitems & Hlen & Hnth
            & _ & Htotal & _).
      fold o in Hresp'. rewrite Hresp in Hresp'. inversion Hresp'; subst resp'.
      rewrite Hjson in Hjson'. inversion Hjson'; subst kvs'.
      rewrite Hres in Hitems. simpl in Hitems. inversion Hitems; subst items.
      split; [rewrite Htotal, Hlen; reflexivity|].
      split; [exact Hlen | exact Hnth].
    + intros Hvalid Hanswer.
      destruct (tavily_search_total net self q n depth answer incl excl w resp kvs raws
                  Hresp Hst Hjson) as [env E].
      * rewrite Hres. reflexivity.
      * exact Hvalid.
      * exact Hanswer.
      * eauto.
  - intros self q n country language safe period w resp kvs o Hresp Hst Hjson Herr Hres.
    split.
    + intros env w' E.
      destruct (serp_search_Return net _ _ _ _ _ _ _ _ _ _ E)
        as (resp' & kvs' & items & Hresp' & _ & Hjson' & _ & Hitems & Hlen & Hnth
            & _ & Htotal & _).
      fold o in Hresp'. rewrite Hresp in Hresp'. inversion Hresp'; subst resp'.
      rewrite Hjson in Hjson'. inversion Hjson'; subst kvs'.
      rewrite Hres in Hitems. simpl in Hitems. inversion Hitems; subst items.
      split; [rewrite Htotal, Hlen; reflexivity|].
      split; [exact Hlen | exact Hnth].
    + intros Hvalid.
      destruct (serp_search_total net self q n country language safe period w resp kvs
                  raws Hresp Hst Hjson Herr) as [env E].
      * rewrite Hres. reflexivity.
      * exact Hvalid.
      * eauto.
Qed.

Lemma C8_witness :
  exists env w',
    TavilySearchTool.search (H := sample_python)
      (net_of (answered tavily_two) timed_out) tavily_tool0
      "x" 5 "advanced" true None None w0 = (Return env, w')
    /\ total_results env = 2
    /\ in_order (tavily_norm (H := sample_python)) tavily_two_items (results env).
Proof.
  destruct (C8_envelope_counts_and_orders_items sample_python
              (net_of (answered tavily_two) timed_out) tavily_two_items)
    as [Htavily _].
  destruct (Htavily tavily_tool0 "x" 5 "advanced" true None None w0
              (http_ok tavily_two) tavily_two_fields
              eq_refl eq_refl eq_refl eq_refl) as [Hshape Hbuilt].
  destruct Hbuilt as (env & w' & E).
  - intros i raw Hi.
    destruct i as [|[|i]]; simpl in Hi;
      [ inversion Hi; subst raw; eexists; vm_compute; reflexivity
      | inversion Hi; subst raw; eexists; vm_compute; reflexivity
      | destruct i; discriminate ].
  - intros _. eexists. vm_compute. reflexivity.
  - exists env, w'. split; [exact E|]. exact (Hshape env w' E).
Defined.

(** C7, as the code has it: the Tavily client takes [ai_summary] from the
    "answer" field of the response body when [include_answer] is set and
    leaves it [None] otherwise; the SerpAPI client reads no answer from the
    backend and writes [ai_summary] itself, from [_generate_summary] when
    there are results and as [None] when there are none. *)
Theorem C7_ai_summary_by_client :
  forall (py : Python) (net : Network),
    (forall self q n depth answer incl excl w env w',
        TavilySearchTool.search net self q n depth answer incl excl w
        = (Return env, w') ->
        exists resp kvs,
          value (post net (TavilySearchTool.base_url self ++ "/search")
                   (TavilySearchTool.payload_of self q n depth answer incl excl)
                   (TavilySearchTool.timeout self) (now w)) = Return resp
          /\ json_body resp = Return (JDict kvs)
          /\ (if answer
              then field_opt_str (dict_lookup "answer" kvs) = Some (ai_summary env)
              else ai_summary env = None))
    /\ (forall self q n country language safe period w env w',
           SerpSearchTool.search net self q n country language safe period w
           = (Return env, w') ->
           ai_summary env
           = match results env with
             | [] => None
             | _ => Some (SerpSearchTool._generate_summary (results env))
             end).
Proof.
  intros py net. split.
  - intros self q n depth answer incl excl w env w' E.
    destruct (tavily_search_Return net _ _ _ _ _ _ _ _ _ _ E)
      as (resp & kvs & items & Hresp & _ & Hjson & _ & _ & _ & _ & _ & _ & _ & _
          & Hans & _).
    exists resp, kvs. auto.
  - intros self q n country language safe period w env w' E.
    destruct (serp_search_Return net _ _ _ _ _ _ _ _ _ _ E)
      as (resp & kvs & items & _ & _ & _ & _ & _ & _ & _ & _ & _ & _ & _ & _
          & Hsum & _).
    exact Hsum.
Qed.

(** C7 fails as stated: the SerpAPI client, answered with one organic
    result, returns an envelope that does carry an [ai_summary]. *)
Lemma C7_counterexample :
  exists env w',
    SerpSearchTool.search (H := sample_python)
      (net_of timed_out (answered organic_one)) serp_tool0
      "x" 5 "us" "en" "off" None w0 = (Return env, w')
    /\ results env = [serp_hit]
    /\ ai_summary env
       = Some "Found 1 search results. Top sources: https://ai.google/safety"
    /\ ai_summary env <> None.
Proof.
  do 2 eexists. split; [vm_compute; reflexivity|].
  simpl. repeat split. discriminate.
Qed.

Lemma C7_witness :
  ai_summary serp_one_envelope
  = match results serp_one_envelope with
    | [] => None
    | _ => Some (SerpSearchTool._generate_summary (results serp_one_envelope))
    end.
Proof.
  destruct (C7_ai_summary_by_client sample_python
              (net_of timed_out (answered organic_one))) as [_ Hserp].
  apply (Hserp serp_tool0 "x" 5 "us" "en" "off" None
           {| now := 30; calls := [] |} serp_one_envelope
           {| now := 31; calls := [] |}).
  vm_compute. reflexivity.
Defined.

(** ** The agents around the search *)

Section ResearchAgent.
Variable default_deps : result ResearchAgentDeps.t.
Variable summarize : string -> ResearchAgentDeps.t -> Awaitable (RunResult string).

(** The first statement of the [try] block, when the dependencies are
    given or can be built. *)
Lemma default_deps_Return deps ctx w :
  deps_of default_deps deps = Return ctx ->
  (match deps with Some d => ret d | None => lift default_deps end) w
  = (Return ctx, w).
Proof. destruct deps; unfold ret, lift; simpl; congruence. Qed.

Lemma default_deps_Raise deps e w :
  deps_of default_deps deps = Raise e ->
  (match deps with Some d => ret d | None => lift default_deps end) w
  = (@Raise ResearchAgentDeps.t e, w).
Proof. destruct deps; unfold ret, lift; simpl; congruence. Qed.

(** A search that raised is reported as a search failure. *)
Lemma run_research_agent_search_failed query n summary deps ctx w e w1 :
  deps_of default_deps deps = Return ctx ->
  intelligent_search ctx query n w = (Raise e, w1) ->
  run_research_agent default_deps summarize query n summary deps w
  = (Return {| success := false; data := None;
               message := "Research failed due to search error";
               error := Some ("Search failed: " ++ str e);
               execution_time := now w1 - now w; tokens_used := None |}, w1).
Proof.
  intros Hdeps E.
  assert (He : is_SearchError e = true).
  { apply (intelligent_search_raises_SearchError ctx query n w).
    rewrite E. reflexivity. }
  unfold run_research_agent, try_except, time_time.
  unfold bind at 1. unfold bind at 1.
  rewrite (default_deps_Return deps ctx w Hdeps).
  unfold bind at 1. rewrite E. unfold bind at 1. unfold ret at 1.
  rewrite He. reflexivity.
Qed.

(** A summarizer that raised after a search with results is reported by
    the handler its exception selects; for anything but a [SearchError],
    the catch-all. *)
Lemma run_research_agent_summary_failed query n deps ctx w envl w1 e :
  deps_of default_deps deps = Return ctx ->
  intelligent_search ctx query n w = (Return envl, w1) ->
  results envl <> [] ->
  let o := summarize (prompt_for query envl) ctx (now w1) in
  value o = Raise e ->
  is_SearchError e = false ->
  run_research_agent default_deps summarize query n true deps w
  = (Return {| success := false; data := None;
               message := "Research failed due to unexpected error";
               error := Some ("Research agent failed: " ++ str e);
               execution_time := now w1 + elapsed o - now w; tokens_used := None |},
     {| now := now w1 + elapsed o; calls := calls w1 |}).
Proof.
  intros Hdeps E Hne o Ho He.
  unfold run_research_agent, try_except, time_time.
  unfold bind at 1. unfold bind at 1.
  rewrite (default_deps_Return deps ctx w Hdeps).
  unfold bind at 1. rewrite E.
  destruct (results envl) as [|x xs] eqn:Hr; [congruence|].
  unfold bind at 1. unfold bind at 1. unfold await.
  rewrite <- Hr. fold (prompt_for query envl). fold o. rewrite Ho.
  unfold bind at 1. unfold ret at 1. rewrite He. reflexivity.
Qed.

(** Dependencies that cannot be built are reported by the handler the
    exception selects, before anything is searched. *)
Lemma run_research_agent_no_deps query n summary deps w e :
  deps_of default_deps deps = Raise e ->
  run_research_agent default_deps summarize query n summary deps w
  = (Return {| success := false; data := None;
               message := if is_SearchError e
                          then "Research failed due to search error"
                          else "Research failed due to unexpected error";
               error := Some ((if is_SearchError e then "Search failed: "
                               else "Research agent failed: ") ++ str e);
               execution_time := now w - now w; tokens_used := None |}, w).
Proof.
  intros Hdeps.
  unfold run_research_agent, try_except, time_time.
  unfold bind at 1. unfold bind at 1.
  rewrite (default_deps_Raise deps e w Hdeps).
  unfold bind at 1. unfold ret.
  destruct (is_SearchError e); reflexivity.
Qed.

End ResearchAgent.

(** C5, as the code has it: when the search returned results and the
    summarizer raises anything but a [SearchError], [run_research_agent]
    returns one failed response, without data, whose message and error
    differ from those of a failed search.  [ctx] are the dependencies of
    the run, given or built. *)
Theorem C5_summarization_failure_is_a_distinct_failure :
  forall default_deps summarize query n deps ctx w,
    deps_of default_deps deps = Return ctx ->
    let response :=
      fst (run_research_agent default_deps summarize query n true deps w) in
    (forall envl w1 e,
        intelligent_search ctx query n w = (Return envl, w1) ->
        results envl <> [] ->
        value (summarize (prompt_for query envl) ctx (now w1)) = Raise e ->
        is_SearchError e = false ->
        exists t,
          response
          = Return {| success := false; data := None;
                      message := "Research failed due to unexpected error";
                      error := Some ("Research agent failed: " ++ str e);
                      execution_time := t; tokens_used := None |})
    /\ (forall e,
           fst (intelligent_search ctx query n w) = Raise e ->
           exists t,
             response
             = Return {| success := false; data := None;
                         message := "Research failed due to search error";
                         error := Some ("Search failed: " ++ str e);
                         execution_time := t; tokens_used := None |})
    /\ (forall e e', "Research agent failed: " ++ str e <> "Search failed: " ++ str e').
Proof.
  intros default_deps summarize query n deps ctx w Hdeps response. subst response.
  split; [|split].
  - intros envl w1 e E Hne Ho He.
    rewrite (run_research_agent_summary_failed default_deps summarize query n deps ctx w
               envl w1 e Hdeps E Hne Ho He).
    eexists. reflexivity.
  - intros e E.
    destruct (intelligent_search ctx query n w) as [r w1] eqn:Hs.
    simpl in E. subst r.
    rewrite (run_research_agent_search_failed default_deps summarize query n true deps
               ctx w e w1 Hdeps Hs).
    eexists. reflexivity.
  - intros e e'. simpl. discriminate.
Qed.

(** C5 fails as stated: the search returns two items, the summarizer
    raises, and the caller gets a failed response without the search
    results. *)
Lemma C5_counterexample :
  (exists envl w1,
      intelligent_search ctx_both_healthy "x" 5 w0 = (Return envl, w1)
      /\ length (results envl) = 2%nat)
  /\ fst (run_research_agent no_settings summarizer_down "x" 5 true
            (Some ctx_both_healthy) w0)
     = Return {| success := false; data := None;
                 message := "Research failed due to unexpected error";
                 error := Some "Research agent failed: model unavailable";
                 execution_time := 5; tokens_used := None |}.
Proof.
  split.
  - do 2 eexists. split; [vm_compute; reflexivity | reflexivity].
  - vm_compute. reflexivity.
Qed.

Lemma C5_witness :
  exists t,
    fst (run_research_agent no_settings summarizer_down "x" 5 true
           (Some ctx_both_healthy) w0)
    = Return {| success := false; data := None;
                message := "Research failed due to unexpected error";
                error := Some ("Research agent failed: "
                               ++ str (Exception "model unavailable"));
                execution_time := t; tokens_used := None |}.
Proof.
  destruct (C5_summarization_failure_is_a_distinct_failure no_settings
              summarizer_down "x" 5 (Some ctx_both_healthy) ctx_both_healthy w0
              eq_refl) as [Hsum _].
  refine (Hsum (set_search_time
                  {| query := "x";
                     results := _;
                     total_results := 2; search_time := 1;
                     providers_used := [TAVILY];
                     ai_summary := Some "Two sources agree."; timestamp := 1 |} 1)
            {| now := 1; calls := [TAVILY] |}
            (Exception "model unavailable") _ _ _ _).
  - vm_compute. reflexivity.
  - discriminate.
  - reflexivity.
  - reflexivity.
Defined.

Section EmailAgent.
Variable email_agent_run :
  string -> EmailAgentDeps.t -> Awaitable (RunResult (option EmailDraft)).
Variable default_deps : result EmailAgentDeps.t.

(** Once the email agent has written a draft, the response is a success
    that carries it, with the identifier of the mail service when
    [create_draft] returned one and as the agent wrote it when it raised. *)
Lemma run_email_agent_after_draft request content sources deps0 deps w r d :
  match deps0 with Some x => Return x | None => default_deps end = Return deps ->
  let o := email_agent_run (email_prompt_for request content sources) deps (now w) in
  value o = Return r ->
  run_data r = Some d ->
  let filed := create_draft (EmailAgentDeps.gmail_tool deps) d (now w + elapsed o) in
  fst (run_email_agent email_agent_run default_deps request content sources deps0 w)
  = Return {| success := true;
              data := Some (DataEmail
                              match value filed with
                              | Return i =>
                                  set_draft_id d
                                    (Some (Str.split_last ": "
                                             ("Gmail draft created with ID: " ++ i)))
                              | Raise _ => d
                              end);
              message := "Email draft created successfully";
              error := None;
              execution_time := now w + elapsed o + elapsed filed - now w;
              tokens_used := tokens_of r |}.
Proof.
  intros Hdeps o Ho Hd filed.
  unfold run_email_agent, try_except, time_time.
  unfold bind at 1. unfold bind at 1.
  assert (Hd0 : (match deps0 with
                 | Some d0 => ret d0
                 | None => lift default_deps
                 end) w = (Return deps, w)).
  { destruct deps0; unfold ret, lift; simpl in *; congruence. }
  rewrite Hd0. unfold bind at 1. unfold await.
  fold (email_prompt_for request content sources). fold o. rewrite Ho.
  unfold bind at 1. rewrite Hd.
  unfold create_gmail_draft, try_except, bind, await, ret, raise. simpl.
  fold filed.
  destruct (value filed) as [e|i]; simpl.
  - destruct (is_GmailAPIError e); reflexivity.
  - reflexivity.
Qed.

End EmailAgent.

(** C6, as the code has it: when the email agent has written a draft and
    the mail service's [create_draft] raises, whatever the exception,
    [run_email_agent] returns a response with [success = true] and no
    error, whose payload is the draft as the email agent wrote it: its
    [draft_id] is not assigned, so it is unset exactly when the agent left
    it unset. *)
Theorem C6_draft_creation_failure_keeps_success :
  forall email_agent_run default_deps request content sources deps0 deps w r d e,
    match deps0 with Some x => Return x | None => default_deps end = Return deps ->
    let o := email_agent_run (email_prompt_for request content sources) deps (now w) in
    value o = Return r ->
    run_data r = Some d ->
    value (create_draft (EmailAgentDeps.gmail_tool deps) d (now w + elapsed o))
    = Raise e ->
    exists response,
      fst (run_email_agent email_agent_run default_deps request content sources deps0 w)
      = Return response
      /\ success response = true
      /\ error response = None
      /\ data response = Some (DataEmail d)
      /\ (forall d', data response = Some (DataEmail d') ->
                     draft_id d' = draft_id d
                     /\ (draft_id d' = None <-> draft_id d = None)).
Proof.
  intros run dflt request content sources deps0 deps w r d e Hdeps o Ho Hd Hraise.
  rewrite (run_email_agent_after_draft run dflt request content sources deps0 deps w r d
             Hdeps Ho Hd).
  fold o. rewrite Hraise.
  eexists. split; [reflexivity|]. simpl.
  repeat split; inversion H; subst d'; auto.
Qed.

(** C6 fails as stated: the email agent wrote a draft that already names
    a draft identifier, the mail service raises, and the response is a
    success whose draft still carries that identifier. *)
Lemma C6_counterexample :
  let o := email_agent_prefilling
             (email_prompt_for sample_request "Findings" (Some ["https://example.com/a"]))
             (email_deps gmail_down) (now w0) in
  (exists r, value o = Return r /\ run_data r = Some prefilled_draft)
  /\ value (create_draft gmail_down prefilled_draft (now w0 + elapsed o))
     = Raise (GmailAPIError "Gmail API error creating draft" (Some 403))
  /\ exists response d,
       fst (run_email_agent email_agent_prefilling (Raise (Exception "no credentials"))
              sample_request "Findings" (Some ["https://example.com/a"])
              (Some (email_deps gmail_down)) w0)
       = Return response
       /\ success response = true
       /\ data response = Some (DataEmail d)
       /\ draft_id d = Some "made-up".
Proof.
  split; [eexists; split; reflexivity|].
  split; [reflexivity|].
  do 2 eexists. split; [vm_compute; reflexivity|].
  repeat split.
Qed.

Lemma C6_witness :
  exists response,
    fst (run_email_agent email_agent_ok (Raise (Exception "no credentials"))
           sample_request "Findings" (Some ["https://example.com/a"])
           (Some (email_deps gmail_down)) w0)
    = Return response
    /\ success response = true
    /\ error response = None
    /\ data response = Some (DataEmail sample_draft)
    /\ (forall d', data response = Some (DataEmail d') ->
                   draft_id d' = draft_id sample_draft
                   /\ (draft_id d' = None <-> draft_id sample_draft = None)).
Proof.
  apply (C6_draft_creation_failure_keeps_success email_agent_ok
           (Raise (Exception "no credentials")) sample_request "Findings"
           (Some ["https://example.com/a"]) (Some (email_deps gmail_down))
           (email_deps gmail_down) w0
           {| run_data := Some sample_draft;
              usage := Some {| total_tokens := Some 800 |} |}
           sample_draft
           (GmailAPIError "Gmail API error creating draft" (Some 403)));
    reflexivity.
Defined.

(** ** Further properties of the orchestrator *)

Lemma serp_only_eqb ctx :
  Settings.search_strategy (settings ctx) = "serp_only" ->
  String.eqb (Settings.search_strategy (settings ctx)) "tavily_only" = false
  /\ String.eqb (Settings.search_strategy (settings ctx)) "serp_only" = true.
Proof. intros ->. split; reflexivity. Qed.

(** X1: under "serp_only" the Tavily client is never invoked: the only
    client invocation of the run is SerpAPI's, and there is none when the
    SerpAPI key is missing, which raises "SerpAPI key not configured"; an
    exception of the SerpAPI client leaves as a [SearchError]. *)
Theorem X1_serp_only_never_invokes_tavily :
  forall ctx q n w,
    Settings.search_strategy (settings ctx) = "serp_only" ->
    let run := intelligent_search ctx q n w in
    calls (snd run)
    = (calls w ++ (if is_some (serp_tool ctx) then [SERP] else []))%list
    /\ (serp_tool ctx = None ->
        run = (Raise (SearchError "SerpAPI key not configured" None None), w))
    /\ (forall tool e,
           serp_tool ctx = Some tool ->
           value (serp_search tool q n (now w)) = Raise e ->
           fst run
           = Raise (if is_SearchError e then e
                    else SearchError ("Unexpected search error: " ++ str e) None None)).
Proof.
  intros ctx q n w Hs run. subst run.
  destruct (serp_only_eqb ctx Hs) as [Ht Hso].
  unfold intelligent_search. rewrite Ht, Hso.
  destruct (serp_tool ctx) as [tool|] eqn:Htool; unfold_M.
  - destruct (value (serp_search tool q n (now w))) as [e|r] eqn:Hv; simpl.
    + destruct (is_SearchError e) eqn:He; simpl;
        (split; [reflexivity|]; split; [discriminate|]);
        intros tool' e' Ht' Hv'; inversion Ht'; subst tool';
        rewrite Hv in Hv'; inversion Hv'; subst e'; rewrite He; reflexivity.
    + split; [reflexivity|]. split; [discriminate|].
      intros tool' e' Ht' Hv'. inversion Ht'; subst tool'.
      rewrite Hv in Hv'. discriminate.
  - split; [now rewrite app_nil_r|]. split.
    + intros _. destruct w. reflexivity.
    + intros tool e C. discriminate.
Qed.

Lemma X1_witness :
  let ctx :=
    deps_with "serp_only"
      (Some (tavily_stub (returning (envelope_of TAVILY [tavily_hit]))))
      (Some (serp_stub (raising (Exception "connection reset")))) in
  let run := intelligent_search ctx "x" 5 w0 in
  calls (snd run) = [SERP]
  /\ fst run = Raise (SearchError "Unexpected search error: connection reset" None None).
Proof.
  intros ctx run.
  destruct (X1_serp_only_never_invokes_tavily ctx "x" 5 w0 eq_refl)
    as (Hcalls & _ & Hraise).
  split; [exact Hcalls|].
  exact (Hraise _ (Exception "connection reset") eq_refl eq_refl).
Defined.

(** X2: under the fallback strategy a Tavily call that returns results
    ends the search: SerpAPI is not invoked even when configured, and the
    envelope returned is Tavily's with [search_time] set to the time the
    call took. *)
Theorem X2_healthy_tavily_is_final :
  forall ctx q n w ta ra,
    is_intelligent ctx ->
    tavily_tool ctx = Some ta ->
    let oA := tavily_search ta q n "advanced" true (now w) in
    value oA = Return ra ->
    results ra <> [] ->
    intelligent_search ctx q n w
    = (Return (set_search_time ra (elapsed oA)),
       {| now := now w + elapsed oA; calls := calls w ++ [TAVILY] |}).
Proof.
  intros ctx q n w ta ra Hi Hta oA Hv Hne.
  rewrite (intelligent_search_intelligent ctx q n w Hi).
  unfold intelligent_branch. rewrite Hta.
  unfold_M. fold oA. rewrite Hv. simpl.
  destruct (results ra) as [|x xs] eqn:Hr; [congruence|]. simpl.
  rewrite Hr. simpl. do 3 f_equal. lia.
Qed.

Lemma X2_witness :
  intelligent_search (ctx_tavily_healthy "intelligent") "x" 5 w0
  = (Return (set_search_time (envelope_of TAVILY [tavily_hit]) 2),
     {| now := 2; calls := [TAVILY] |}).
Proof.
  apply (X2_healthy_tavily_is_final (ctx_tavily_healthy "intelligent") "x" 5 w0
           (tavily_stub (returning (envelope_of TAVILY [tavily_hit])))
           (envelope_of TAVILY [tavily_hit])).
  - split; discriminate.
  - reflexivity.
  - reflexivity.
  - discriminate.
Defined.

(** X3: with the dependencies [ResearchAgentDeps()] builds, a key that is
    unset or the empty string configures no client; when that holds of both
    keys, the fallback strategy raises "No search providers configured"
    at once, with no client invoked and no time spent. *)
Theorem X3_no_keys_no_providers :
  forall (py : Python) net env q n w,
    truthy (Settings.tavily_api_key env) = false ->
    truthy (Settings.serp_api_key env) = false ->
    Settings.search_strategy env <> "tavily_only" ->
    Settings.search_strategy env <> "serp_only" ->
    intelligent_search (ResearchAgentDeps.init net env) q n w
    = (Raise (SearchError "No search providers configured" None None), w).
Proof.
  intros py net env q n w Ht Hs Hnt Hns.
  rewrite intelligent_search_intelligent by (split; assumption).
  unfold intelligent_branch, available_providers. simpl.
  destruct (Settings.tavily_api_key env) as [[|c k]|]; try discriminate;
    destruct (Settings.serp_api_key env) as [[|c' k']|]; try discriminate;
    destruct w; reflexivity.
Qed.

Lemma X3_witness :
  intelligent_search
    (ResearchAgentDeps.init (H := sample_python) (net_of timed_out timed_out)
       (env_with "intelligent" (Some "") None)) "x" 5 w0
  = (Raise (SearchError "No search providers configured" None None), w0).
Proof.
  apply (X3_no_keys_no_providers sample_python (net_of timed_out timed_out)
           (env_with "intelligent" (Some "") None) "x" 5 w0);
    (reflexivity || discriminate).
Defined.

(** X4: the [search_time] of a returned envelope is the time the run took
    on the orchestrator's clock, whatever the client had written into the
    field; and no run sets the clock back when no client takes negative
    time, so a returned [search_time] is then non-negative. *)
Theorem X4_search_time_is_run_time :
  forall ctx q n w,
    let run := intelligent_search ctx q n w in
    (forall envl, fst run = Return envl ->
                  search_time envl = now (snd run) - now w)
    /\ (punctual ctx ->
        now w <= now (snd run)
        /\ forall envl, fst run = Return envl -> 0 <= search_time envl).
Proof.
  intros ctx q n w run.
  assert (Htime : forall envl, fst run = Return envl ->
                               search_time envl = now (snd run) - now w).
  { subst run.
    unfold intelligent_search, intelligent_branch, available_providers.
    destruct (String.eqb (Settings.search_strategy (settings ctx)) "tavily_only");
      [| destruct (String.eqb (Settings.search_strategy (settings ctx)) "serp_only") ];
      destruct (tavily_tool ctx) as [ta|], (serp_tool ctx) as [sb|];
      unfold_M; cases_of_run;
      repeat match goal with
             | |- context [if is_SearchError ?e then _ else _] =>
                 destruct (is_SearchError e); simpl
             end;
      intros envl C; inversion C; subst; reflexivity. }
  split; [exact Htime|].
  intros [HpA HpB].
  assert (Hmono : now w <= now (snd run)).
  { subst run.
    unfold intelligent_search, intelligent_branch, available_providers.
    destruct (String.eqb (Settings.search_strategy (settings ctx)) "tavily_only");
      [| destruct (String.eqb (Settings.search_strategy (settings ctx)) "serp_only") ];
      destruct (tavily_tool ctx) as [ta|] eqn:Hta, (serp_tool ctx) as [sb|] eqn:Hsb;
      unfold_M; cases_of_run;
      repeat match goal with
             | |- context [if is_SearchError ?e then _ else _] =>
                 destruct (is_SearchError e); simpl
             end;
      repeat match goal with
             | |- context [elapsed (tavily_search ?t ?a ?b ?c ?d ?e)] =>
                 lazymatch goal with
                 | _ : 0 <= elapsed (tavily_search t a b c d e) |- _ => fail
                 | _ => pose proof (HpA t a b c d e eq_refl)
                 end
             | |- context [elapsed (serp_search ?t ?a ?b ?c)] =>
                 lazymatch goal with
                 | _ : 0 <= elapsed (serp_search t a b c) |- _ => fail
                 | _ => pose proof (HpB t a b c eq_refl)
                 end
             end;
      simpl; lia. }
  split; [exact Hmono|].
  intros envl E. rewrite (Htime envl E). lia.
Qed.

Lemma X4_witness :
  let run := intelligent_search ctx_timeout_then_serp "x" 5 w0 in
  now w0 <= now (snd run)
  /\ forall envl, fst run = Return envl -> 0 <= search_time envl.
Proof.
  intros run.
  destruct (X4_search_time_is_run_time ctx_timeout_then_serp "x" 5 w0) as [_ Hpos].
  apply Hpos. split.
  - intros tool q n depth answer t E. inversion E; subst tool. simpl. lia.
  - intros tool q n t E. inversion E; subst tool. simpl. lia.
Defined.

(** ** Further properties of the provider clients *)

Section ClientFailures.
Context `{Python} (net : Network).

(** X5: every exception that leaves a client's [search] is that client's
    own error class and carries no status code: the errors raised inside
    the [try] with a status code are caught by its last handler and raised
    again without one. *)
Theorem X5_client_errors_carry_no_status :
  (forall self q n depth answer incl excl w e w',
      TavilySearchTool.search net self q n depth answer incl excl w = (Raise e, w') ->
      exists msg, e = TavilyAPIError msg None)
  /\ (forall self q n country language safe period w e w',
         SerpSearchTool.search net self q n country language safe period w
         = (Raise e, w') ->
         exists msg, e = SerpAPIError msg None).
Proof.
  split.
  - intros self q n depth answer incl excl w e w'.
    unfold TavilySearchTool.search, bind, time_time, try_except.
    match goal with
    | |- (match ?body with _ => _ end) = _ -> _ => destruct body as [[e0|r] w1]
    end.
    + destruct e0; unfold raise; intros E; inversion E; eauto.
    + discriminate.
  - intros self q n country language safe period w e w'.
    unfold SerpSearchTool.search, bind, time_time, try_except.
    match goal with
    | |- (match ?body with _ => _ end) = _ -> _ => destruct body as [[e0|r] w1]
    end.
    + destruct e0; unfold raise; intros E; inversion E; eauto.
    + discriminate.
Qed.

End ClientFailures.

Lemma X5_witness :
  exists msg,
    TavilyAPIError "Unexpected Tavily search error: Tavily API returned 401: bad key" None
    = TavilyAPIError msg None.
Proof.
  destruct (X5_client_errors_carry_no_status (H := sample_python)
              (net_of
                 {| elapsed := 1;
                    value := Return {| status_code := 401; text := "nope";
                                       json_body :=
                                         Return (JDict [("error", JStr "bad key")]) |} |}
                 timed_out)) as [Htavily _].
  apply (Htavily tavily_tool0 "x" 5 "advanced" true None None w0 _
           {| now := 1; calls := [] |}).
  vm_compute. reflexivity.
Defined.

Lemma append_empty_r (s : string) : s ++ "" = s.
Proof. induction s as [|c s IH]; simpl; [reflexivity | now rewrite IH]. Qed.

Section TavilyFailures.
Context `{Python} (net : Network).

(** The message for a response that is not a 200: the status, then the
    body's "error" when it has one, or the start of the text when the
    body cannot be used. *)
Lemma tavily_error_message resp w :
  exists detail,
    try_except
      (error_data <- lift (json_body resp) ;;
       has_error <- py_contains "error" error_data ;;
       if has_error
       then e <- py_getitem error_data "error" ;;
            ret (("Tavily API returned " ++ Str.of_Z (status_code resp))
                 ++ ": " ++ str_json e)
       else ret ("Tavily API returned " ++ Str.of_Z (status_code resp)))
      (fun _ => ret (("Tavily API returned " ++ Str.of_Z (status_code resp))
                     ++ ": " ++ Str.take 200 (text resp))) w
    = (Return (("Tavily API returned " ++ Str.of_Z (status_code resp)) ++ detail), w)
    /\ (forall kvs v, json_body resp = Return (JDict kvs) ->
                      dict_lookup "error" kvs = Some v ->
                      detail = ": " ++ str_json v)
    /\ (forall e, json_body resp = Raise e ->
                  detail = ": " ++ Str.take 200 (text resp)).
Proof.
  unfold try_except, bind, lift.
  destruct (json_body resp) as [e|d] eqn:Hj.
  - eexists. split; [reflexivity|]. split; [discriminate|]. reflexivity.
  - destruct d; simpl;
      try (eexists; split; [reflexivity|]; split; discriminate).
    + destruct (Str.contains "error" s); simpl.
      * eexists. split; [reflexivity|]. split; discriminate.
      * exists "". rewrite append_empty_r. split; [reflexivity|]. split; discriminate.
    + destruct (existsb _ l); simpl.
      * eexists. split; [reflexivity|]. split; discriminate.
      * exists "". rewrite append_empty_r. split; [reflexivity|]. split; discriminate.
    + destruct (dict_lookup "error" kvs) as [v|] eqn:Hv; simpl.
      * eexists. split; [reflexivity|]. split; [|discriminate].
        intros kvs' v' E Hv'. inversion E; subst kvs'.
        rewrite Hv in Hv'. inversion Hv'. reflexivity.
      * exists "". rewrite append_empty_r. split; [reflexivity|].
        split; [|discriminate].
        intros kvs' v' E Hv'. inversion E; subst kvs'. congruence.
Qed.

End TavilyFailures.

(** X6: how the Tavily client reports a failed request.  A timeout is
    reported with the configured timeout, a transport error with its own
    text; a response that is not a 200 is reported through the catch-all
    handler, as "Unexpected Tavily search error: Tavily API returned
    <status>" followed by the body's "error" or the start of the response
    text. *)
Theorem X6_tavily_failure_messages :
  forall (py : Python) net self q n depth answer incl excl w,
    let o := post net (TavilySearchTool.base_url self ++ "/search")
               (TavilySearchTool.payload_of self q n depth answer incl excl)
               (TavilySearchTool.timeout self) (now w) in
    let w1 := {| now := now w + elapsed o; calls := calls w |} in
    let run := TavilySearchTool.search net self q n depth answer incl excl w in
    (forall m, value o = Raise (TimeoutException m) ->
               run = (Raise (TavilyAPIError
                               ("Tavily search timeout after "
                                ++ Str.of_Z (TavilySearchTool.timeout self) ++ "s")
                               None), w1))
    /\ (forall m, value o = Raise (RequestError m) ->
                  run = (Raise (TavilyAPIError ("Tavily request failed: " ++ m) None), w1))
    /\ (forall resp,
           value o = Return resp ->
           status_code resp <> 200 ->
           exists detail,
             run = (Raise (TavilyAPIError
                             ("Unexpected Tavily search error: Tavily API returned "
                              ++ Str.of_Z (status_code resp) ++ detail) None), w1)
             /\ (forall kvs v, json_body resp = Return (JDict kvs) ->
                               dict_lookup "error" kvs = Some v ->
                               detail = ": " ++ str_json v)
             /\ (forall e, json_body resp = Raise e ->
                           detail = ": " ++ Str.take 200 (text resp))).
Proof.
  intros py net self q n depth answer incl excl w o w1 run. subst run.
  split; [|split].
  - intros m Ho. unfold TavilySearchTool.search, try_except, time_time, await.
    unfold bind at 1. unfold bind at 1. fold o. rewrite Ho. reflexivity.
  - intros m Ho. unfold TavilySearchTool.search, try_except, time_time, await.
    unfold bind at 1. unfold bind at 1. fold o. rewrite Ho. reflexivity.
  - intros resp Ho Hst. apply Z.eqb_neq in Hst.
    destruct (tavily_error_message resp w1) as (detail & Hmsg & Hdict & Hraw).
    exists detail. split; [|split; assumption].
    unfold TavilySearchTool.search, time_time, await.
    unfold bind at 1. unfold try_except at 1.
    unfold bind at 1. fold o. rewrite Ho. fold w1. rewrite Hst. simpl negb. cbv iota.
    unfold bind at 1. unfold bind at 1. rewrite Hmsg. 
    unfold raise. simpl. reflexivity.
Qed.

Lemma X6_witness :
  TavilySearchTool.search (H := sample_python) (net_of unauthorized timed_out)
    tavily_tool0 "x" 5 "advanced" true None None w0
  = (Raise (TavilyAPIError
              "Unexpected Tavily search error: Tavily API returned 401: bad key" None),
     {| now := 1; calls := [] |}).
Proof.
  destruct (X6_tavily_failure_messages sample_python (net_of unauthorized timed_out)
              tavily_tool0 "x" 5 "advanced" true None None w0) as (_ & _ & Hstatus).
  destruct (Hstatus _ eq_refl) as (detail & Hrun & Hdict & _); [discriminate|].
  rewrite Hrun.
  rewrite (Hdict [("error", JStr "bad key")] (JStr "bad key") eq_refl eq_refl).
  reflexivity.
Defined.

(** X7: a 200 answer from SerpAPI whose body has an "error" key is a
    failure whatever else the body holds: [search] raises, through the
    catch-all handler, "Unexpected SerpAPI search error: SerpAPI error:
    <error>", and builds no envelope. *)
Theorem X7_serp_error_in_body :
  forall (py : Python) net self q n country language safe period w resp kvs v,
    let o := get net (SerpSearchTool.base_url self)
               (SerpSearchTool.params_of self q n country language safe period)
               (SerpSearchTool.timeout self) (now w) in
    value o = Return resp ->
    status_code resp = 200 ->
    json_body resp = Return (JDict kvs) ->
    dict_lookup "error" kvs = Some v ->
    SerpSearchTool.search net self q n country language safe period w
    = (Raise (SerpAPIError
                ("Unexpected SerpAPI search error: SerpAPI error: " ++ str_json v) None),
       {| now := now w + elapsed o; calls := calls w |}).
Proof.
  intros py net self q n country language safe period w resp kvs v o Ho Hst Hj Hv.
  unfold SerpSearchTool.search, try_except, bind, time_time, await, lift.
  simpl. fold o. rewrite Ho. simpl. rewrite Hst. simpl. rewrite Hj. simpl.
  rewrite Hv. reflexivity.
Qed.

Lemma X7_witness :
  SerpSearchTool.search (H := sample_python)
    (net_of timed_out (answered organic_with_error)) serp_tool0
    "x" 5 "us" "en" "off" None w0
  = (Raise (SerpAPIError
              "Unexpected SerpAPI search error: SerpAPI error: out of searches" None),
     {| now := 1; calls := [] |}).
Proof.
  exact (X7_serp_error_in_body sample_python
           (net_of timed_out (answered organic_with_error)) serp_tool0
           "x" 5 "us" "en" "off" None w0 _ _ (JStr "out of searches")
           eq_refl eq_refl eq_refl eq_refl).
Defined.

(** X8: the clients cap the number of results they ask for: asking the
    Tavily client for more than 50 is asking it for 50, and the SerpAPI
    client for more than 100 is asking it for 100. *)
Theorem X8_result_caps :
  forall (py : Python) net,
    (forall self q n depth answer incl excl,
        50 <= n ->
        TavilySearchTool.search net self q n depth answer incl excl
        = TavilySearchTool.search net self q 50 depth answer incl excl)
    /\ (forall self q n country language safe period,
           100 <= n ->
           SerpSearchTool.search net self q n country language safe period
           = SerpSearchTool.search net self q 100 country language safe period).
Proof.
  intros py net. split.
  - intros self q n depth answer incl excl Hn.
    unfold TavilySearchTool.search, TavilySearchTool.payload_of.
    rewrite (Z.min_r n 50 Hn). rewrite Z.min_id. reflexivity.
  - intros self q n country language safe period Hn.
    unfold SerpSearchTool.search, SerpSearchTool.params_of.
    rewrite (Z.min_r n 100 Hn). rewrite Z.min_id. reflexivity.
Qed.

Lemma X8_witness :
  TavilySearchTool.search (H := sample_python) (net_of (answered tavily_two) timed_out)
    tavily_tool0 "x" 500 "advanced" true None None
  = TavilySearchTool.search (H := sample_python) (net_of (answered tavily_two) timed_out)
      tavily_tool0 "x" 50 "advanced" true None None.
Proof.
  destruct (X8_result_caps sample_python (net_of (answered tavily_two) timed_out))
    as [Htavily _].
  apply Htavily. lia.
Defined.

(** X9: the summary the SerpAPI client writes tells the number of results
    and the URLs of the first three only: two non-empty result lists of
    the same length that agree on their first three URLs get the same
    summary. *)
Theorem X9_summary_reads_count_and_top_three :
  forall l1 l2,
    l1 <> [] ->
    length l1 = length l2 ->
    map result_url (firstn 3 l1) = map result_url (firstn 3 l2) ->
    SerpSearchTool._generate_summary l1 = SerpSearchTool._generate_summary l2.
Proof.
  intros l1 l2 Hne Hlen Hurls.
  destruct l1 as [|x1 r1]; [congruence|].
  destruct l2 as [|x2 r2]; [discriminate|].
  unfold SerpSearchTool._generate_summary.
  rewrite Hlen, Hurls. reflexivity.
Qed.

Lemma X9_witness :
  SerpSearchTool._generate_summary [serp_hit; tavily_hit; serp_hit; serp_hit]
  = SerpSearchTool._generate_summary [serp_hit; tavily_hit; serp_hit; tavily_hit].
Proof.
  apply X9_summary_reads_count_and_top_three; [discriminate | reflexivity | reflexivity].
Defined.

Section ItemConstraints.
Context `{Python} (net : Network).

Lemma tavily_make_result_constraints raw w item w' :
  TavilySearchTool.make_result raw w = (Return item, w') -> within_constraints item.
Proof.
  unfold TavilySearchTool.make_result. intros E.
  repeat (apply bind_Return in E as (? & ? & _ & E)).
  destruct (field_str "" x) as [ti|]; try (exfalso; exact (fault_not_Return _ _ _ _ E)).
  destruct (field_str "" x1) as [u|]; try (exfalso; exact (fault_not_Return _ _ _ _ E)).
  destruct (field_str "" x3) as [c|]; try (exfalso; exact (fault_not_Return _ _ _ _ E)).
  destruct (TavilySearchTool.field_score x5) as [s|] eqn:Hs;
    try (exfalso; exact (fault_not_Return _ _ _ _ E)).
  destruct (field_opt_str x7) as [pd|]; try (exfalso; exact (fault_not_Return _ _ _ _ E)).
  destruct (field_opt_str x9) as [rc|]; try (exfalso; exact (fault_not_Return _ _ _ _ E)).
  apply ret_Return in E as [<- _]. simpl.
  unfold TavilySearchTool.field_score in Hs.
  destruct x5 as [v|].
  - destruct (validate_float v) as [q0|]; [|discriminate].
    destruct (Qle_bool 0 q0 && Qle_bool q0 1) eqn:Hb; [|discriminate].
    inversion Hs; subst s. apply andb_prop in Hb. exact Hb.
  - inversion Hs; subst s. split; reflexivity.
Qed.

Lemma serp_make_result_position i raw w item w' :
  SerpSearchTool.make_result i raw w = (Return item, w') ->
  exists r, item = OfSerp r
            /\ 1 <= SerpSearchResult.position r
            /\ (forall kvs, raw = JDict kvs -> dict_lookup "position" kvs = None ->
                            SerpSearchResult.position r = i + 1).
Proof.
  unfold SerpSearchTool.make_result. intros E.
  apply bind_Return in E as (x & wx & Hx & E).
  apply py_get_Return in Hx as (kvs & -> & -> & ->).
  simpl in E. unfold bind, ret in E. simpl in E.
  destruct (field_str "" (dict_lookup "title" kvs)) as [ti|];
    try (exfalso; exact (fault_not_Return _ _ _ _ E)).
  destruct (field_str "" (dict_lookup "link" kvs)) as [u|];
    try (exfalso; exact (fault_not_Return _ _ _ _ E)).
  destruct (field_str "" (dict_lookup "snippet" kvs)) as [sn|];
    try (exfalso; exact (fault_not_Return _ _ _ _ E)).
  destruct (SerpSearchTool.field_position (i + 1) (dict_lookup "position" kvs))
    as [p|] eqn:Hp; try (exfalso; exact (fault_not_Return _ _ _ _ E)).
  destruct (field_opt_str (dict_lookup "displayed_link" kvs)) as [dl|];
    try (exfalso; exact (fault_not_Return _ _ _ _ E)).
  destruct (field_opt_str (dict_lookup "cached_page_link" kvs)) as [cl|];
    try (exfalso; exact (fault_not_Return _ _ _ _ E)).
  inversion E; subst item w'. eexists. split; [reflexivity|]. simpl.
  unfold SerpSearchTool.field_position in Hp.
  split.
  - destruct (dict_lookup "position" kvs) as [v|].
    + destruct (validate_int v) as [z|]; [|discriminate].
      destruct (1 <=? z) eqn:Hz; [|discriminate].
      inversion Hp; subst p. apply Z.leb_le. exact Hz.
    + destruct (1 <=? i + 1) eqn:Hz; [|discriminate].
      inversion Hp; subst p. apply Z.leb_le. exact Hz.
  - intros kvs' Ek Hnone. inversion Ek; subst kvs'.
    rewrite Hnone in Hp.
    destruct (1 <=? i + 1); [|discriminate]. inversion Hp. reflexivity.
Qed.

End ItemConstraints.

(** X10: the items of an envelope a client returns satisfy the field
    constraints of the models: every Tavily item has a score between 0 and
    1 and every SerpAPI item a position of at least 1; and a SerpAPI item
    whose backend element gives no position gets its rank in the list,
    counted from 1. *)
Theorem X10_items_within_constraints :
  forall (py : Python) net,
    (forall self q n depth answer incl excl w env w',
        TavilySearchTool.search net self q n depth answer incl excl w = (Return env, w') ->
        Forall within_constraints (results env))
    /\ (forall self q n country language safe period w env w',
           SerpSearchTool.search net self q n country language safe period w
           = (Return env, w') ->
           Forall within_constraints (results env)
           /\ forall resp kvs raws i fields,
               value (get net (SerpSearchTool.base_url self)
                        (SerpSearchTool.params_of self q n country language safe period)
                        (SerpSearchTool.timeout self) (now w)) = Return resp ->
               json_body resp = Return (JDict kvs) ->
               dict_lookup "organic_results" kvs = Some (JList raws) ->
               nth_error raws i = Some (JDict fields) ->
               dict_lookup "position" fields = None ->
               exists r, nth_error (results env) i = Some (OfSerp r)
                         /\ SerpSearchResult.position r = Z.of_nat i + 1).
Proof.
  intros py net. split.
  - intros self q n depth answer incl excl w env w' E.
    destruct (tavily_search_Return net _ _ _ _ _ _ _ _ _ _ E)
      as (resp & kvs & items & _ & _ & _ & _ & Hlen & Hnth & _).
    apply (in_order_Forall (fun _ raw => fst (TavilySearchTool.make_result raw w0)) items).
    + split; assumption.
    + intros i raw item Hn.
      assert (E' := tavily_make_result_pure raw w0). rewrite Hn in E'.
      exact (tavily_make_result_constraints _ _ _ _ E').
  - intros self q n country language safe period w env w' E.
    destruct (serp_search_Return net _ _ _ _ _ _ _ _ _ _ E)
      as (resp & kvs & items & Hresp & _ & Hjson & _ & Hitems & Hlen & Hnth & _).
    split.
    + apply (in_order_Forall
               (fun i raw => fst (SerpSearchTool.make_result (Z.of_nat i) raw w0)) items).
      * split; assumption.
      * intros i raw item Hn.
        assert (E' := serp_make_result_pure (Z.of_nat i) raw w0). rewrite Hn in E'.
        destruct (serp_make_result_position _ _ _ _ _ E') as (r & -> & Hpos & _).
        exact Hpos.
    + intros resp' kvs' raws i fields Hresp' Hjson' Hraws Hi Hnone.
      rewrite Hresp in Hresp'. inversion Hresp'; subst resp'.
      rewrite Hjson in Hjson'. inversion Hjson'; subst kvs'.
      rewrite Hraws in Hitems. simpl in Hitems. inversion Hitems; subst items.
      destruct (Hnth i (JDict fields) Hi) as (item & Hitem & Hn).
      assert (E' := serp_make_result_pure (Z.of_nat i) (JDict fields) w0).
      rewrite Hn in E'.
      destruct (serp_make_result_position _ _ _ _ _ E') as (r & -> & _ & Hrank).
      exists r. split; [exact Hitem|]. exact (Hrank fields eq_refl Hnone).
Qed.

Lemma X10_witness :
  exists r,
    nth_error (results serp_one_envelope) 0 = Some (OfSerp r)
    /\ SerpSearchResult.position r = Z.of_nat 0 + 1.
Proof.
  destruct (X10_items_within_constraints sample_python
              (net_of timed_out (answered organic_one))) as [_ Hserp].
  destruct (Hserp serp_tool0 "x" 5 "us" "en" "off" None
              {| now := 30; calls := [] |} serp_one_envelope
              {| now := 31; calls := [] |}) as [_ Hrank].
  - vm_compute. reflexivity.
  - refine (Hrank (http_ok organic_one) _ organic_one_items 0%nat _
              eq_refl eq_refl eq_refl eq_refl eq_refl).
Defined.

(** ** Further properties of the email agent *)

(** X11: [format_research_content] lists the first five sources only, and
    writes no source list at all when sources are not asked for or there
    are none. *)
Theorem X11_at_most_five_sources :
  forall content sources,
    format_research_content content sources true
    = format_research_content content (firstn 5 sources) true
    /\ format_research_content content sources false = "<div>" ++ content ++ "</div>"
    /\ (forall flag, format_research_content content [] flag
                     = "<div>" ++ content ++ "</div>").
Proof.
  intros content sources. split; [|split].
  - destruct sources as [|s rest]; [reflexivity|].
    assert (Hf : firstn 5 (firstn 5 (s :: rest)) = firstn 5 (s :: rest))
      by (rewrite firstn_firstn; reflexivity).
    unfold format_research_content. cbn [firstn] in *.
    rewrite Hf. reflexivity.
  - unfold format_research_content. reflexivity.
  - intros flag. unfold format_research_content. destruct flag; reflexivity.
Qed.

Lemma split_aux_step sep cur c s :
  Str.split_aux sep 0 cur (String c s)
  = if prefix sep (String c s)
    then cur :: Str.split_aux sep (String.length sep - 1) "" s
    else Str.split_aux sep 0 (cur ++ String c EmptyString) s.
Proof. reflexivity. Qed.

Lemma append_snoc cur c s : (cur ++ String c EmptyString) ++ s = cur ++ String c s.
Proof. induction cur as [|a cur IH]; simpl; [reflexivity | now rewrite IH]. Qed.

(** A string that does not contain the separator is one piece. *)
Lemma split_aux_no_sep sep s :
  forall cur, Str.contains sep s = false -> Str.split_aux sep 0 cur s = [cur ++ s].
Proof.
  induction s as [|c s IH]; intros cur Hc.
  - simpl. now rewrite append_empty_r.
  - rewrite split_aux_step.
    change (Str.contains sep (String c s))
      with (prefix sep (String c s) || Str.contains sep s) in Hc.
    apply orb_false_elim in Hc as [Hp Hrest].
    rewrite Hp. rewrite (IH _ Hrest). now rewrite append_snoc.
Qed.

Lemma prefix_empty s : prefix "" s = true.
Proof. destruct s; reflexivity. Qed.

(** The last piece of the text [create_gmail_draft] returns. *)
Lemma created_message_split_last :
  forall i,
    Str.contains ": " i = false ->
    Str.split_last ": " ("Gmail draft created with ID: " ++ i) = i.
Proof.
  intros i Hi. unfold Str.split_last, Str.split.
  cbn -[prefix Str.split_aux].
  repeat (rewrite split_aux_step; cbn [prefix ascii_dec Ascii.ascii_dec]; 
          cbn -[Str.split_aux]).
  rewrite prefix_empty.
  change (Str.split_aux ": " 1 "" (String " " i)) with (Str.split_aux ": " 0 "" i).
  rewrite (split_aux_no_sep ": " i "" Hi). reflexivity.
Qed.


(** X12: the identifier [run_email_agent] reads back from the text
    [create_gmail_draft] returns is the identifier the mail service gave,
    provided it holds no colon followed by a space. *)
Theorem X12_draft_id_is_read_back :
  forall i,
    Str.contains ": " i = false ->
    Str.split_last ": " ("Gmail draft created with ID: " ++ i) = i.
Proof. exact created_message_split_last. Qed.

Lemma X12_witness :
  Str.split_last ": " ("Gmail draft created with ID: " ++ "r-42") = "r-42".
Proof. apply X12_draft_id_is_read_back. reflexivity. Defined.

(** X13: when the email agent has written a draft and the mail service
    files it under an identifier without a colon followed by a space,
    [run_email_agent] returns a success whose draft is the agent's with
    that identifier as [draft_id]. *)
Theorem X13_filed_draft_carries_its_id :
  forall email_agent_run default_deps request content sources deps0 deps w r d i,
    match deps0 with Some x => Return x | None => default_deps end = Return deps ->
    let o := email_agent_run (email_prompt_for request content sources) deps (now w) in
    value o = Return r ->
    run_data r = Some d ->
    value (create_draft (EmailAgentDeps.gmail_tool deps) d (now w + elapsed o))
    = Return i ->
    Str.contains ": " i = false ->
    exists response,
      fst (run_email_agent email_agent_run default_deps request content sources deps0 w)
      = Return response
      /\ success response = true
      /\ data response = Some (DataEmail (set_draft_id d (Some i)))
      /\ tokens_used response = tokens_of r.
Proof.
  intros run dflt request content sources deps0 deps w r d i Hdeps o Ho Hd Hfiled Hi.
  rewrite (run_email_agent_after_draft run dflt request content sources deps0 deps w r d
             Hdeps Ho Hd).
  fold o. rewrite Hfiled. rewrite (created_message_split_last i Hi).
  eexists. split; [reflexivity|]. simpl. auto.
Qed.

Lemma X13_witness :
  exists response,
    fst (run_email_agent email_agent_ok (Raise (Exception "no credentials"))
           sample_request "Findings" (Some ["https://example.com/a"])
           (Some (email_deps gmail_up)) w0)
    = Return response
    /\ success response = true
    /\ data response = Some (DataEmail (set_draft_id sample_draft (Some "r-42")))
    /\ tokens_used response = Some 800.
Proof.
  apply (X13_filed_draft_carries_its_id email_agent_ok
           (Raise (Exception "no credentials")) sample_request "Findings"
           (Some ["https://example.com/a"]) (Some (email_deps gmail_up))
           (email_deps gmail_up) w0
           {| run_data := Some sample_draft;
              usage := Some {| total_tokens := Some 800 |} |}
           sample_draft "r-42");
    reflexivity.
Defined.

Ltac well_formed_now := unfold well_formed; simpl; repeat split; eauto.

(** X14: [run_email_agent] never raises: whatever the email agent, the
    mail service and the construction of the dependencies do, the caller
    gets a response, and the response is well formed; it is a failure
    exactly when the dependencies cannot be built or the email agent
    raises. *)
Theorem X14_run_email_agent_always_answers :
  forall email_agent_run default_deps request content sources deps0 w,
    exists response w',
      run_email_agent email_agent_run default_deps request content sources deps0 w
      = (Return response, w')
      /\ well_formed response
      /\ (success response = false <->
          match (match deps0 with Some x => Return x | None => default_deps end) with
          | Raise _ => True
          | Return deps =>
              exists e,
                value (email_agent_run (email_prompt_for request content sources)
                         deps (now w)) = Raise e
          end).
Proof.
  intros run dflt request content sources deps0 w.
  unfold run_email_agent, try_except, time_time.
  unfold bind at 1. unfold bind at 1.
  assert (Hd0 : (match deps0 with
                 | Some d0 => ret d0
                 | None => lift dflt
                 end) w
                = (match deps0 with Some x => Return x | None => dflt end, w)).
  { destruct deps0; reflexivity. }
  rewrite Hd0.
  destruct (match deps0 with Some x => Return x | None => dflt end) as [e|deps].
  - unfold bind at 1. do 2 eexists. split; [reflexivity|].
    split; [well_formed_now | simpl; tauto].
  - unfold bind at 1. unfold await.
    fold (email_prompt_for request content sources).
    destruct (value (run (email_prompt_for request content sources) deps (now w)))
      as [e|r] eqn:Hr.
    + unfold bind at 1. do 2 eexists. split; [reflexivity|].
      split; [well_formed_now|]. simpl. split; eauto.
    + unfold bind at 1.
      destruct (run_data r) as [d|].
      * unfold create_gmail_draft, try_except, bind, await, ret, raise. simpl.
        destruct (value (create_draft (EmailAgentDeps.gmail_tool deps) d _)) as [e|i];
          simpl; [destruct (is_GmailAPIError e)|];
          (do 2 eexists; split; [reflexivity|]; split; [well_formed_now|];
           simpl; split; [discriminate | intros [e' C]; discriminate]).
      * unfold bind, ret. simpl.
        do 2 eexists. split; [reflexivity|]. split; [well_formed_now|].
        simpl. split; [discriminate | intros [e' C]; discriminate].
Qed.

(** ** Further properties of the research agent *)

(** X15: [run_research_agent] never raises: whatever the construction of
    the dependencies, the search and the summarizer do, the caller gets a
    well-formed response.  It is a success only when the dependencies were
    given or built and the search returned results; its message counts
    them, and the data it carries hold the query alone: the summary, the
    envelope of the search and the sources are not in the response.
    Dependencies that cannot be built make it a failure before anything is
    searched. *)
Theorem X15_run_research_agent_always_answers :
  forall default_deps summarize query n summary deps w,
    exists response w',
      run_research_agent default_deps summarize query n summary deps w
      = (Return response, w')
      /\ well_formed response
      /\ (success response = true ->
          exists ctx envl w1,
            deps_of default_deps deps = Return ctx
            /\ intelligent_search ctx query n w = (Return envl, w1)
            /\ results envl <> []
            /\ message response
               = "Research completed successfully with "
                 ++ Str.of_nat (length (results envl)) ++ " sources"
            /\ data response
               = Some (DataSearch
                         {| query := query; results := []; total_results := 0;
                            search_time := 0; providers_used := [];
                            ai_summary := None; timestamp := now w' |}))
      /\ (forall e,
             deps_of default_deps deps = Raise e ->
             success response = false
             /\ error response
                = Some ((if is_SearchError e then "Search failed: "
                         else "Research agent failed: ") ++ str e)
             /\ w' = w).
Proof.
  intros default_deps summarize query n summary deps w.
  destruct (deps_of default_deps deps) as [e0|ctx] eqn:Hdeps.
  { rewrite (run_research_agent_no_deps default_deps summarize query n summary deps w
               e0 Hdeps).
    do 2 eexists. split; [reflexivity|].
    split; [well_formed_now|].
    split; [discriminate|].
    intros e E. inversion E; subst e. simpl. auto. }
  unfold run_research_agent, try_except, time_time.
  unfold bind at 1. unfold bind at 1.
  rewrite (default_deps_Return default_deps deps ctx w Hdeps).
  unfold bind at 1.
  destruct (intelligent_search ctx query n w) as [[e|envl] w1] eqn:Hs.
  - unfold bind at 1. unfold ret.
    destruct (is_SearchError e);
      (do 2 eexists; split; [reflexivity|]; split; [well_formed_now|];
       split; discriminate).
  - destruct (results envl) as [|x xs] eqn:Hr.
    + unfold bind, ret. simpl.
      do 2 eexists. split; [reflexivity|]. split; [well_formed_now|].
      split; discriminate.
    + unfold bind at 1. unfold bind at 1.
      destruct summary.
      * unfold bind at 1. unfold await.
        match goal with
        | |- context [value ?o] => destruct (value o) as [e|r]
        end.
        -- unfold bind at 1. unfold ret.
           destruct (is_SearchError e);
             (do 2 eexists; split; [reflexivity|]; split; [well_formed_now|];
              split; discriminate).
        -- unfold bind, ret. simpl.
           do 2 eexists. split; [reflexivity|]. split; [well_formed_now|].
           split; [|discriminate].
           intros _. exists ctx, envl, w1. rewrite Hr.
           repeat split; [exact Hs | discriminate].
      * unfold bind, ret. simpl.
        do 2 eexists. split; [reflexivity|]. split; [well_formed_now|].
        split; [|discriminate].
        intros _. exists ctx, envl, w1. rewrite Hr.
        repeat split; [exact Hs | discriminate].
Qed.

(** X16: without a summary ([create_summary] false) the summarizer plays
    no part: the run is the same whichever summarizer is given, and when
    the search returned results the response is a success that counts them
    in its message, has no token count, and carries the query alone as
    data: the numbered listing written in place of the summary is built
    and then left out of the response. *)
Theorem X16_no_summary_skips_the_summarizer :
  forall default_deps query n deps w,
    (forall summarize summarize',
        run_research_agent default_deps summarize query n false deps w
        = run_research_agent default_deps summarize' query n false deps w)
    /\ (forall summarize ctx envl w1,
           deps_of default_deps deps = Return ctx ->
           intelligent_search ctx query n w = (Return envl, w1) ->
           results envl <> [] ->
           run_research_agent default_deps summarize query n false deps w
           = (Return {| success := true;
                        data := Some (stored
                                        {| rd_summary :=
                                             results_text_from 1 (results envl);
                                           rd_search_results := envl;
                                           rd_sources := map result_url (results envl);
                                           rd_query := query |} (now w1));
                        message := "Research completed successfully with "
                                   ++ Str.of_nat (length (results envl))
                                   ++ " sources";
                        error := None;
                        execution_time := now w1 - now w;
                        tokens_used := None |}, w1)
           /\ forall d t,
                rd_query d = query ->
                stored d t
                = DataSearch {| query := query; results := []; total_results := 0;
                                search_time := 0; providers_used := [];
                                ai_summary := None; timestamp := t |}).
Proof.
  intros default_deps query n deps w. split.
  - intros summarize summarize'. reflexivity.
  - intros summarize ctx envl w1 Hdeps Hs Hne. split.
    + unfold run_research_agent, try_except, time_time.
      unfold bind at 1. unfold bind at 1.
      rewrite (default_deps_Return default_deps deps ctx w Hdeps).
      unfold bind at 1. rewrite Hs.
      destruct (results envl) as [|x xs] eqn:Hr; [congruence|].
      unfold bind at 1. rewrite <- Hr.
      unfold bind, ret. simpl. reflexivity.
    + intros d t <-. reflexivity.
Qed.

Lemma X16_witness :
  exists response,
    run_research_agent no_settings summarizer_down "x" 5 false
      (Some ctx_both_healthy) w0
    = (Return response, {| now := 1; calls := [TAVILY] |})
    /\ success response = true
    /\ tokens_used response = None
    /\ data response
       = Some (DataSearch {| query := "x"; results := []; total_results := 0;
                             search_time := 0; providers_used := [];
                             ai_summary := None; timestamp := 1 |}).
Proof.
  destruct (X16_no_summary_skips_the_summarizer no_settings
              "x" 5 (Some ctx_both_healthy) w0) as [_ Hlisting].
  edestruct (Hlisting summarizer_down ctx_both_healthy) as [Hrun _].
  - reflexivity.
  - vm_compute. reflexivity.
  - vm_compute. discriminate.
  - eexists. split; [exact Hrun|]. repeat split.
Defined.

(** ** The n8n entry points *)

Lemma n8n_item_provider item :
  n8n_provider (n8n_item item) = SearchProvider_value (result_provider item).
Proof. destruct item; reflexivity. Qed.

(** X17: [n8n_intelligent_search] never raises.  When the import of the
    agents or the construction of the dependencies raises, whatever the
    exception, nothing is searched and the failure dictionary carries its
    text.  Otherwise the success dictionary holds one dictionary per result
    of the search and counts them, and the failure dictionary carries the
    text of the [SearchError] the search raised.  With the dependencies
    [ResearchAgentDeps()] builds from the settings, a success dictionary
    names one provider, and every result dictionary names that provider. *)
Theorem X17_n8n_search_always_answers :
  forall q n strategy w,
    (forall construct,
        exists response w',
          n8n_intelligent_search construct q n strategy w = (Return response, w')
          /\ match construct with
             | Raise e => response = N8nFailure (str e) q /\ w' = w
             | Return deps =>
                 let run := intelligent_search (with_strategy deps strategy) q n w in
                 match response with
                 | N8nSuccess q' total _ provs _ items _ =>
                     q' = q
                     /\ total = Z.of_nat (length items)
                     /\ exists envl,
                          fst run = Return envl
                          /\ items = map n8n_item (results envl)
                          /\ provs = map SearchProvider_value (providers_used envl)
                 | N8nFailure err q' =>
                     q' = q
                     /\ exists e,
                          fst run = Raise e
                          /\ is_SearchError e = true
                          /\ err = str e
                 end
             end)
    /\ (forall (py : Python) net env,
           exists response w',
             n8n_intelligent_search (Return (ResearchAgentDeps.init net env))
               q n strategy w
             = (Return response, w')
             /\ match response with
                | N8nSuccess _ _ _ provs _ items _ =>
                    exists p,
                      provs = [SearchProvider_value p]
                      /\ Forall (fun it => n8n_provider it = SearchProvider_value p)
                           items
                | N8nFailure _ _ => True
                end).
Proof.
  intros q n strategy w. split.
  - intros [e0|deps].
    + do 2 eexists. split; [reflexivity|]. split; reflexivity.
    + unfold n8n_intelligent_search, try_except, bind, lift.
      fold (with_strategy deps strategy).
      destruct (intelligent_search (with_strategy deps strategy) q n w)
        as [[e|envl] w1] eqn:Hs.
      * do 2 eexists. split; [reflexivity|]. simpl. split; [reflexivity|].
        exists e. repeat split.
        apply (intelligent_search_raises_SearchError
                 (with_strategy deps strategy) q n w).
        rewrite Hs. reflexivity.
      * do 2 eexists. split; [reflexivity|]. simpl. split; [reflexivity|].
        split; [reflexivity|]. exists envl. repeat split.
  - intros py net env.
    unfold n8n_intelligent_search, try_except, bind, lift.
    fold (with_strategy (ResearchAgentDeps.init net env) strategy).
    destruct (intelligent_search
                (with_strategy (ResearchAgentDeps.init net env) strategy) q n w)
      as [[e|envl] w1] eqn:Hs.
    + do 2 eexists. split; [reflexivity|]. exact I.
    + do 2 eexists. split; [reflexivity|].
      destruct (intelligent_search_Return
                  (with_strategy (ResearchAgentDeps.init net env) strategy) q n w envl)
        as (p & attempts & r & t & _ & _ & Hby & ->); [rewrite Hs; reflexivity|].
      assert (Hlab : labelled p r).
      { apply (returned_by_real_labelled net env q n p r).
        destruct p; exact Hby. }
      destruct Hlab as [Hp Hitems].
      exists p. simpl. rewrite Hp. split; [reflexivity|].
      apply Forall_map. apply Forall_forall. intros item Hin.
      rewrite n8n_item_provider. f_equal.
      exact (proj1 (Forall_forall _ _) Hitems item Hin).
Qed.

(** One value per element, each with the property the step guarantees. *)
Lemma mapM_Forall {A B} (f : A -> M B) (P : B -> Prop) :
  (forall x w y w', f x w = (Return y, w') -> P y) ->
  forall l w ys w',
    mapM f l w = (Return ys, w') -> length ys = length l /\ Forall P ys.
Proof.
  intros Hf l. induction l as [|x rest IH]; intros w ys w' E; simpl in E.
  - apply ret_Return in E as [<- _]. split; [reflexivity | constructor].
  - apply bind_Return in E as (y & w1 & Hy & E).
    apply bind_Return in E as (zs & w2 & Hzs & E).
    apply ret_Return in E as [<- _].
    destruct (IH _ _ _ Hzs) as [Hlen Hall].
    split; [simpl; now rewrite Hlen|].
    constructor; [exact (Hf _ _ _ _ Hy) | exact Hall].
Qed.

Lemma n8n_tavily_items_total l w :
  Forall is_tavily_item l ->
  exists ys, mapM n8n_tavily_item l w = (Return ys, w).
Proof.
  induction 1 as [|x rest Hx _ IH]; simpl.
  - eexists. reflexivity.
  - destruct IH as [ys Hys]. unfold bind.
    destruct x as [r|r]; simpl in *; [|contradiction].
    rewrite Hys. eexists. reflexivity.
Qed.

Lemma n8n_serp_items_total l w :
  Forall is_serp_item l ->
  exists ys, mapM n8n_serp_item l w = (Return ys, w).
Proof.
  induction 1 as [|x rest Hx _ IH]; simpl.
  - eexists. reflexivity.
  - destruct IH as [ys Hys]. unfold bind.
    destruct x as [r|r]; simpl in *; [contradiction|].
    rewrite Hys. eexists. reflexivity.
Qed.

Section ItemClasses.
Context `{Python} (net : Network).

Lemma tavily_make_result_class raw w item w' :
  TavilySearchTool.make_result raw w = (Return item, w') -> is_tavily_item item.
Proof.
  unfold TavilySearchTool.make_result. intros E.
  repeat (apply bind_Return in E as (? & ? & _ & E)).
  repeat match type of E with
         | context [match ?x with _ => _ end] => destruct x
         end;
    try (exfalso; exact (fault_not_Return _ _ _ _ E)).
  apply ret_Return in E as [<- _]. exact I.
Qed.

Lemma serp_make_result_class i raw w item w' :
  SerpSearchTool.make_result i raw w = (Return item, w') -> is_serp_item item.
Proof.
  unfold SerpSearchTool.make_result. intros E.
  repeat (apply bind_Return in E as (? & ? & _ & E)).
  repeat match type of E with
         | context [match ?x with _ => _ end] => destruct x
         end;
    try (exfalso; exact (fault_not_Return _ _ _ _ E)).
  apply ret_Return in E as [<- _]. exact I.
Qed.

(** A client returns items of its own class only. *)
Lemma tavily_search_items self q n depth answer incl excl w env w' :
  TavilySearchTool.search net self q n depth answer incl excl w = (Return env, w') ->
  Forall is_tavily_item (results env).
Proof.
  intros E.
  destruct (tavily_search_Return net _ _ _ _ _ _ _ _ _ _ E)
    as (resp & kvs & items & _ & _ & _ & _ & Hlen & Hnth & _).
  apply (in_order_Forall (fun _ raw => fst (TavilySearchTool.make_result raw w0)) items).
  - split; assumption.
  - intros i raw item Hn.
    assert (E' := tavily_make_result_pure raw w0). rewrite Hn in E'.
    exact (tavily_make_result_class _ _ _ _ E').
Qed.

Lemma serp_search_items self q n country language safe period w env w' :
  SerpSearchTool.search net self q n country language safe period w = (Return env, w') ->
  Forall is_serp_item (results env).
Proof.
  intros E.
  destruct (serp_search_Return net _ _ _ _ _ _ _ _ _ _ E)
    as (resp & kvs & items & _ & _ & _ & _ & _ & Hlen & Hnth & _).
  apply (in_order_Forall
           (fun i raw => fst (SerpSearchTool.make_result (Z.of_nat i) raw w0)) items).
  - split; assumption.
  - intros i raw item Hn.
    assert (E' := serp_make_result_pure (Z.of_nat i) raw w0). rewrite Hn in E'.
    exact (serp_make_result_class _ _ _ _ _ E').
Qed.

End ItemClasses.

Lemma n8n_tavily_item_provider x w y w' :
  n8n_tavily_item x w = (Return y, w') -> nt_provider y = "tavily".
Proof.
  destruct x; simpl; intros E.
  - apply ret_Return in E as [<- _]. reflexivity.
  - exfalso. exact (raise_not_Return _ _ _ _ E).
Qed.

Lemma n8n_serp_item_provider x w y w' :
  n8n_serp_item x w = (Return y, w') -> ns_provider y = "serp".
Proof.
  destruct x; simpl; intros E.
  - exfalso. exact (raise_not_Return _ _ _ _ E).
  - apply ret_Return in E as [<- _]. reflexivity.
Qed.

(** X18: the single-provider n8n entry points never raise.  Without the
    provider's key in the environment (unset or empty) they return the
    failure dictionary "<KEY> not found in environment" without a request;
    with it, they return a failure dictionary with the client's error text
    when the client raises, and otherwise a success dictionary with one
    result dictionary per item, all naming the provider, and their count
    as [total_results]. *)
Theorem X18_n8n_provider_searches :
  forall (py : Python) net getenv q n w,
    (truthy (getenv "TAVILY_API_KEY") = false ->
     n8n_tavily_search net getenv q n w
     = (Return (N8nTavilyFailure "TAVILY_API_KEY not found in environment" q), w))
    /\ (forall key,
           getenv "TAVILY_API_KEY" = Some key -> truthy (Some key) = true ->
           match TavilySearchTool.search net (TavilySearchTool.init key 30) q n
                   "advanced" true None None w with
           | (Raise e, w1) =>
               n8n_tavily_search net getenv q n w
               = (Return (N8nTavilyFailure (str e) q), w1)
           | (Return envl, w1) =>
               exists items,
                 n8n_tavily_search net getenv q n w
                 = (Return (N8nTavilySuccess q (Z.of_nat (length (results envl)))
                              (search_time envl) (ai_summary envl) items), w1)
                 /\ length items = length (results envl)
                 /\ Forall (fun it => nt_provider it = "tavily") items
           end)
    /\ (truthy (getenv "SERP_API_KEY") = false ->
        n8n_serp_search net getenv q n w
        = (Return (N8nSerpFailure "SERP_API_KEY not found in environment" q), w))
    /\ (forall key,
           getenv "SERP_API_KEY" = Some key -> truthy (Some key) = true ->
           match SerpSearchTool.search net (SerpSearchTool.init key 30) q n
                   "us" "en" "off" None w with
           | (Raise e, w1) =>
               n8n_serp_search net getenv q n w
               = (Return (N8nSerpFailure (str e) q), w1)
           | (Return envl, w1) =>
               exists items,
                 n8n_serp_search net getenv q n w
                 = (Return (N8nSerpSuccess q (Z.of_nat (length (results envl)))
                              (search_time envl) items), w1)
                 /\ length items = length (results envl)
                 /\ Forall (fun it => ns_provider it = "serp") items
           end).
Proof.
  intros py net getenv q n w. split; [|split; [|split]].
  - intros Hk. unfold n8n_tavily_search, try_except.
    destruct (getenv "TAVILY_API_KEY") as [[|c k]|]; try discriminate; reflexivity.
  - intros key Hkey Htruthy. unfold n8n_tavily_search, try_except. rewrite Hkey.
    destruct key as [|c k]; [discriminate|].
    destruct (TavilySearchTool.search net (TavilySearchTool.init (String c k) 30) q n
                "advanced" true None None w) as [[e|envl] w1] eqn:Hs.
    + unfold bind. rewrite Hs. reflexivity.
    + destruct (n8n_tavily_items_total (results envl) w1
                  (tavily_search_items net _ _ _ _ _ _ _ _ _ _ Hs)) as [items Hitems].
      destruct (mapM_Forall n8n_tavily_item (fun it => nt_provider it = "tavily")
                  n8n_tavily_item_provider _ _ _ _ Hitems) as [Hlen Hall].
      exists items. split; [|split; assumption].
      unfold bind. rewrite Hs, Hitems. unfold ret. rewrite Hlen. reflexivity.
  - intros Hk. unfold n8n_serp_search, try_except.
    destruct (getenv "SERP_API_KEY") as [[|c k]|]; try discriminate; reflexivity.
  - intros key Hkey Htruthy. unfold n8n_serp_search, try_except. rewrite Hkey.
    destruct key as [|c k]; [discriminate|].
    destruct (SerpSearchTool.search net (SerpSearchTool.init (String c k) 30) q n
                "us" "en" "off" None w) as [[e|envl] w1] eqn:Hs.
    + unfold bind. rewrite Hs. reflexivity.
    + destruct (n8n_serp_items_total (results envl) w1
                  (serp_search_items net _ _ _ _ _ _ _ _ _ _ Hs)) as [items Hitems].
      destruct (mapM_Forall n8n_serp_item (fun it => ns_provider it = "serp")
                  n8n_serp_item_provider _ _ _ _ Hitems) as [Hlen Hall].
      exists items. split; [|split; assumption].
      unfold bind. rewrite Hs, Hitems. unfold ret. rewrite Hlen. reflexivity.
Qed.

Lemma X18_witness :
  n8n_serp_search (H := sample_python) (net_of (answered tavily_two) (answered organic_one))
    (environ_of (Some "tvly-key") (Some "")) "x" 5 w0
  = (Return (N8nSerpFailure "SERP_API_KEY not found in environment" "x"), w0).
Proof.
  destruct (X18_n8n_provider_searches sample_python
              (net_of (answered tavily_two) (answered organic_one))
              (environ_of (Some "tvly-key") (Some "")) "x" 5 w0)
    as (_ & _ & Hserp & _).
  apply Hserp. reflexivity.
Defined.

(** ** Validated settings *)

Section ClientRaises.
Context `{Python} (net : Network).

Lemma tavily_client_raises tool q n depth answer t e :
  value (tavily_search (ResearchAgentDeps.tavily_client net tool) q n depth answer t)
  = Raise e ->
  exists msg, e = TavilyAPIError msg None.
Proof.
  simpl. unfold as_awaitable.
  destruct (TavilySearchTool.search net tool q n depth answer None None
              {| now := t; calls := [] |}) as [r w'] eqn:E.
  simpl. intros ->. revert E.
  unfold TavilySearchTool.search, bind, time_time, try_except.
  match goal with
  | |- (match ?body with _ => _ end) = _ -> _ => destruct body as [[e0|r0] w1]
  end.
  - destruct e0; unfold raise; intros E; inversion E; eauto.
  - discriminate.
Qed.

Lemma serp_client_raises tool q n t e :
  value (serp_search (ResearchAgentDeps.serp_client net tool) q n t) = Raise e ->
  exists msg, e = SerpAPIError msg None.
Proof.
  simpl. unfold as_awaitable.
  destruct (SerpSearchTool.search net tool q n "us" "en" "off" None
              {| now := t; calls := [] |}) as [r w'] eqn:E.
  simpl. intros ->. revert E.
  unfold SerpSearchTool.search, bind, time_time, try_except.
  match goal with
  | |- (match ?body with _ => _ end) = _ -> _ => destruct body as [[e0|r0] w1]
  end.
  - destruct e0; unfold raise; intros E; inversion E; eauto.
  - discriminate.
Qed.

Lemma init_tavily_tool env tool :
  tavily_tool (ResearchAgentDeps.init net env) = Some tool ->
  exists t, tool = ResearchAgentDeps.tavily_client net t.
Proof.
  simpl. destruct (Settings.tavily_api_key env) as [[|c k]|]; try discriminate.
  intros E. inversion E. eauto.
Qed.

Lemma init_serp_tool env tool :
  serp_tool (ResearchAgentDeps.init net env) = Some tool ->
  exists t, tool = ResearchAgentDeps.serp_client net t.
Proof.
  simpl. destruct (Settings.serp_api_key env) as [[|c k]|]; try discriminate.
  intros E. inversion E. eauto.
Qed.

(** With the clients [ResearchAgentDeps()] builds, a configuration error
    is raised only when the provider the strategy needs is missing. *)
Lemma configuration_error_means_missing env q n w e :
  let ctx := ResearchAgentDeps.init net env in
  fst (intelligent_search ctx q n w) = Raise e ->
  configuration_error e ->
  (Settings.search_strategy env = "tavily_only" /\ tavily_tool ctx = None)
  \/ (Settings.search_strategy env = "serp_only" /\ serp_tool ctx = None)
  \/ (is_intelligent ctx /\ tavily_tool ctx = None /\ serp_tool ctx = None).
Proof.
  intros ctx Hraise Hcfg.
  destruct (String.eqb (Settings.search_strategy env) "tavily_only") eqn:Et;
    [| destruct (String.eqb (Settings.search_strategy env) "serp_only") eqn:Es ].
  - left. split; [now apply String.eqb_eq|].
    destruct (tavily_tool ctx) as [tool|] eqn:Htool; [exfalso | reflexivity].
    destruct (init_tavily_tool env tool Htool) as [t Ht].
    revert Hraise. unfold intelligent_search.
    change (Settings.search_strategy (settings ctx)) with (Settings.search_strategy env).
    rewrite Et, Htool. unfold_M.
    destruct (value (tavily_search tool q n "advanced" true (now w)))
      as [e0|r0] eqn:Hv; simpl.
    + rewrite Ht in Hv.
      destruct (tavily_client_raises _ _ _ _ _ _ _ Hv) as [msg ->]. simpl.
      intros C. inversion C; subst.
      destruct Hcfg as [C'|[C'|C']]; discriminate.
    + discriminate.
  - right. left. split; [now apply String.eqb_eq|].
    destruct (serp_tool ctx) as [tool|] eqn:Htool; [exfalso | reflexivity].
    destruct (init_serp_tool env tool Htool) as [t Ht].
    revert Hraise. unfold intelligent_search.
    change (Settings.search_strategy (settings ctx)) with (Settings.search_strategy env).
    rewrite Et, Es, Htool. unfold_M.
    destruct (value (serp_search tool q n (now w))) as [e0|r0] eqn:Hv; simpl.
    + rewrite Ht in Hv.
      destruct (serp_client_raises _ _ _ _ _ Hv) as [msg ->]. simpl.
      intros C. inversion C; subst.
      destruct Hcfg as [C'|[C'|C']]; discriminate.
    + discriminate.
  - right. right.
    assert (Hi : is_intelligent ctx).
    { split; apply String.eqb_neq; assumption. }
    split; [exact Hi|].
    destruct (intelligent_failure_message ctx q n w e Hi Hraise)
      as [[-> _]|[[_ Hnone]|[-> Hne]]].
    + exfalso. destruct Hcfg as [C|[C|C]]; discriminate.
    + exact Hnone.
    + exfalso. revert Hcfg Hne. unfold available_providers.
      destruct (tavily_tool ctx), (serp_tool ctx); simpl;
        intros [C|[C|C]] Hne; try discriminate; congruence.
Qed.

End ClientRaises.

Lemma validation_errors_nil llm s :
  validate_api_keys llm s = Return tt -> validation_errors llm s = [].
Proof.
  unfold validate_api_keys. destruct (validation_errors llm s); [reflexivity|discriminate].
Qed.

(** X19: settings that pass [validate_api_keys] configure every client
    their strategy uses, so a search run on them under one of the three
    strategies never fails for a missing configuration: what it raises is
    none of "Tavily API key not configured", "SerpAPI key not configured"
    and "No search providers configured". *)
Theorem X19_validated_settings_are_configured :
  forall (py : Python) net llm s,
    validate_api_keys llm s = Return tt ->
    let ctx := ResearchAgentDeps.init net s in
    (Settings.search_strategy s = "tavily_only"
     \/ Settings.search_strategy s = "intelligent" -> tavily_tool ctx <> None)
    /\ (Settings.search_strategy s = "serp_only"
        \/ Settings.search_strategy s = "intelligent" -> serp_tool ctx <> None)
    /\ (Settings.search_strategy s = "tavily_only"
        \/ Settings.search_strategy s = "serp_only"
        \/ Settings.search_strategy s = "intelligent" ->
        forall q n w e,
          fst (intelligent_search ctx q n w) = Raise e -> ~ configuration_error e).
Proof.
  intros py net llm s Hok ctx.
  apply validation_errors_nil in Hok. unfold validation_errors in Hok.
  apply app_eq_nil in Hok as [_ Hok]. apply app_eq_nil in Hok as [Ht Hs].
  assert (HT : Settings.search_strategy s = "tavily_only"
               \/ Settings.search_strategy s = "intelligent" ->
               tavily_tool ctx <> None).
  { subst ctx. simpl.
    intros [E|E]; rewrite E in Ht; simpl in Ht;
      destruct (Settings.tavily_api_key s) as [[|c k]|]; simpl in Ht; congruence. }
  assert (HS : Settings.search_strategy s = "serp_only"
               \/ Settings.search_strategy s = "intelligent" ->
               serp_tool ctx <> None).
  { subst ctx. simpl.
    intros [E|E]; rewrite E in Hs; simpl in Hs;
      destruct (Settings.serp_api_key s) as [[|c k]|]; simpl in Hs; congruence. }
  split; [exact HT|]. split; [exact HS|].
  intros Hstrategy q n w e Hraise Hcfg.
  destruct (configuration_error_means_missing net s q n w e Hraise Hcfg)
    as [[E Hnone]|[[E Hnone]|[[Hnt Hns] [Hnone _]]]].
  - exact (HT (or_introl E) Hnone).
  - exact (HS (or_introl E) Hnone).
  - destruct Hstrategy as [E|[E|E]].
    + exact (Hnt E).
    + exact (Hns E).
    + exact (HT (or_intror E) Hnone).
Qed.

Lemma X19_witness :
  ~ configuration_error (SearchError msg_serp_failed None None).
Proof.
  destruct (X19_validated_settings_are_configured sample_python
              (net_of timed_out timed_out) gemini_settings
              (env_with "intelligent" (Some "tvly-key") (Some "serp-key")) eq_refl)
    as (_ & _ & Hnever).
  apply (Hnever (or_intror (or_intror eq_refl)) "x" 5 w0).
  vm_compute. reflexivity.
Defined.

(** ** Which provider failed *)

(** X20: an error raised under the fallback strategy never tells which
    provider failed: it is a plain [SearchError] with neither provider nor
    status code, whatever the clients raised.  Under "tavily_only" with
    the client [ResearchAgentDeps()] builds, an error of the client leaves
    as it is, a [TavilyAPIError], whose provider is Tavily. *)
Theorem X20_fallback_errors_name_no_provider :
  (forall ctx q n w e,
      is_intelligent ctx ->
      fst (intelligent_search ctx q n w) = Raise e ->
      exists msg, e = SearchError msg None None /\ exn_provider e = None)
  /\ (forall (py : Python) net env q n w e,
         Settings.search_strategy env = "tavily_only" ->
         tavily_tool (ResearchAgentDeps.init net env) <> None ->
         fst (intelligent_search (ResearchAgentDeps.init net env) q n w) = Raise e ->
         exists msg, e = TavilyAPIError msg None /\ exn_provider e = Some TAVILY).
Proof.
  split.
  - intros ctx q n w e Hi Hraise.
    destruct (intelligent_failure_message ctx q n w e Hi Hraise)
      as [[-> _]|[[-> _]|[-> _]]]; eexists; split; reflexivity.
  - intros py net env q n w e Hs Hcfg.
    destruct (tavily_tool (ResearchAgentDeps.init net env)) as [tool|] eqn:Htool;
      [|congruence].
    destruct (init_tavily_tool net env tool Htool) as [t Ht].
    unfold intelligent_search.
    change (Settings.search_strategy (settings (ResearchAgentDeps.init net env)))
      with (Settings.search_strategy env).
    rewrite Hs, Htool. unfold_M.
    destruct (value (tavily_search tool q n "advanced" true (now w)))
      as [e0|r0] eqn:Hv; simpl.
    + rewrite Ht in Hv.
      destruct (tavily_client_raises net _ _ _ _ _ _ _ Hv) as [msg ->]. simpl.
      intros C. inversion C; subst. eexists. split; reflexivity.
    + discriminate.
Qed.

Lemma X20_witness :
  exists msg,
    SearchError msg_serp_failed None None = SearchError msg None None
    /\ exn_provider (SearchError msg_serp_failed None None) = None.
Proof.
  destruct X20_fallback_errors_name_no_provider as [Hplain _].
  apply (Hplain ctx_serp_key_only_down "x" 5 w0).
  - split; discriminate.
  - vm_compute. reflexivity.
Defined.

(** X21: the SerpAPI request carries a recency filter exactly for the five
    periods "hour", "day", "week", "month" and "year": each of them selects
    "qdr:" followed by its first letter, and no period, the empty string
    and any other string select none.  The filter goes into the request
    parameters as it is. *)
Theorem X21_recency_filter :
  forall period filter,
    (SerpSearchTool.tbs_of period = Some filter
     <-> exists p, period = Some p
                   /\ In p ["hour"; "day"; "week"; "month"; "year"]
                   /\ filter = "qdr:" ++ substring 0 1 p)
    /\ forall self q n country language safe,
         sp_tbs (SerpSearchTool.params_of self q n country language safe period)
         = SerpSearchTool.tbs_of period.
Proof.
  intros period filter. split; [split|reflexivity].
  - intros E. destruct period as [p|]; [|discriminate].
    exists p. split; [reflexivity|].
    destruct p as [|c p']; [simpl in E; discriminate|].
    unfold SerpSearchTool.tbs_of, SerpSearchTool.time_filters in E.
    cbn [SerpSearchTool.assoc] in E.
    repeat match type of E with
           | (if String.eqb ?a ?b then _ else _) = _ =>
               let Heq := fresh "Heq" in
               destruct (String.eqb a b) eqn:Heq;
               [ apply String.eqb_eq in Heq; rewrite Heq; inversion E; subst filter;
                 split; [simpl; tauto | reflexivity]
               | ]
           end.
    discriminate.
  - intros (p & -> & Hin & ->). simpl in Hin.
    destruct Hin as [<-|[<-|[<-|[<-|[<-|[]]]]]]; reflexivity.
Qed.

Lemma X21_witness :
  SerpSearchTool.tbs_of (Some "week") = Some "qdr:w".
Proof.
  apply (proj1 (X21_recency_filter (Some "week") "qdr:w")).
  exists "week". simpl. tauto.
Defined.
